(** * Workout history view

    A model of [web/js/history.js]: the browser script that fetches the list
    of workouts from the local service and writes it, as cards, into the
    [workoutList] element.

    The script is JavaScript, so the values it handles are dynamically typed.
    The model keeps them that way: a parsed response body is a [value], a
    property read or a conversion may fault, and both functions of the script,
    [loadWorkouts] and [formatDate], are translated statement by statement on
    top of the language operations they use (property reads, template
    literals, [Math.round], [new Date], [toLocaleDateString]).

    What the browser decides is an input of the model: the two DOM elements,
    the outcome of the request, and the host's time zone. *)

From Stdlib Require Import ZArith QArith Qabs Lia List Bool.
From Stdlib Require Import Strings.String Strings.Ascii.
From Stdlib Require Import Numbers.DecimalString.
From Stdlib Require Import Floats.SpecFloat.
From Stdlib Require Import Numbers.DecimalPos QArith.Qround Lqa.
Import ListNotations.

Set Warnings "-register-all".

Local Open Scope string_scope.
Local Open Scope Z_scope.

(** ** Text *)

Module Text.

(** The double quote, which a string literal of this file cannot hold. *)
Definition dq : string := String "034" "".

(** [contains sub s]: the characters of [sub] stand in [s], next to each
    other and in order. *)
Definition contains (sub s : string) : Prop :=
  exists pre post, s = pre ++ sub ++ post.

(** [Array.prototype.join('')] on an array of strings. *)
Definition join_empty (parts : list string) : string := String.concat "" parts.

Fixpoint zeros (n : nat) : string :=
  match n with
  | O => ""
  | S n' => String "0" (zeros n')
  end.

(** Decimal digits of a natural number given as an integer. *)
Definition digits_of_Z (z : Z) : string :=
  NilZero.string_of_uint (N.to_uint (Z.to_N z)).

(** Length in UTF-16 code units of a string held as UTF-8 bytes: what
    [.length] reads on a JavaScript string. *)
Fixpoint utf16_length (s : string) : Z :=
  match s with
  | EmptyString => 0
  | String c rest =>
      let b := Z.of_nat (nat_of_ascii c) in
      (if b <? 128 then 1
       else if b <? 192 then 0
       else if b <? 240 then 1
       else 2) + utf16_length rest
  end.

End Text.

(** ** Numbers

    A JavaScript number is an IEEE 754 double.  It is held as the Standard
    Library's [spec_float]: a signed zero, an infinity, NaN, or a sign, a
    mantissa and a binary exponent denoting [(-1)^s * m * 2^e].  The
    operations below depend on the denoted value only, so a mantissa need
    not be normalised. *)

Module Num.

Definition number : Set := spec_float.

Definition NaN : number := S754_nan.
Definition pos_zero : number := S754_zero false.

Definition signed (s : bool) (m : positive) : Z :=
  if s then Z.neg m else Z.pos m.

(** The number whose value is the integer [z]; [szero] is the sign given
    to a zero. *)
Definition number_of_Z (z : Z) (szero : bool) : number :=
  match z with
  | Z0 => S754_zero szero
  | Z.pos p => S754_finite false p 0
  | Z.neg p => S754_finite true p 0
  end.

(** The value of a finite number, as a rational. *)
Definition pow2 (e : Z) : Q :=
  if 0 <=? e then inject_Z (2 ^ e) else Qmake 1 (Z.to_pos (2 ^ (- e))).

Definition pow10 (p : Z) : Q :=
  if 0 <=? p then inject_Z (10 ^ p) else Qmake 1 (Z.to_pos (10 ^ (- p))).

Definition number_value (x : number) : option Q :=
  match x with
  | S754_zero _ => Some 0%Q
  | S754_finite s m e => Some (inject_Z (signed s m) * pow2 e)%Q
  | S754_infinity _ | S754_nan => None
  end.

(** [x === 0] for a number [x]: both zeros are equal to [0]. *)
Definition is_zero (x : number) : bool :=
  match x with
  | S754_zero _ => true
  | _ => false
  end.

(** [Math.round]: the integer nearest to [x], the larger one on a tie;
    a negative [x] that rounds to zero gives [-0]. *)
Definition Math_round (x : number) : number :=
  match x with
  | S754_finite s m e =>
      if 0 <=? e then x
      else
        let d := 2 ^ (- e) in
        number_of_Z ((2 * signed s m + d) / (2 * d)) s
  | _ => x
  end.

(** ToIntegerOrInfinity on a finite number: truncation towards zero. *)
Definition truncate (x : number) : option Z :=
  match x with
  | S754_zero _ => Some 0
  | S754_finite s m e =>
      Some (if 0 <=? e then signed s m * 2 ^ e
            else Z.quot (signed s m) (2 ^ (- e)))
  | S754_infinity _ | S754_nan => None
  end.

(** *** Number::toString

    The shortest decimal that reads back as the same double (ECMA-262,
    Number::toString with radix 10): the least number [k] of digits for
    which some [s * 10^p], with [s] of [k] digits, lies in the rounding
    interval of the double, and among those the [s] nearest to it. *)

Definition Qfloor_Z (q : Q) : Z := Qnum q / Z.pos (Qden q).

Definition Qleb (a b : Q) : bool :=
  match Qcompare a b with
  | Gt => false
  | _ => true
  end.

Definition Qltb (a b : Q) : bool :=
  match Qcompare a b with
  | Lt => true
  | _ => false
  end.

Fixpoint log10_adjust (fuel : nat) (v : Q) (E : Z) : Z :=
  match fuel with
  | O => E
  | S f => if Qleb (pow10 (E + 1)) v then log10_adjust f v (E + 1) else E
  end.

(** The [E] with [10^E <= m * 2^e < 10^(E+1)], from the bit length. *)
Definition log10_floor (m : positive) (e : Z) : Z :=
  let bits := Z.pos (digits2_pos m) + e in
  log10_adjust 4 (inject_Z (Z.pos m) * pow2 e) ((bits - 1) * 30103 / 100000 - 1).

Record decimal := { dec_s : Z; dec_p : Z }.

(** The decimal of [k] digits that reads back as the double [m * 2^e]
    (a normalised mantissa), when there is one. *)
Definition shortest_at (m : positive) (e E k : Z) : option decimal :=
  let v := (inject_Z (Z.pos m) * pow2 e)%Q in
  let hu := pow2 (e - 1) in
  let hd := if (Z.pos m =? 2 ^ 52) && (-1074 <? e)
            then pow2 (e - 2) else pow2 (e - 1) in
  let lo := (v - hd)%Q in
  let hi := (v + hu)%Q in
  let inside (u : Q) :=
    if Z.even (Z.pos m) then Qleb lo u && Qleb u hi
    else Qltb lo u && Qltb u hi in
  let p := E + 1 - k in
  let s_lo := Qfloor_Z (v / pow10 p) in
  let s_hi := s_lo + 1 in
  let u_lo := (inject_Z s_lo * pow10 p)%Q in
  let u_hi := (inject_Z s_hi * pow10 p)%Q in
  match (0 <? s_lo) && inside u_lo, inside u_hi with
  | true, true =>
      match Qcompare (v - u_lo) (u_hi - v) with
      | Lt => Some {| dec_s := s_lo; dec_p := p |}
      | Gt => Some {| dec_s := s_hi; dec_p := p |}
      | Eq => Some {| dec_s := if Z.even s_lo then s_lo else s_hi; dec_p := p |}
      end
  | true, false => Some {| dec_s := s_lo; dec_p := p |}
  | false, true => Some {| dec_s := s_hi; dec_p := p |}
  | false, false => None
  end.

Fixpoint shortest_from (fuel : nat) (m : positive) (e E k : Z) : decimal :=
  match fuel with
  | O => {| dec_s := Z.pos m; dec_p := 0 |}
  | S f =>
      match shortest_at m e E k with
      | Some d => d
      | None => shortest_from f m e E (k + 1)
      end
  end.

Fixpoint strip_zeros (fuel : nat) (d : decimal) : decimal :=
  match fuel with
  | O => d
  | S f =>
      if negb (dec_s d =? 0) && (dec_s d mod 10 =? 0)
      then strip_zeros f {| dec_s := dec_s d / 10; dec_p := dec_p d + 1 |}
      else d
  end.

(** The digits [D] of [s] and the exponent [n = p + k], laid out as
    Number::toString does. *)
Definition format_decimal (d : decimal) : string :=
  let D := Text.digits_of_Z (dec_s d) in
  let k := Z.of_nat (String.length D) in
  let n := dec_p d + k in
  if (k <=? n) && (n <=? 21) then D ++ Text.zeros (Z.to_nat (n - k))
  else if (0 <? n) && (n <=? 21) then
    substring 0 (Z.to_nat n) D ++ "." ++ substring (Z.to_nat n) (Z.to_nat (k - n)) D
  else if (-6 <? n) && (n <=? 0) then "0." ++ Text.zeros (Z.to_nat (- n)) ++ D
  else
    let ex := n - 1 in
    let sgn := if ex <? 0 then "-" else "+" in
    if k =? 1 then D ++ "e" ++ sgn ++ Text.digits_of_Z (Z.abs ex)
    else substring 0 1 D ++ "." ++ substring 1 (Z.to_nat (k - 1)) D
         ++ "e" ++ sgn ++ Text.digits_of_Z (Z.abs ex).

Definition Number_toString_pos (m : positive) (e : Z) : string :=
  match binary_normalize 53 1024 (Z.pos m) e false with
  | S754_finite _ m' e' =>
      format_decimal (strip_zeros 400 (shortest_from 20 m' e' (log10_floor m' e') 1))
  | S754_zero _ => "0"
  | S754_infinity _ => "Infinity"
  | S754_nan => "NaN"
  end.

Definition Number_toString (x : number) : string :=
  match x with
  | S754_nan => "NaN"
  | S754_zero _ => "0"
  | S754_infinity s => if s then "-Infinity" else "Infinity"
  | S754_finite s m e => (if s then "-" else "") ++ Number_toString_pos m e
  end.

(** *** StringToNumber

    The conversion [Math.round] applies to a string (ECMA-262,
    StringToNumber): white space is trimmed, the empty string is [+0], a
    decimal literal (with fraction, exponent, sign or [Infinity]) or an
    unsigned binary, octal or hexadecimal integer literal is rounded to the
    nearest double, and anything else is NaN. *)

Definition byte (c : ascii) : Z := Z.of_nat (nat_of_ascii c).

(** One white space or line terminator code point at the head of a UTF-8
    string, when there is one. *)
Definition skip_space (s : string) : option string :=
  match s with
  | String c1 r1 =>
      let b1 := byte c1 in
      if (b1 =? 9) || (b1 =? 10) || (b1 =? 11) || (b1 =? 12) || (b1 =? 13) || (b1 =? 32)
      then Some r1
      else
        match r1 with
        | String c2 r2 =>
            let b2 := byte c2 in
            if (b1 =? 194) && (b2 =? 160) then Some r2
            else
              match r2 with
              | String c3 r3 =>
                  let b3 := byte c3 in
                  if (b1 =? 225) && (b2 =? 154) && (b3 =? 128) then Some r3
                  else if (b1 =? 226) && (b2 =? 128)
                          && (((128 <=? b3) && (b3 <=? 138)) || (b3 =? 168) || (b3 =? 169) || (b3 =? 175))
                  then Some r3
                  else if (b1 =? 226) && (b2 =? 129) && (b3 =? 159) then Some r3
                  else if (b1 =? 227) && (b2 =? 128) && (b3 =? 128) then Some r3
                  else if (b1 =? 239) && (b2 =? 187) && (b3 =? 191) then Some r3
                  else None
              | EmptyString => None
              end
        | EmptyString => None
        end
  | EmptyString => None
  end.

Fixpoint trim_start (fuel : nat) (s : string) : string :=
  match fuel with
  | O => s
  | S f =>
      match skip_space s with
      | Some r => trim_start f r
      | None => s
      end
  end.

Definition all_space (s : string) : bool :=
  match trim_start (String.length s) s with
  | EmptyString => true
  | String _ _ => false
  end.

(** The digit a character denotes in base [base], if any. *)
Definition digit_in (base : Z) (c : ascii) : option Z :=
  let b := byte c in
  let d := if (48 <=? b) && (b <=? 57) then b - 48
           else if (97 <=? b) && (b <=? 102) then b - 87
           else if (65 <=? b) && (b <=? 70) then b - 55
           else 99 in
  if d <? base then Some d else None.

(** The longest run of digits at the head of [s]: its value after [acc],
    how many digits were read, and what follows. *)
Fixpoint read_digits (base : Z) (s : string) (acc : Z) (n : Z) : Z * Z * string :=
  match s with
  | String c r =>
      match digit_in base c with
      | Some d => read_digits base r (acc * base + d) (n + 1)
      | None => (acc, n, s)
      end
  | EmptyString => (acc, n, s)
  end.

(** An exponent part at the head of [s]: its value and what follows; no
    exponent part leaves [s] as it is. *)
Definition read_exponent (s : string) : Z * string :=
  match s with
  | String c r =>
      if (byte c =? 101) || (byte c =? 69) then
        let '(sg, r') :=
          match r with
          | String c' r'' =>
              if byte c' =? 45 then (-1, r'')
              else if byte c' =? 43 then (1, r'')
              else (1, r)
          | EmptyString => (1, r)
          end in
        let '(v, n, rest) := read_digits 10 r' 0 0 in
        if 0 <? n then (sg * v, rest) else (0, s)
      else (0, s)
  | EmptyString => (0, s)
  end.

(** The double nearest to [a / b] (ties to even), for positive [a], [b]. *)
Definition nearest_double (sign : bool) (a b : Z) : number :=
  let '(mz, ez, lz) := SFdiv_core_binary 53 1024 a 0 b 0 in
  binary_round_aux 53 1024 sign mz ez lz.

(** The double nearest to [mant * 10^ex]. *)
Definition decimal_to_number (sign : bool) (mant ex digits : Z) : number :=
  if mant =? 0 then S754_zero sign
  else if 400 <? ex then S754_infinity sign
  else if ex <? - (digits + 400) then S754_zero sign
  else if 0 <=? ex then nearest_double sign (mant * 10 ^ ex) 1
  else nearest_double sign mant (10 ^ (- ex)).

Definition starts_with (p s : string) : option string :=
  if String.prefix p s
  then Some (substring (String.length p) (String.length s - String.length p) s)
  else None.

(** StrUnsignedDecimalLiteral at the head of [s], and what follows. *)
Definition read_unsigned_decimal (sign : bool) (s : string) : option (number * string) :=
  match starts_with "Infinity" s with
  | Some rest => Some (S754_infinity sign, rest)
  | None =>
      let '(v1, n1, r1) := read_digits 10 s 0 0 in
      let '(v2, n2, r2) :=
        match r1 with
        | String "." r => read_digits 10 r v1 0
        | _ => (v1, 0, r1)
        end in
      if n1 + n2 =? 0 then None
      else
        let '(ex, r3) := read_exponent r2 in
        Some (decimal_to_number sign v2 (ex - n2) (n1 + n2), r3)
  end.

(** NonDecimalIntegerLiteral: [0b], [0o] or [0x] and at least one digit. *)
Definition read_non_decimal (s : string) : option (number * string) :=
  match s with
  | String "0" (String c r) =>
      let b := byte c in
      let base := if (b =? 98) || (b =? 66) then 2
                  else if (b =? 111) || (b =? 79) then 8
                  else if (b =? 120) || (b =? 88) then 16
                  else 0 in
      if base =? 0 then None
      else
        let '(v, n, rest) := read_digits base r 0 0 in
        if 0 <? n then Some (binary_normalize 53 1024 v 0 false, rest) else None
  | _ => None
  end.

Definition read_numeric (s : string) : option (number * string) :=
  match read_non_decimal s with
  | Some r => Some r
  | None =>
      match s with
      | String "+" r => read_unsigned_decimal false r
      | String "-" r => read_unsigned_decimal true r
      | _ => read_unsigned_decimal false s
      end
  end.

Definition StringToNumber (s : string) : number :=
  let t := trim_start (String.length s) s in
  match t with
  | EmptyString => pos_zero
  | String _ _ =>
      match read_numeric t with
      | Some (x, rest) => if all_space rest then x else NaN
      | None => NaN
      end
  end.

End Num.

(** ** The host

    What ECMA-262 leaves to the implementation and the script relies on: the
    offset of local time from UTC, in milliseconds, at a time value [t]
    ([LocalTZA(t, isUTC)]), and the time value [Date.parse] gives to a string
    that is not in the date-time string format ([None] for NaN). *)

Record host := {
  LocalTZA : Z -> bool -> Z;
  Date_parse_fallback : string -> option Z
}.

(** ** Dates (ECMA-262, Date objects; ECMA-402 for the en-US text) *)

Module JSDate.

(** A time value: milliseconds since 1970-01-01T00:00:00Z, or NaN. *)
Definition time_value : Set := option Z.

Definition msPerDay : Z := 86400000.

Definition Day (t : Z) : Z := t / msPerDay.

Definition DayFromYear (y : Z) : Z :=
  365 * (y - 1970) + (y - 1969) / 4 - (y - 1901) / 100 + (y - 1601) / 400.

Definition InLeapYear (y : Z) : bool :=
  (y mod 4 =? 0) && (negb (y mod 100 =? 0) || (y mod 400 =? 0)).

(** The year [y] with [DayFromYear y <= day < DayFromYear (y + 1)]. *)
Definition YearFromDay (day : Z) : Z :=
  let y := 1970 + day * 400 / 146097 in
  if DayFromYear (y + 1) <=? day then y + 1
  else if DayFromYear y <=? day then y
  else y - 1.

Definition YearFromTime (t : Z) : Z := YearFromDay (Day t).

Definition DayWithinYear (t : Z) : Z := Day t - DayFromYear (YearFromTime t).

Definition leap_days (y : Z) : Z := if InLeapYear y then 1 else 0.

(** The day within the year on which each month starts. *)
Definition month_starts (L : Z) : list Z :=
  [0; 31; 59 + L; 90 + L; 120 + L; 151 + L; 181 + L; 212 + L; 243 + L;
   273 + L; 304 + L; 334 + L].

(** Month (from 0) and day of the month (from 1) of day [d] of a year. *)
Fixpoint month_of (d : Z) (starts : list Z) (m : Z) : Z * Z :=
  match starts with
  | s0 :: ((s1 :: _) as rest) =>
      if d <? s1 then (m, d - s0 + 1) else month_of d rest (m + 1)
  | [s0] => (m, d - s0 + 1)
  | [] => (m, d + 1)
  end.

Definition MonthFromTime (t : Z) : Z :=
  fst (month_of (DayWithinYear t) (month_starts (leap_days (YearFromTime t))) 0).

Definition DateFromTime (t : Z) : Z :=
  snd (month_of (DayWithinYear t) (month_starts (leap_days (YearFromTime t))) 0).

(** 0 is Sunday; 1970-01-01 was a Thursday. *)
Definition WeekDay (t : Z) : Z := (Day t + 4) mod 7.

Definition MakeDay (year month date : Z) : Z :=
  let ym := year + month / 12 in
  let mn := month mod 12 in
  DayFromYear ym + nth (Z.to_nat mn) (month_starts (leap_days ym)) 0 + date - 1.

Definition MakeTime (hour min sec ms : Z) : Z :=
  hour * 3600000 + min * 60000 + sec * 1000 + ms.

Definition DaysInMonth (y mo : Z) : Z :=
  if mo =? 2 then 28 + leap_days y
  else if (mo =? 4) || (mo =? 6) || (mo =? 9) || (mo =? 11) then 30
  else 31.

Definition TimeClip (t : Z) : time_value :=
  if Z.abs t <=? 8640000000000000 then Some t else None.

(** [TimeClip] of a number: NaN when it is not finite or beyond the range
    of time values, else the number without its fraction. *)
Definition TimeClip_number (x : Num.number) : time_value :=
  match Num.number_value x, Num.truncate x with
  | Some q, Some t =>
      if Num.Qleb (Qabs q) (inject_Z 8640000000000000) then Some t else None
  | _, _ => None
  end.

(** *** The date-time string format

    [YYYY], [YYYY-MM] or [YYYY-MM-DD] (the year may be a sign and six
    digits), alone or followed by [THH:mm], [THH:mm:ss] or [THH:mm:ss.sss]
    and then nothing, [Z] or [+HH:mm] / [-HH:mm]. *)

Fixpoint read_fixed (n : nat) (s : string) (acc : Z) : option (Z * string) :=
  match n with
  | O => Some (acc, s)
  | S n' =>
      match s with
      | String c r =>
          match Num.digit_in 10 c with
          | Some d => read_fixed n' r (acc * 10 + d)
          | None => None
          end
      | EmptyString => None
      end
  end.

Definition read_year (s : string) : option (Z * string) :=
  match s with
  | String "+" r => read_fixed 6 r 0
  | String "-" r =>
      match read_fixed 6 r 0 with
      | Some (y, r') => if y =? 0 then None else Some (- y, r')
      | None => None
      end
  | _ => read_fixed 4 s 0
  end.

Definition read_date (s : string) : option (Z * Z * Z * string) :=
  match read_year s with
  | None => None
  | Some (y, r1) =>
      match r1 with
      | String "-" r2 =>
          match read_fixed 2 r2 0 with
          | None => None
          | Some (mo, r3) =>
              match r3 with
              | String "-" r4 =>
                  match read_fixed 2 r4 0 with
                  | None => None
                  | Some (d, r5) => Some (y, mo, d, r5)
                  end
              | _ => Some (y, mo, 1, r3)
              end
          end
      | _ => Some (y, 1, 1, r1)
      end
  end.

(** Seconds and milliseconds, when the time has them. *)
Definition read_seconds (s : string) : option (Z * Z * string) :=
  match s with
  | String ":" r1 =>
      match read_fixed 2 r1 0 with
      | Some (ss, String "." r2) =>
          match read_fixed 3 r2 0 with
          | Some (ms, r3) => Some (ss, ms, r3)
          | None => None
          end
      | Some (ss, r2) => Some (ss, 0, r2)
      | None => None
      end
  | _ => Some (0, 0, s)
  end.

(** The time of day, in milliseconds, and what follows it. *)
Definition read_time (s : string) : option (Z * string) :=
  match read_fixed 2 s 0 with
  | Some (hh, String ":" r1) =>
      match read_fixed 2 r1 0 with
      | Some (mm, r2) =>
          match read_seconds r2 with
          | Some (ss, ms, r3) =>
              if (hh <=? 23) && (mm <=? 59) && (ss <=? 59)
                 || (hh =? 24) && (mm =? 0) && (ss =? 0) && (ms =? 0)
              then Some (MakeTime hh mm ss ms, r3)
              else None
          | None => None
          end
      | None => None
      end
  | _ => None
  end.

Inductive zone :=
| LocalTime
| UTCOffset (minutes : Z).

Definition read_zone (s : string) : option zone :=
  match s with
  | EmptyString => Some LocalTime
  | String "Z" EmptyString => Some (UTCOffset 0)
  | String c r =>
      let sg := if Ascii.eqb c "+" then 1 else if Ascii.eqb c "-" then -1 else 0 in
      match read_fixed 2 r 0 with
      | Some (hh, String ":" r1) =>
          match read_fixed 2 r1 0 with
          | Some (mm, EmptyString) =>
              if negb (sg =? 0) && (hh <=? 23) && (mm <=? 59)
              then Some (UTCOffset (sg * (hh * 60 + mm)))
              else None
          | _ => None
          end
      | _ => None
      end
  end.

Section WithHost.

Variable h : host.

Definition LocalTime_of (t : Z) : Z := t + LocalTZA h t true.

Definition UTC_of (t : Z) : Z := t - LocalTZA h t false.

(** The time value of a string in the format, with every element in
    range; a date alone is read as UTC, a date and time with no offset
    as local time. *)
Definition parse_format (s : string) : option Z :=
  match read_date s with
  | Some (y, mo, d, r) =>
      if (1 <=? mo) && (mo <=? 12) && (1 <=? d) && (d <=? DaysInMonth y mo)
      then
        let day := MakeDay y (mo - 1) d in
        match r with
        | EmptyString => Some (day * msPerDay)
        | String "T" r' =>
            match read_time r' with
            | Some (tod, r'') =>
                let t := day * msPerDay + tod in
                match read_zone r'' with
                | Some LocalTime => Some (UTC_of t)
                | Some (UTCOffset m) => Some (t - m * 60000)
                | None => None
                end
            | None => None
            end
        | _ => None
        end
      else None
  | None => None
  end.

(** [Date.parse]: the format first, then whatever the host accepts. *)
Definition Date_parse (s : string) : time_value :=
  match parse_format s with
  | Some t => TimeClip t
  | None =>
      match Date_parse_fallback h s with
      | Some t => TimeClip t
      | None => None
      end
  end.

Definition weekday_short (d : Z) : string :=
  nth (Z.to_nat d) ["Sun"; "Mon"; "Tue"; "Wed"; "Thu"; "Fri"; "Sat"] "".

Definition month_short (m : Z) : string :=
  nth (Z.to_nat m)
    ["Jan"; "Feb"; "Mar"; "Apr"; "May"; "Jun";
     "Jul"; "Aug"; "Sep"; "Oct"; "Nov"; "Dec"] "".

(** The en-US text of the local date [t] with a short weekday, a numeric
    year, a short month and a numeric day: [Fri, Mar 15, 2024].  A year
    before 1 is shown by its number in its era. *)
Definition en_US_date (t : Z) : string :=
  let y := YearFromTime t in
  weekday_short (WeekDay t) ++ ", " ++ month_short (MonthFromTime t) ++ " "
    ++ Text.digits_of_Z (DateFromTime t) ++ ", "
    ++ Text.digits_of_Z (if y <=? 0 then 1 - y else y).

(** [date.toLocaleDateString('en-US', { weekday: 'short', year:
    'numeric', month: 'short', day: 'numeric' })]. *)
Definition toLocaleDateString_en_US (tv : time_value) : string :=
  match tv with
  | None => "Invalid Date"
  | Some t => en_US_date (LocalTime_of t)
  end.

End WithHost.

End JSDate.

(** ** Values and the language operations the script uses *)

Module Js.

Import Num.

(** What a JSON body parses to, with [undefined] for what a property read
    can give besides.  An object keeps its own properties in order. *)
Inductive value :=
| VUndefined
| VNull
| VBool (b : bool)
| VNum (n : number)
| VStr (s : string)
| VArr (items : list value)
| VObj (props : list (string * value)).

(** What can be thrown, or what a promise can be rejected with. *)
Inductive exn :=
| TypeError
| SyntaxError
| DOMException (name : string).

Inductive result (A : Type) :=
| Ok (a : A)
| Err (e : exn).

Arguments Ok {A} a.
Arguments Err {A} e.

Definition bind {A B : Type} (r : result A) (k : A -> result B) : result B :=
  match r with
  | Ok a => k a
  | Err e => Err e
  end.

Notation "'let*' x ':=' r 'in' k" := (bind r (fun x => k))
  (at level 10, x name, r at level 100, k at level 200).

(** Each element in turn, stopping at the first fault. *)
Fixpoint map_result {A B : Type} (f : A -> result B) (l : list A) : result (list B) :=
  match l with
  | [] => Ok []
  | x :: rest =>
      let* y := f x in
      let* ys := map_result f rest in
      Ok (y :: ys)
  end.

Fixpoint own_property (props : list (string * value)) (key : string) : option value :=
  match props with
  | [] => None
  | (k, v) :: rest => if String.eqb k key then Some v else own_property rest key
  end.

(** [v.key], for the keys the script reads ([length], the fields of a
    workout and of an exercise): none of them is on a prototype other than
    an array's or a string's [length].  Reading a property of [null] or
    [undefined] is a TypeError. *)
Definition get (v : value) (key : string) : result value :=
  match v with
  | VUndefined | VNull => Err TypeError
  | VObj props =>
      match own_property props key with
      | Some x => Ok x
      | None => Ok VUndefined
      end
  | VArr items =>
      if String.eqb key "length"
      then Ok (VNum (number_of_Z (Z.of_nat (List.length items)) false))
      else Ok VUndefined
  | VStr s =>
      if String.eqb key "length"
      then Ok (VNum (number_of_Z (Text.utf16_length s) false))
      else Ok VUndefined
  | VBool _ | VNum _ => Ok VUndefined
  end.

(** ToBoolean: what [if (v)] tests. *)
Definition ToBoolean (v : value) : bool :=
  match v with
  | VUndefined | VNull => false
  | VBool b => b
  | VNum n =>
      match n with
      | S754_zero _ | S754_nan => false
      | _ => true
      end
  | VStr s => negb (String.eqb s "")
  | VArr _ | VObj _ => true
  end.

(** [v === 0]. *)
Definition strict_equals_zero (v : value) : bool :=
  match v with
  | VNum n => is_zero n
  | _ => false
  end.

(** [v.map(f)]: only an array has a [map] that can be called; a parsed
    object's own [map] is data, and calling it is a TypeError as well. *)
Definition array_map {B : Type} (v : value) (f : value -> result B) : result (list B) :=
  match v with
  | VArr items => map_result f items
  | _ => Err TypeError
  end.

(** ToString.  An array is its elements joined by commas, [null] and
    [undefined] elements left empty.  An object is [[object Object]],
    unless it has an own [toString]: that is data, [valueOf] gives the
    object back, and the conversion is a TypeError. *)
Fixpoint ToString (v : value) : result string :=
  match v with
  | VUndefined => Ok "undefined"
  | VNull => Ok "null"
  | VBool b => Ok (if b then "true" else "false")
  | VNum n => Ok (Number_toString n)
  | VStr s => Ok s
  | VArr items =>
      (fix join (l : list value) : result string :=
         match l with
         | [] => Ok ""
         | x :: rest =>
             let* a :=
               match x with
               | VUndefined | VNull => Ok ""
               | _ => ToString x
               end in
             match rest with
             | [] => Ok a
             | _ :: _ => let* b := join rest in Ok (a ++ "," ++ b)
             end
         end) items
  | VObj props =>
      match own_property props "toString" with
      | Some _ => Err TypeError
      | None => Ok "[object Object]"
      end
  end.

(** ToPrimitive: an array or an object goes through [valueOf], which gives
    it back, and then [toString]. *)
Definition ToPrimitive (v : value) : result value :=
  match v with
  | VArr _ | VObj _ => let* s := ToString v in Ok (VStr s)
  | _ => Ok v
  end.

Definition ToNumber (v : value) : result number :=
  let* p := ToPrimitive v in
  match p with
  | VUndefined => Ok NaN
  | VNull => Ok pos_zero
  | VBool b => Ok (if b then number_of_Z 1 false else pos_zero)
  | VNum n => Ok n
  | VStr s => Ok (StringToNumber s)
  | VArr _ | VObj _ => Err TypeError
  end.

(** [Math.round(v)]. *)
Definition Math_round_value (v : value) : result number :=
  let* n := ToNumber v in
  Ok (Math_round n).

(** [new Date(v)]: a string is parsed, anything else is a number of
    milliseconds. *)
Definition new_Date (h : host) (v : value) : result JSDate.time_value :=
  let* p := ToPrimitive v in
  match p with
  | VStr s => Ok (JSDate.Date_parse h s)
  | _ =>
      let* n := ToNumber p in
      Ok (JSDate.TimeClip_number n)
  end.

End Js.

(** ** The page and the network *)

Module Page.

Import Js.

(** The two elements the script looks up by id; [None]: the page has no
    such element, and [getElementById] gives [null].  The filter is a
    select or input control, whose [value] is a string; of the display
    region the model keeps the markup last assigned to its [innerHTML]. *)
Record document := {
  userFilter : option string;
  workoutList : option string
}.

(** What the script does that can be seen from outside, in order: a write
    of the display region, a call of [fetch] with the URL string handed to
    it, a line on the console. *)
Inductive event :=
| SetInnerHTML (html : string)
| Fetch (url : string)
| ConsoleLog (message : string)
| ConsoleError (message : string) (error : exn).

Record world := {
  doc : document;
  trace : list event
}.

(** How the promise of [response.json()] settles, if it does. *)
Inductive body :=
| BodyPending
| BodyRejected (e : exn)
| BodyParsed (v : value).

Record response := {
  status : Z;
  json : body
}.

(** How the promise of [fetch(url)] settles, if it does. *)
Inductive fetched :=
| FetchPending
| FetchRejected (e : exn)
| FetchResolved (r : response).

Definition network : Type := string -> fetched.

(** Where a call of an async function stands once nothing more can
    happen: it returned, it threw (its promise is rejected), or it waits
    on a promise that never settles. *)
Inductive completion (A : Type) :=
| Returned (a : A)
| Threw (e : exn)
| Waiting.

Arguments Returned {A} a.
Arguments Threw {A} e.
Arguments Waiting {A}.

Definition step (A : Type) : Type := world -> completion A * world.

Definition ret {A : Type} (a : A) : step A := fun w => (Returned a, w).

Definition throw {A : Type} (e : exn) : step A := fun w => (Threw e, w).

Definition seq {A B : Type} (c : step A) (k : A -> step B) : step B :=
  fun w =>
    match c w with
    | (Returned a, w') => k a w'
    | (Threw e, w') => (Threw e, w')
    | (Waiting, w') => (Waiting, w')
    end.

Notation "x <- c ;; k" := (seq c (fun x => k))
  (at level 100, c at next level, right associativity).
Notation "c ;;; k" := (seq c (fun _ => k))
  (at level 100, right associativity).

(** [try { body } catch (error) { handler error }]. *)
Definition try_catch {A : Type} (body : step A) (handler : exn -> step A) : step A :=
  fun w =>
    match body w with
    | (Threw e, w') => handler e w'
    | other => other
    end.

Definition lift {A : Type} (r : result A) : step A :=
  match r with
  | Ok a => ret a
  | Err e => throw e
  end.

Definition emit (e : event) : step unit :=
  fun w => (Returned tt, {| doc := doc w; trace := trace w ++ [e] |}).

(** [document.getElementById('userFilter').value]. *)
Definition read_userFilter_value : step string :=
  fun w =>
    match userFilter (doc w) with
    | Some v => (Returned v, w)
    | None => (Threw TypeError, w)
    end.

(** The element handles [getElementById] gives. *)
Inductive element :=
| WorkoutListElement.

(** [document.getElementById('workoutList')]. *)
Definition getElementById_workoutList : step (option element) :=
  fun w =>
    match workoutList (doc w) with
    | Some _ => (Returned (Some WorkoutListElement), w)
    | None => (Returned None, w)
    end.

(** [el.innerHTML = html]; a TypeError when [el] is [null]. *)
Definition set_innerHTML (el : option element) (html : string) : step unit :=
  match el with
  | None => throw TypeError
  | Some WorkoutListElement =>
      fun w =>
        (Returned tt,
         {| doc := {| userFilter := userFilter (doc w); workoutList := Some html |};
            trace := trace w ++ [SetInnerHTML html] |})
  end.

(** [await fetch(url)]. *)
Definition await_fetch (net : network) (url : string) : step response :=
  emit (Fetch url) ;;;
  match net url with
  | FetchPending => fun w => (Waiting, w)
  | FetchRejected e => throw e
  | FetchResolved r => ret r
  end.

(** [await response.json()]. *)
Definition await_json (r : response) : step value :=
  match json r with
  | BodyPending => fun w => (Waiting, w)
  | BodyRejected e => throw e
  | BodyParsed v => ret v
  end.

Definition console_log (message : string) : step unit := emit (ConsoleLog message).

Definition console_error (message : string) (error : exn) : step unit :=
  emit (ConsoleError message error).

End Page.

(** ** The script *)

Module History.

Import Js Page.

(** The fixed pieces of markup.  The pieces of the two template literals
    keep the line breaks and the indentation they have in the script. *)

Definition loading_html : string := "<p>Loading workouts...</p>".

Definition empty_html : string := "<p>No workouts found. Start logging!</p>".

Definition error_html : string :=
  "<p class=" ++ Text.dq ++ "error" ++ Text.dq
    ++ ">Error loading workouts. Please try again.</p>".

Definition base_url : string := "http://localhost:8000/workouts".

Definition card_open : string :=
  "
            <div class=" ++ Text.dq ++ "workout-card" ++ Text.dq ++ ">
                <div class=" ++ Text.dq ++ "workout-header" ++ Text.dq ++ ">
                    <h3>".

Definition card_stats : string :=
  "</h3>
                    <span class=" ++ Text.dq ++ "workout-stats" ++ Text.dq ++ ">
                        ".

Definition card_exercises : string :=
  " lbs
                    </span>
                </div>
                <div class=" ++ Text.dq ++ "workout-exercises" ++ Text.dq ++ ">
                    ".

Definition card_close : string :=
  "
                </div>
            </div>
        ".

Definition tag_open : string :=
  "
                        <div class=" ++ Text.dq ++ "exercise-tag" ++ Text.dq ++ ">
                            <strong>".

Definition tag_details : string :=
  "</strong>
                            <span class=" ++ Text.dq ++ "exercise-details" ++ Text.dq ++ ">
                                ".

Definition tag_close : string :=
  " total reps
                            </span>
                        </div>
                    ".

(** A substitution [${e}] of a template literal: [e] is evaluated, then
    converted with ToString, before the next substitution is looked at. *)
Definition substitute (e : result value) : result string :=
  let* v := e in
  ToString v.

Section Script.

Variable h : host.

(** [function formatDate(dateString)] *)
Definition formatDate (dateString : value) : result string :=
  let* date := new_Date h dateString in
  Ok (JSDate.toLocaleDateString_en_US h date).

(** The inner arrow function, [ex => `...`]. *)
Definition exercise_tag (ex : value) : result string :=
  let* name := substitute (get ex "name") in
  let* num_sets := substitute (get ex "num_sets") in
  let* max_weight := substitute (get ex "max_weight") in
  let* total_reps := substitute (get ex "total_reps") in
  Ok (tag_open ++ name ++ tag_details
        ++ num_sets ++ " sets • " ++ max_weight ++ " lbs max • " ++ total_reps
        ++ tag_close).

(** The outer arrow function, [workout => `...`]. *)
Definition workout_card (workout : value) : result string :=
  let* workout_date := get workout "workout_date" in
  let* date := formatDate workout_date in
  let* num_exercises := substitute (get workout "num_exercises") in
  let* total_volume := get workout "total_volume" in
  let* rounded := Math_round_value total_volume in
  let* exercises := get workout "exercises" in
  let* tags := array_map exercises exercise_tag in
  Ok (card_open ++ date ++ card_stats
        ++ num_exercises ++ " exercise(s) • " ++ Num.Number_toString rounded
        ++ card_exercises ++ Text.join_empty tags ++ card_close).

(** [workouts.map(workout => `...`).join('')] *)
Definition render (workouts : value) : result string :=
  let* cards := array_map workouts workout_card in
  Ok (Text.join_empty cards).

Variable net : network.

(** [async function loadWorkouts()] *)
Definition loadWorkouts : step unit :=
  userFilter <- read_userFilter_value ;;
  workoutList <- getElementById_workoutList ;;
  set_innerHTML workoutList loading_html ;;;
  try_catch
    (let url := base_url in
     let url :=
       if ToBoolean (VStr userFilter)
       then url ++ "?user_id=" ++ userFilter
       else url in
     response <- await_fetch net url ;;
     workouts <- await_json response ;;
     len <- lift (get workouts "length") ;;
     if strict_equals_zero len then
       set_innerHTML workoutList empty_html
     else
       html <- lift (render workouts) ;;
       set_innerHTML workoutList html ;;;
       count <- lift (substitute (get workouts "length")) ;;
       console_log ("Loaded " ++ count ++ " workouts"))
    (fun error =>
       console_error "Error loading workouts:" error ;;;
       set_innerHTML workoutList error_html).

(** The two listeners the script registers; each is
    [async function() { await loadWorkouts(); }]. *)
Inductive trigger :=
| DOMContentLoaded
| FilterChange.


End Script.

(** The listeners registered once the script has run: the second
    registration reads the filter control, and throws when it is missing. *)
Definition registered (d : document) : list trigger :=
  match userFilter d with
  | Some _ => [DOMContentLoaded; FilterChange]
  | None => [DOMContentLoaded]
  end.

End History.

(** ** The shape of the data (the records the service is expected to send) *)

Module Schema.

Import Js.

Definition is_string (v : value) : bool :=
  match v with
  | VStr _ => true
  | _ => false
  end.

Definition is_number (v : value) : bool :=
  match v with
  | VNum _ => true
  | _ => false
  end.

Definition has (props : list (string * value)) (key : string) (p : value -> bool) : bool :=
  match own_property props key with
  | Some v => p v
  | None => false
  end.

(** An ExerciseSummary: an object with a string [name] and numeric
    [num_sets], [max_weight] and [total_reps]. *)
Definition is_ExerciseSummary (v : value) : bool :=
  match v with
  | VObj props =>
      has props "name" is_string && has props "num_sets" is_number
      && has props "max_weight" is_number && has props "total_reps" is_number
  | _ => false
  end.

Definition is_exercises (v : value) : bool :=
  match v with
  | VArr items => forallb is_ExerciseSummary items
  | _ => false
  end.

(** A Workout: an object with a string [workout_date], numeric
    [num_exercises] and [total_volume], and an array [exercises] of
    ExerciseSummary.  The counts are not asked to be non-negative
    integers: nothing the script does depends on it. *)
Definition is_Workout (v : value) : bool :=
  match v with
  | VObj props =>
      has props "workout_date" is_string && has props "num_exercises" is_number
      && has props "total_volume" is_number && has props "exercises" is_exercises
  | _ => false
  end.

End Schema.

(** ** What one call of [loadWorkouts] amounts to

    The functions of this section are not in the script: they name, for the
    statements below, the URL a filter value leads to and the way the body of
    the [try] block ends. *)

Module Run.

Import Js Page History.

Definition request_url (filter : string) : string :=
  if ToBoolean (VStr filter) then base_url ++ "?user_id=" ++ filter else base_url.

Inductive outcome :=
| Hung
| Populated (html count : string)
| Empty
| Failed (e : exn).

(** How the [try] block ends on a parsed body [v]. *)
Definition outcome_of_value (h : host) (v : value) : outcome :=
  match get v "length" with
  | Err e => Failed e
  | Ok len =>
      if strict_equals_zero len then Empty
      else
        match render h v with
        | Err e => Failed e
        | Ok html =>
            match substitute (get v "length") with
            | Ok count => Populated html count
            | Err e => Failed e
            end
        end
  end.

Definition outcome_of (h : host) (f : fetched) : outcome :=
  match f with
  | FetchPending => Hung
  | FetchRejected e => Failed e
  | FetchResolved r =>
      match json r with
      | BodyPending => Hung
      | BodyRejected e => Failed e
      | BodyParsed v => outcome_of_value h v
      end
  end.

Definition events_of (o : outcome) : list event :=
  match o with
  | Hung => []
  | Populated html count =>
      [SetInnerHTML html; ConsoleLog ("Loaded " ++ count ++ " workouts")]
  | Empty => [SetInnerHTML empty_html]
  | Failed e => [ConsoleError "Error loading workouts:" e; SetInnerHTML error_html]
  end.

Definition display_of (o : outcome) : string :=
  match o with
  | Hung => loading_html
  | Populated html _ => html
  | Empty => empty_html
  | Failed _ => error_html
  end.

Definition completion_of (o : outcome) : completion unit :=
  match o with
  | Hung => Waiting
  | _ => Returned tt
  end.

(** Whether the request and the reading of its body both settle. *)
Definition settled (f : fetched) : bool :=
  match f with
  | FetchPending => false
  | FetchRejected _ => true
  | FetchResolved r =>
      match json r with
      | BodyPending => false
      | BodyRejected _ | BodyParsed _ => true
      end
  end.

(** Card markup: one card is what the outer template gives, from its
    opening [div] to its closing one; the populated display is one card or
    more, joined. *)
Definition is_card (s : string) : Prop :=
  exists inside, s = card_open ++ inside ++ card_close.

Definition is_cards (html : string) : Prop :=
  exists cards, cards <> [] /\ Forall is_card cards /\ html = Text.join_empty cards.

(** The requests of a trace, in order. *)
Fixpoint requests (tr : list event) : list string :=
  match tr with
  | [] => []
  | Fetch url :: rest => url :: requests rest
  | _ :: rest => requests rest
  end.

(** The faults logged in a trace, in order. *)
Fixpoint logged_errors (tr : list event) : list exn :=
  match tr with
  | [] => []
  | ConsoleError _ e :: rest => e :: logged_errors rest
  | _ :: rest => logged_errors rest
  end.

End Run.

(** ** Records the script puts up with

    The functions of this section are not in the script: they name shapes
    of data, wider than the expected ones, for the statements below. *)

Module Lenient.

Import Js.

(** A value that is neither an array nor an object. *)
Definition is_primitive (v : value) : bool :=
  match v with
  | VArr _ | VObj _ => false
  | _ => true
  end.

Definition primitive_or_absent (props : list (string * value)) (key : string) : bool :=
  match own_property props key with
  | Some v => is_primitive v
  | None => true
  end.

(** Anything but [null] and [undefined], the four fields of an object
    being of any primitive type, or missing. *)
Definition is_loose_exercise (v : value) : bool :=
  match v with
  | VUndefined | VNull => false
  | VObj props =>
      primitive_or_absent props "name" && primitive_or_absent props "num_sets"
      && primitive_or_absent props "max_weight" && primitive_or_absent props "total_reps"
  | _ => true
  end.

(** An object with an array [exercises] of such values, its other three
    fields being of any primitive type, or missing. *)
Definition is_loose_workout (v : value) : bool :=
  match v with
  | VObj props =>
      primitive_or_absent props "workout_date" && primitive_or_absent props "num_exercises"
      && primitive_or_absent props "total_volume"
      && match own_property props "exercises" with
         | Some (VArr exs) => forallb is_loose_exercise exs
         | _ => false
         end
  | _ => false
  end.

(** Whether [v.exercises] is an array. *)
Definition has_exercises_array (v : value) : bool :=
  match get v "exercises" with
  | Ok (VArr _) => true
  | _ => false
  end.

End Lenient.

(** ** Calls that overlap

    A call of [loadWorkouts] gives control back at its [await]s; what is
    left of it runs once the promise it waits on has settled, and other
    listeners can run in between. *)

Module Loop.

Import Js Page History Run.

(** What [await fetch(url)] resumes with, the promise having settled as [f]. *)
Definition resume_fetch (f : fetched) : step response :=
  match f with
  | FetchPending => fun w => (Waiting, w)
  | FetchRejected e => throw e
  | FetchResolved r => ret r
  end.

(** The call up to the point where it waits for the response: lines 15
    to 29, [fetch] called.  What the rest of the call still needs is the
    element it holds in [workoutList]; the URL is given as well, to say
    which request the call waits on. *)
Definition loadWorkouts_begin : step (option element * string) :=
  userFilter <- read_userFilter_value ;;
  workoutList <- getElementById_workoutList ;;
  set_innerHTML workoutList loading_html ;;;
  (let url := base_url in
   let url :=
     if ToBoolean (VStr userFilter)
     then url ++ "?user_id=" ++ userFilter
     else url in
   emit (Fetch url) ;;;
   ret (workoutList, url)).

(** The rest of the call, lines 29 to 65, inside the [try]: the response
    and then its body are awaited.  Nothing the script does can be seen
    between the two, so they are taken in one step, at the time the body
    settles. *)
Definition loadWorkouts_resume (h : host) (workoutList : option element) (f : fetched)
  : step unit :=
  try_catch
    (response <- resume_fetch f ;;
     workouts <- await_json response ;;
     len <- lift (get workouts "length") ;;
     if strict_equals_zero len then
       set_innerHTML workoutList empty_html
     else
       html <- lift (render h workouts) ;;
       set_innerHTML workoutList html ;;;
       count <- lift (substitute (get workouts "length")) ;;
       console_log ("Loaded " ++ count ++ " workouts"))
    (fun error =>
       console_error "Error loading workouts:" error ;;;
       set_innerHTML workoutList error_html).

(** A call that was started: it waits, holding its element, or it is over. *)
Inductive call :=
| Suspended (workoutList : option element)
| Finished.

(** The page and the calls started so far, oldest first. *)
Record page := {
  now : world;
  calls : list call
}.

(** What happens to the page: the document becomes ready, the user
    picks a value in the filter control, or the request of the call
    numbered [k] (from 0) and the reading of its body settle as [f]. *)
Inductive input :=
| DocumentReady
| UserSelects (value : string)
| RequestSettles (k : nat) (f : fetched).

(** A listener runs: [loadWorkouts] up to its first [await]. *)
Definition start (p : page) : page :=
  match loadWorkouts_begin (now p) with
  | (Returned (el, _), w) => {| now := w; calls := (calls p ++ [Suspended el])%list |}
  | (_, w) => {| now := w; calls := (calls p ++ [Finished])%list |}
  end.

Definition select (v : string) (w : world) : world :=
  {| doc := {| userFilter := Some v; workoutList := workoutList (doc w) |};
     trace := trace w |}.

Fixpoint finish (k : nat) (cs : list call) : list call :=
  match cs, k with
  | [], _ => []
  | _ :: rest, O => Finished :: rest
  | c :: rest, S k' => c :: finish k' rest
  end.

(** One input.  The change listener is there when the filter control is
    (line 9); a call resumes once, when its request has settled. *)
Definition deliver (h : host) (p : page) (i : input) : page :=
  match i with
  | DocumentReady => start p
  | UserSelects v =>
      match userFilter (doc (now p)) with
      | Some _ => start {| now := select v (now p); calls := calls p |}
      | None => p
      end
  | RequestSettles k f =>
      match nth_error (calls p) k with
      | Some (Suspended el) =>
          if settled f
          then {| now := snd (loadWorkouts_resume h el f (now p));
                  calls := finish k (calls p) |}
          else p
      | _ => p
      end
  end.

Definition run (h : host) (p : page) (inputs : list input) : page :=
  fold_left (deliver h) inputs p.

(** The requests a list of inputs leads to, the filter control holding
    [filter] at first: one for each time a listener runs, with the value
    the control holds then. *)
Fixpoint requests_of (filter : string) (inputs : list input) : list string :=
  match inputs with
  | [] => []
  | DocumentReady :: rest => request_url filter :: requests_of filter rest
  | UserSelects v :: rest => request_url v :: requests_of v rest
  | RequestSettles _ _ :: rest => requests_of filter rest
  end.

(** The value the filter control holds after a list of inputs. *)
Fixpoint filter_after (filter : string) (inputs : list input) : string :=
  match inputs with
  | [] => filter
  | UserSelects v :: rest => filter_after v rest
  | _ :: rest => filter_after filter rest
  end.

(** A page with both elements, the filter control holding [filter], on
    which every call that waits holds the display region. *)
Definition ready (p : page) (filter : string) : Prop :=
  userFilter (doc (now p)) = Some filter
  /\ (exists shown, workoutList (doc (now p)) = Some shown)
  /\ Forall (fun c => c = Finished \/ c = Suspended (Some WorkoutListElement)) (calls p).

End Loop.

(** ** Decimal numerals

    The functions of this section are not in the script: they serve the
    statements on numbers shown as text. *)

Module Numeral.

Import Num.

(** The character of the digit [r]. *)
Definition digit_char (r : Z) : string :=
  String (ascii_of_nat (48 + Z.to_nat r)) "".

(** The estimate of the decimal exponent from the bit length is at most
    four below it, and never above. *)
Definition estimate_ok (b : Z) : bool :=
  let E0 := (b - 1) * 30103 / 100000 - 1 in
  Qleb (pow10 E0) (inject_Z (2 ^ (b - 1))) && Qltb (inject_Z (2 ^ b)) (pow10 (E0 + 5))
  && (-1 <=? E0).

End Numeral.

(** ** Sample data: hosts, numbers, records, pages and networks *)

Module Sample.

Import Js Page History.

(** A host on UTC, and one seven hours behind it all year (as in
    America/Phoenix); both parse nothing beyond the date-time format. *)
Definition utc_host : host :=
  {| LocalTZA := fun _ _ => 0; Date_parse_fallback := fun _ => None |}.

Definition phoenix_host : host :=
  {| LocalTZA := fun _ _ => -25200000; Date_parse_fallback := fun _ => None |}.

Definition int (z : Z) : value := VNum (Num.number_of_Z z false).

(** The doubles nearest to 245.6 and to 72.5. *)
Definition n245_6 : Num.number := S754_finite false 8641281785017139 (-45).
Definition n72_5 : Num.number := S754_finite false 5101733952880640 (-46).

Definition squat : value :=
  VObj [("name", VStr "Squat"); ("num_sets", int 3);
        ("max_weight", int 200); ("total_reps", int 15)].

Definition bench : value :=
  VObj [("name", VStr "Bench"); ("num_sets", int 3);
        ("max_weight", int 150); ("total_reps", int 18)].

Definition press : value :=
  VObj [("name", VStr "<b>Press</b>"); ("num_sets", int 4);
        ("max_weight", VNum n72_5); ("total_reps", int 20)].

Definition january : value :=
  VObj [("workout_date", VStr "2024-01-10"); ("num_exercises", int 2);
        ("total_volume", int 1000); ("exercises", VArr [squat; bench])].

Definition march : value :=
  VObj [("workout_date", VStr "2024-03-15"); ("num_exercises", int 1);
        ("total_volume", VNum n245_6); ("exercises", VArr [press])].

Definition page (filter : string) : world :=
  {| doc := {| userFilter := Some filter; workoutList := Some "" |}; trace := [] |}.

Definition page_without_list : world :=
  {| doc := {| userFilter := Some ""; workoutList := None |}; trace := [] |}.

Definition page_without_filter : world :=
  {| doc := {| userFilter := None; workoutList := Some "<p>earlier</p>" |}; trace := [] |}.

Definition answering (status : Z) (v : value) : network :=
  fun _ => FetchResolved {| status := status; json := BodyParsed v |}.

Definition unreachable : network := fun _ => FetchRejected TypeError.

Definition not_json : network :=
  fun _ => FetchResolved {| status := 502; json := BodyRejected SyntaxError |}.

Definition silent : network := fun _ => FetchPending.

End Sample.

(** * Properties *)

(** ** Text *)

Section TextFacts.

Import Text.

Lemma append_assoc (a b c : string) : (a ++ b) ++ c = a ++ (b ++ c).
Proof.
  induction a as [|ch a IH]; simpl.
  - reflexivity.
  - now rewrite IH.
Qed.

Lemma append_nil_r (a : string) : a ++ "" = a.
Proof.
  induction a as [|ch a IH]; simpl; [reflexivity | now rewrite IH].
Qed.

Lemma contains_refl (s : string) : contains s s.
Proof.
  exists "", "". simpl. now rewrite append_nil_r.
Qed.

Lemma contains_trans (a b c : string) : contains a b -> contains b c -> contains a c.
Proof.
  intros (p1 & q1 & ->) (p2 & q2 & ->).
  exists (p2 ++ p1), (q1 ++ q2).
  now rewrite !append_assoc.
Qed.

Lemma contains_append_l (sub a b : string) : contains sub a -> contains sub (a ++ b).
Proof.
  intros (p & q & ->). exists p, (q ++ b). now rewrite !append_assoc.
Qed.

Lemma contains_append_r (sub a b : string) : contains sub b -> contains sub (a ++ b).
Proof.
  intros (p & q & ->). exists (a ++ p), q. now rewrite !append_assoc.
Qed.

Lemma contains_join_empty (part : string) (parts : list string) :
  In part parts -> contains part (join_empty parts).
Proof.
  unfold join_empty.
  induction parts as [|p parts IH]; simpl; [tauto|].
  intros [-> | Hin].
  - destruct parts; [apply contains_refl|].
    simpl. apply contains_append_l, contains_refl.
  - specialize (IH Hin). destruct parts as [|p' parts]; [destruct Hin|].
    now apply contains_append_r.
Qed.

(** [substring] reads back the middle of an append. *)
Lemma substring_middle (pre sub post : string) :
  substring (String.length pre) (String.length sub) (pre ++ sub ++ post) = sub.
Proof.
  induction pre as [|ch pre IH]; simpl; [|exact IH].
  induction sub as [|c sub IH]; simpl.
  - now destruct post.
  - now rewrite IH.
Qed.

(** A string [index] does not find is not contained. *)
Lemma index_None_not_contains (sub s : string) :
  sub <> "" -> index 0 sub s = None -> ~ contains sub s.
Proof.
  intros Hne Hidx (pre & post & ->).
  apply (index_correct3 0 (String.length pre) sub _ Hidx Hne (Nat.le_0_l _)).
  apply substring_middle.
Qed.

Lemma substring_all (s : string) : substring 0 (String.length s) s = s.
Proof.
  induction s as [|c s IH]; simpl; [reflexivity | now rewrite IH].
Qed.

Lemma substring_0_0 (s : string) : substring 0 0 s = "".
Proof.
  now destruct s.
Qed.

Lemma substring_head_split (m : nat) (s : string) :
  String.length (substring 0 m s) = m ->
  s = substring 0 m s ++ substring m (String.length s - m) s.
Proof.
  revert s. induction m as [|m IH]; intros s Hlen.
  - rewrite substring_0_0, Nat.sub_0_r, substring_all. reflexivity.
  - destruct s as [|c s]; simpl in *; [discriminate|].
    injection Hlen as Hlen. now rewrite <- (IH s Hlen).
Qed.

(** A string around one of its substrings. *)
Lemma substring_decompose (n m : nat) (s : string) :
  String.length (substring n m s) = m ->
  s = substring 0 n s ++ substring n m s
        ++ substring (n + m) (String.length s - (n + m)) s.
Proof.
  revert s. induction n as [|n IH]; intros s Hlen.
  - rewrite substring_0_0. simpl. now apply substring_head_split.
  - destruct s as [|c s]; simpl.
    + destruct m; simpl in *; [reflexivity | discriminate].
    + simpl in Hlen. now rewrite <- (IH s Hlen).
Qed.

Lemma index_Some_contains (sub s : string) (n : nat) :
  index 0 sub s = Some n -> contains sub s.
Proof.
  intros Hidx. apply index_correct1 in Hidx.
  exists (substring 0 n s),
         (substring (n + String.length sub) (String.length s - (n + String.length sub)) s).
  pose proof (substring_decompose n (String.length sub) s) as Hsplit.
  rewrite Hidx in Hsplit. now apply Hsplit.
Qed.

Lemma join_empty_cons (x : string) (l : list string) :
  join_empty (x :: l) = x ++ join_empty l.
Proof.
  unfold join_empty. destruct l; cbn [String.concat]; [|reflexivity].
  now rewrite append_nil_r.
Qed.

(** Joining with the empty separator is putting the parts one after the
    other. *)
Lemma join_empty_fold (parts : list string) :
  join_empty parts = fold_right append "" parts.
Proof.
  induction parts as [|x l IH]; [reflexivity|].
  rewrite join_empty_cons, IH. reflexivity.
Qed.

End TextFacts.

(** ** Results *)

Section ResultFacts.

Import Js.

Lemma bind_Ok {A B : Type} (r : result A) (k : A -> result B) (b : B) :
  bind r k = Ok b -> exists a, r = Ok a /\ k a = Ok b.
Proof.
  destruct r as [a|e]; simpl; [|discriminate].
  intros Hk. now exists a.
Qed.

Context {A B : Type}.

Lemma map_result_Forall2 (f : A -> result B) (l : list A) (ys : list B) :
  map_result f l = Ok ys -> Forall2 (fun x y => f x = Ok y) l ys.
Proof.
  revert ys. induction l as [|x l IH]; simpl; intros ys Hmap.
  - injection Hmap as <-. constructor.
  - apply bind_Ok in Hmap as (y & Hy & Hmap).
    apply bind_Ok in Hmap as (ys' & Hys & Hmap).
    injection Hmap as <-. constructor; auto.
Qed.

Lemma map_result_total (f : A -> result B) (l : list A) :
  (forall x, In x l -> exists y, f x = Ok y) ->
  exists ys, map_result f l = Ok ys.
Proof.
  induction l as [|x l IH]; simpl; intros Hall.
  - now eexists.
  - destruct (Hall x (or_introl eq_refl)) as (y & ->).
    destruct IH as (ys & ->); [intros; apply Hall; now right|].
    simpl. now eexists.
Qed.

Lemma Forall2_In_l (R : A -> B -> Prop) (l : list A) (ys : list B) (x : A) :
  Forall2 R l ys -> In x l -> exists y, In y ys /\ R x y.
Proof.
  induction 1 as [|x' y' l' ys' HR _ IH]; simpl; [tauto|].
  intros [-> | Hin].
  - exists y'. auto.
  - destruct (IH Hin) as (y & Hy & Hxy). exists y. auto.
Qed.

End ResultFacts.

(** ** One call of [loadWorkouts] *)

Section RunFacts.

Import Js Page History Run.

Variable h : host.
Variable net : network.

Lemma render_array_only (v : value) (html : string) :
  render h v = Ok html -> exists items, v = VArr items.
Proof.
  destruct v; simpl; try discriminate. intros _. now eexists.
Qed.

Ltac finish :=
  cbn [completion_of display_of events_of doc trace userFilter];
  rewrite <- ?app_assoc; reflexivity.

(** With both elements on the page, a call shows the placeholder, sends
    one request, and ends as the [try] block ends. *)
Lemma loadWorkouts_run (w : world) (filter old : string) :
  userFilter (doc w) = Some filter ->
  workoutList (doc w) = Some old ->
  let o := outcome_of h (net (request_url filter)) in
  loadWorkouts h net w =
    (completion_of o,
     {| doc := {| userFilter := Some filter; workoutList := Some (display_of o) |};
        trace := trace w ++ SetInnerHTML loading_html
                   :: Fetch (request_url filter) :: events_of o |}).
Proof.
  destruct w as [[uf wl] tr]; simpl; intros -> ->.
  unfold loadWorkouts.
  cbv [seq read_userFilter_value getElementById_workoutList set_innerHTML try_catch
       await_fetch await_json emit ret throw lift console_log console_error doc trace
       userFilter workoutList].
  fold (request_url filter).
  unfold outcome_of, outcome_of_value.
  destruct (net (request_url filter)) as [|e|r]; [finish | finish |].
  destruct (json r) as [|e|v]; [finish | finish |].
  destruct (get v "length") as [len|e] eqn:Hlen; [|finish].
  destruct (strict_equals_zero len); [finish|].
  destruct (render h v) as [html|e] eqn:Hrender; [|finish].
  destruct (substitute (Ok len)) as [count|e] eqn:Hcount; [finish|].
  exfalso.
  destruct (render_array_only _ _ Hrender) as [items ->].
  simpl in Hlen. injection Hlen as <-. discriminate Hcount.
Qed.

(** Without the filter control the first statement throws. *)
Lemma loadWorkouts_without_userFilter (w : world) :
  userFilter (doc w) = None -> loadWorkouts h net w = (Threw TypeError, w).
Proof.
  destruct w as [[uf wl] tr]; simpl; intros ->. reflexivity.
Qed.

(** Without the display region the placeholder cannot be written. *)
Lemma loadWorkouts_without_workoutList (w : world) (filter : string) :
  userFilter (doc w) = Some filter ->
  workoutList (doc w) = None ->
  loadWorkouts h net w = (Threw TypeError, w).
Proof.
  destruct w as [[uf wl] tr]; simpl; intros -> ->. reflexivity.
Qed.

End RunFacts.

(** ** Numbers *)

Section NumberFacts.

Import Num.

Lemma number_of_Z_value (z : Z) (s : bool) :
  exists r, number_value (number_of_Z z s) = Some r /\ (r == inject_Z z)%Q.
Proof.
  destruct z as [|p|p]; simpl.
  - exists 0%Q. split; reflexivity.
  - eexists. split; [reflexivity|]. unfold pow2. simpl. ring.
  - eexists. split; [reflexivity|]. unfold pow2. simpl. ring.
Qed.

(** [Math.round] gives an integer at most one half away, and takes the
    larger of two nearest integers. *)
Lemma Math_round_nearest (x : number) (q : Q) :
  number_value x = Some q ->
  exists (z : Z) (r : Q),
    number_value (Math_round x) = Some r /\
    (r == inject_Z z)%Q /\
    (inject_Z z - (1 # 2) <= q)%Q /\ (q < inject_Z z + (1 # 2))%Q.
Proof.
  destruct x as [s|s| |s m e]; simpl; try discriminate.
  - intros [= <-]. exists 0, 0%Q. repeat split; try reflexivity; discriminate.
  - intros [= <-].
    destruct (Z.leb_spec 0 e) as [He|He].
    + exists (signed s m * 2 ^ e), (inject_Z (signed s m) * pow2 e)%Q.
      assert (Hq : (inject_Z (signed s m) * pow2 e == inject_Z (signed s m * 2 ^ e))%Q).
      { unfold pow2. destruct (Z.leb_spec 0 e); [|lia]. now rewrite inject_Z_mult. }
      split; [reflexivity|]. split; [exact Hq|].
      rewrite Hq. split.
      * unfold Qle. simpl. lia.
      * unfold Qlt. simpl. lia.
    + set (d := 2 ^ (- e)).
      set (z := (2 * signed s m + d) / (2 * d)).
      assert (Hd : 0 < d) by (apply Z.pow_pos_nonneg; lia).
      destruct (number_of_Z_value z s) as (r & Hr & Hrz).
      exists z, r. split; [exact Hr|]. split; [exact Hrz|].
      assert (Hlo : 2 * d * z <= 2 * signed s m + d)
        by (apply Z.mul_div_le; lia).
      assert (Hhi : 2 * signed s m + d < 2 * d * Z.succ z)
        by (apply Z.mul_succ_div_gt; lia).
      unfold pow2. destruct (Z.leb_spec 0 e); [lia|]. fold d.
      unfold Qle, Qlt. simpl.
      rewrite !Z2Pos.id by exact Hd.
      split; nia.
Qed.

(** Number::toString and StringToNumber on numbers with known texts: the
    shortest digits, the switch to exponents at 1e21 and below 1e-6, and the
    halfway cases of the nearest double. *)
Example Number_toString_samples :
  map (fun s => Number_toString (StringToNumber s))
    ["245.6"; "72.5"; "0.1"; "0.30000000000000004"; "1000"; "-2.5"; "1e21";
     "100000000000000000000"; "123456789012345678901"; "0.000001"; "0.0000001";
     "5e-324"; "1.7976931348623157e308"; "1e400"; "-0"; " 12 "; "0x1F"; "12px";
     "9007199254740993"; "4.35"; ""]
  = ["245.6"; "72.5"; "0.1"; "0.30000000000000004"; "1000"; "-2.5"; "1e+21";
     "100000000000000000000"; "123456789012345680000"; "0.000001"; "1e-7";
     "5e-324"; "1.7976931348623157e+308"; "Infinity"; "0"; "12"; "31"; "NaN";
     "9007199254740992"; "4.35"; "0"].
Proof.
  vm_compute. reflexivity.
Qed.

(** [Math.round] on halves and near them. *)
Example Math_round_samples :
  map (fun s => Number_toString (Math_round (StringToNumber s)))
    ["245.6"; "245.5"; "245.4"; "2.5"; "-2.5"; "-2.6"; "0.5"; "-0.5"; "0.49999999999999994";
     "1e21"; "-4503599627370495.5"]
  = ["246"; "246"; "245"; "3"; "-2"; "-3"; "1"; "0"; "0"; "1e+21"; "-4503599627370495"].
Proof.
  vm_compute. reflexivity.
Qed.

End NumberFacts.

(** ** Tags and cards *)

Section ScriptFacts.

Import Js Page History Schema.

Variable h : host.

Lemma has_get (props : list (string * value)) (key : string) (p : value -> bool) :
  has props key p = true -> exists v, get (VObj props) key = Ok v /\ p v = true.
Proof.
  unfold has, get. destruct (own_property props key) as [v|]; [|discriminate].
  intros Hp. now exists v.
Qed.

Lemma is_string_inv (v : value) : is_string v = true -> exists s, v = VStr s.
Proof.
  destruct v; try discriminate. now eexists.
Qed.

Lemma is_number_inv (v : value) : is_number v = true -> exists n, v = VNum n.
Proof.
  destruct v; try discriminate. now eexists.
Qed.

Lemma has_string (props : list (string * value)) (key : string) :
  has props key is_string = true -> exists s, get (VObj props) key = Ok (VStr s).
Proof.
  intros H. apply has_get in H as (v & Hv & Hs).
  apply is_string_inv in Hs as (s & ->). now exists s.
Qed.

Lemma has_number (props : list (string * value)) (key : string) :
  has props key is_number = true -> exists n, get (VObj props) key = Ok (VNum n).
Proof.
  intros H. apply has_get in H as (v & Hv & Hn).
  apply is_number_inv in Hn as (n & ->). now exists n.
Qed.

(** The tag of a well-formed exercise. *)
Lemma exercise_tag_of_summary (ex : value) :
  is_ExerciseSummary ex = true ->
  exists name sets weight reps,
    get ex "name" = Ok (VStr name) /\
    get ex "num_sets" = Ok (VNum sets) /\
    get ex "max_weight" = Ok (VNum weight) /\
    get ex "total_reps" = Ok (VNum reps) /\
    exercise_tag ex =
      Ok (tag_open ++ name ++ tag_details
            ++ Num.Number_toString sets ++ " sets • " ++ Num.Number_toString weight
            ++ " lbs max • " ++ Num.Number_toString reps ++ tag_close).
Proof.
  destruct ex as [| | | | |?|props]; try discriminate.
  unfold is_ExerciseSummary. rewrite !andb_true_iff.
  intros [[[Hname Hsets] Hweight] Hreps].
  apply has_string in Hname as (name & Hname).
  apply has_number in Hsets as (sets & Hsets).
  apply has_number in Hweight as (weight & Hweight).
  apply has_number in Hreps as (reps & Hreps).
  exists name, sets, weight, reps.
  repeat split; try assumption.
  unfold exercise_tag, substitute.
  rewrite Hname, Hsets, Hweight, Hreps. reflexivity.
Qed.

Lemma exercise_tags_total (exs : list value) :
  forallb is_ExerciseSummary exs = true ->
  exists tags, map_result exercise_tag exs = Ok tags.
Proof.
  intros Hall. apply map_result_total. intros ex Hin.
  rewrite forallb_forall in Hall.
  destruct (exercise_tag_of_summary ex (Hall ex Hin)) as (? & ? & ? & ? & _ & _ & _ & _ & ->).
  now eexists.
Qed.

Lemma formatDate_string (s : string) :
  formatDate h (VStr s) = Ok (JSDate.toLocaleDateString_en_US h (JSDate.Date_parse h s)).
Proof.
  reflexivity.
Qed.

(** The card of a well-formed workout. *)
Lemma workout_card_of_workout (w : value) :
  is_Workout w = true ->
  exists date count volume exs tags,
    get w "workout_date" = Ok (VStr date) /\
    get w "num_exercises" = Ok (VNum count) /\
    get w "total_volume" = Ok (VNum volume) /\
    get w "exercises" = Ok (VArr exs) /\
    forallb is_ExerciseSummary exs = true /\
    map_result exercise_tag exs = Ok tags /\
    workout_card h w =
      Ok (card_open ++ JSDate.toLocaleDateString_en_US h (JSDate.Date_parse h date)
            ++ card_stats ++ Num.Number_toString count ++ " exercise(s) • "
            ++ Num.Number_toString (Num.Math_round volume)
            ++ card_exercises ++ Text.join_empty tags ++ card_close).
Proof.
  destruct w as [| | | | |?|props]; try discriminate.
  unfold is_Workout. rewrite !andb_true_iff.
  intros [[[Hdate Hcount] Hvolume] Hexs].
  apply has_string in Hdate as (date & Hdate).
  apply has_number in Hcount as (count & Hcount).
  apply has_number in Hvolume as (volume & Hvolume).
  apply has_get in Hexs as (v & Hexs & Hv).
  destruct v as [| | | | |exs|?]; try discriminate.
  simpl in Hv.
  destruct (exercise_tags_total exs Hv) as (tags & Htags).
  exists date, count, volume, exs, tags.
  repeat split; try assumption.
  unfold workout_card, substitute.
  rewrite Hdate, Hcount, Hvolume, Hexs.
  cbn [bind]. rewrite formatDate_string. cbn [bind ToString Math_round_value ToNumber ToPrimitive array_map].
  rewrite Htags. reflexivity.
Qed.

End ScriptFacts.

(** ** How the [try] block ends *)

Section OutcomeFacts.

Import Js Page History Schema Run.

Variable h : host.

Lemma length_of_nonempty_not_zero (items : list value) :
  items <> [] ->
  strict_equals_zero (VNum (Num.number_of_Z (Z.of_nat (List.length items)) false)) = false.
Proof.
  destruct items as [|x items]; [congruence|]. intros _. reflexivity.
Qed.

(** How the [try] block ends on an array. *)
Lemma outcome_of_array (items : list value) :
  outcome_of_value h (VArr items) =
    match items with
    | [] => Empty
    | _ :: _ =>
        match render h (VArr items) with
        | Ok html =>
            Populated html
              (Num.Number_toString (Num.number_of_Z (Z.of_nat (List.length items)) false))
        | Err e => Failed e
        end
    end.
Proof.
  destruct items as [|x items]; [reflexivity|].
  unfold outcome_of_value.
  assert (Hlen : get (VArr (x :: items)) "length"
                 = Ok (VNum (Num.number_of_Z (Z.of_nat (List.length (x :: items))) false)))
    by reflexivity.
  rewrite Hlen.
  rewrite length_of_nonempty_not_zero by discriminate.
  destruct (render h (VArr (x :: items))); [|reflexivity].
  reflexivity.
Qed.

Lemma cards_of_workouts (workouts : list value) :
  forallb is_Workout workouts = true ->
  exists cards, map_result (workout_card h) workouts = Ok cards.
Proof.
  intros Hall. apply map_result_total. intros x Hin.
  rewrite forallb_forall in Hall.
  destruct (workout_card_of_workout h x (Hall x Hin))
    as (? & ? & ? & ? & ? & _ & _ & _ & _ & _ & _ & ->).
  now eexists.
Qed.

Lemma requests_app (a b : list event) : requests (a ++ b) = (requests a ++ requests b)%list.
Proof.
  induction a as [|[] a IH]; simpl; rewrite ?IH; reflexivity.
Qed.

Lemma requests_events_of (o : outcome) : requests (events_of o) = [].
Proof.
  destruct o; reflexivity.
Qed.

Lemma logged_errors_app (a b : list event) :
  logged_errors (a ++ b) = (logged_errors a ++ logged_errors b)%list.
Proof.
  induction a as [|[] a IH]; simpl; rewrite ?IH; reflexivity.
Qed.

Lemma array_map_Ok {B : Type} (v : value) (f : value -> result B) (ys : list B) :
  array_map v f = Ok ys -> exists items, v = VArr items /\ map_result f items = Ok ys.
Proof.
  destruct v; simpl; try discriminate. intros Hmap. now eexists.
Qed.

(** What a tag that was rendered is made of. *)
Lemma exercise_tag_Ok (ex : value) (tag : string) :
  exercise_tag ex = Ok tag ->
  exists name sets weight reps,
    substitute (get ex "name") = Ok name
    /\ substitute (get ex "num_sets") = Ok sets
    /\ substitute (get ex "max_weight") = Ok weight
    /\ substitute (get ex "total_reps") = Ok reps
    /\ tag = tag_open ++ name ++ tag_details
              ++ sets ++ " sets • " ++ weight ++ " lbs max • " ++ reps ++ tag_close.
Proof.
  unfold exercise_tag. intros H.
  apply bind_Ok in H as (name & Hname & H).
  apply bind_Ok in H as (sets & Hsets & H).
  apply bind_Ok in H as (weight & Hweight & H).
  apply bind_Ok in H as (reps & Hreps & H).
  injection H as <-.
  exists name, sets, weight, reps. auto.
Qed.

(** What a card that was rendered is made of. *)
Lemma workout_card_Ok (workout : value) (card : string) :
  workout_card h workout = Ok card ->
  exists date count volume exs tags,
    substitute (get workout "num_exercises") = Ok count
    /\ get workout "exercises" = Ok (VArr exs)
    /\ map_result exercise_tag exs = Ok tags
    /\ card = card_open ++ date ++ card_stats
               ++ count ++ " exercise(s) • " ++ volume
               ++ card_exercises ++ Text.join_empty tags ++ card_close.
Proof.
  unfold workout_card. intros H.
  apply bind_Ok in H as (d & Hd & H).
  apply bind_Ok in H as (date & Hdate & H).
  apply bind_Ok in H as (count & Hcount & H).
  apply bind_Ok in H as (tv & Htv & H).
  apply bind_Ok in H as (rounded & Hrounded & H).
  apply bind_Ok in H as (exercises & Hexercises & H).
  apply bind_Ok in H as (tags & Htags & H).
  injection H as <-.
  apply array_map_Ok in Htags as (exs & -> & Htags).
  exists date, count, (Num.Number_toString rounded), exs, tags. auto.
Qed.

Lemma render_Ok (workouts : list value) (html : string) :
  render h (VArr workouts) = Ok html ->
  exists cards,
    map_result (workout_card h) workouts = Ok cards /\ html = Text.join_empty cards.
Proof.
  unfold render, array_map. intros H.
  apply bind_Ok in H as (cards & Hcards & H).
  injection H as <-. now exists cards.
Qed.

End OutcomeFacts.

(** ** The states of the display *)

Section StateFacts.

Import Js Page History Schema Run.

Variable h : host.

Lemma is_cards_head (html : string) :
  is_cards html -> exists rest, html = String "010" rest.
Proof.
  intros (cards & Hne & Hall & ->).
  destruct cards as [|card cards]; [congruence|].
  inversion Hall as [|? ? (inside & ->) _]; subst.
  unfold Text.join_empty. cbn [String.concat].
  destruct cards; eexists; reflexivity.
Qed.

Lemma is_cards_not_fixed (html : string) :
  is_cards html -> html <> loading_html /\ html <> empty_html /\ html <> error_html.
Proof.
  intros Hcards. destruct (is_cards_head html Hcards) as (rest & ->).
  repeat split; discriminate.
Qed.

Lemma workout_card_is_card (workout : value) (card : string) :
  workout_card h workout = Ok card -> is_card card.
Proof.
  intros Hcard.
  apply workout_card_Ok in Hcard as (date & count & volume & exs & tags & _ & _ & _ & ->).
  exists (date ++ card_stats ++ count ++ " exercise(s) • " ++ volume
            ++ card_exercises ++ Text.join_empty tags).
  rewrite !append_assoc. reflexivity.
Qed.

Lemma render_is_cards (items : list value) (html : string) :
  items <> [] -> render h (VArr items) = Ok html -> is_cards html.
Proof.
  intros Hne Hrender.
  apply render_Ok in Hrender as (cards & Hcards & ->).
  apply map_result_Forall2 in Hcards.
  exists cards. split; [|split; [|reflexivity]].
  - intros ->. inversion Hcards. congruence.
  - clear Hne. induction Hcards as [|x card l cards Hx _ IH]; constructor; auto.
    exact (workout_card_is_card x card Hx).
Qed.

(** What a populated display holds. *)
Lemma populated_is_cards (v : value) (html count : string) :
  outcome_of_value h v = Populated html count -> is_cards html.
Proof.
  unfold outcome_of_value.
  destruct (get v "length") as [len|] eqn:Hlen; [|discriminate].
  destruct (strict_equals_zero len) eqn:Hzero; [discriminate|].
  destruct (render h v) as [html'|] eqn:Hrender; [|discriminate].
  destruct (substitute (Ok len)); [|discriminate].
  intros [= <- _].
  destruct (render_array_only h v html' Hrender) as (items & ->).
  apply (render_is_cards items); [|exact Hrender].
  intros ->. simpl in Hlen. injection Hlen as <-. discriminate.
Qed.

Lemma settled_outcome (f : fetched) :
  settled f = true <-> outcome_of h f <> Hung.
Proof.
  destruct f as [|e|r]; simpl; [intuition congruence | intuition congruence |].
  destruct (json r) as [|e|v]; [intuition congruence | intuition congruence |].
  split; [|reflexivity]. intros _.
  unfold outcome_of_value.
  destruct (get v "length") as [len|]; [|discriminate].
  destruct (strict_equals_zero len); [discriminate|].
  destruct (render h v); [|discriminate].
  destruct (substitute (Ok len)); discriminate.
Qed.

(** When the [try] block ends in a fault on a parsed body. *)
Lemma outcome_of_value_Failed (v : value) (e : exn) :
  outcome_of_value h v = Failed e
  <-> (get v "length" = Err e
       \/ exists len, get v "length" = Ok len
                      /\ strict_equals_zero len = false
                      /\ render h v = Err e).
Proof.
  unfold outcome_of_value.
  destruct (get v "length") as [len|e'] eqn:Hlen.
  - destruct (strict_equals_zero len) eqn:Hzero.
    + split; [discriminate|].
      intros [Hl | (len' & Hl & Hz & _)]; [discriminate|].
      injection Hl as <-. congruence.
    + destruct (render h v) as [html|e'] eqn:Hrender.
      * destruct (substitute (Ok len)) as [count|e'] eqn:Hcount.
        -- split; [discriminate|].
           intros [Hl | (len' & _ & _ & Hr)]; discriminate.
        -- exfalso.
           destruct (render_array_only h v html Hrender) as (items & ->).
           simpl in Hlen. injection Hlen as <-. discriminate Hcount.
      * split.
        -- intros [= ->]. right. exists len. auto.
        -- intros [Hl | (len' & _ & _ & Hr)]; [discriminate|]. congruence.
  - split.
    + intros [= ->]. now left.
    + intros [Hl | (len' & Hl & _)]; [congruence | discriminate].
Qed.

(** When a call ends in a fault. *)
Lemma outcome_of_Failed (f : fetched) (e : exn) :
  outcome_of h f = Failed e
  <-> (f = FetchRejected e
       \/ (exists r, f = FetchResolved r /\ json r = BodyRejected e)
       \/ (exists r v, f = FetchResolved r
                       /\ json r = BodyParsed v
                       /\ (get v "length" = Err e
                           \/ exists len, get v "length" = Ok len
                                          /\ strict_equals_zero len = false
                                          /\ render h v = Err e))).
Proof.
  destruct f as [|e'|r]; simpl.
  - split; [discriminate|].
    intros [Hf | [(r & Hf & _) | (r & v & Hf & _)]]; discriminate.
  - split.
    + intros [= ->]. now left.
    + intros [Hf | [(r & Hf & _) | (r & v & Hf & _)]]; congruence.
  - destruct (json r) as [|e'|v] eqn:Hjson.
    + split; [discriminate|].
      intros [Hf | [(r' & Hf & Hj) | (r' & v & Hf & Hj & _)]];
        [discriminate | injection Hf as <-; congruence | injection Hf as <-; congruence].
    + split.
      * intros [= ->]. right; left. now exists r.
      * intros [Hf | [(r' & Hf & Hj) | (r' & v & Hf & Hj & _)]];
          [discriminate | injection Hf as <-; congruence | injection Hf as <-; congruence].
    + rewrite outcome_of_value_Failed. split.
      * intros Hv. right; right. now exists r, v.
      * intros [Hf | [(r' & Hf & Hj) | (r' & v' & Hf & Hj & Hv)]];
          [discriminate | injection Hf as <-; congruence |].
        injection Hf as <-. rewrite Hjson in Hj. injection Hj as <-. exact Hv.
Qed.

End StateFacts.

(** ** Dates *)

Section Calendar.

Import JSDate.

Lemma Day_of_midnight (day : Z) : Day (day * msPerDay) = day.
Proof.
  unfold Day, msPerDay. apply Z.div_mul. lia.
Qed.

Lemma Day_ahead (day offset : Z) :
  0 <= offset < msPerDay -> Day (day * msPerDay + offset) = day.
Proof.
  unfold Day, msPerDay. intros Ho. symmetry. apply Z.div_unique with (r := offset); lia.
Qed.

Lemma Day_behind (day offset : Z) :
  - msPerDay <= offset < 0 -> Day (day * msPerDay + offset) = day - 1.
Proof.
  unfold Day, msPerDay. intros Ho. symmetry.
  apply Z.div_unique with (r := offset + 86400000); lia.
Qed.

Lemma DayFromYear_next (y : Z) : DayFromYear (y + 1) = DayFromYear y + 365 + leap_days y.
Proof.
  unfold DayFromYear, leap_days, InLeapYear.
  destruct (Z.eqb_spec (y mod 4) 0), (Z.eqb_spec (y mod 100) 0), (Z.eqb_spec (y mod 400) 0);
    cbn [andb orb negb]; Z.div_mod_to_equations; lia.
Qed.

Lemma YearFromDay_unique (day y : Z) :
  DayFromYear y <= day < DayFromYear (y + 1) -> YearFromDay day = y.
Proof.
  unfold YearFromDay.
  intros Hy.
  set (g := 1970 + day * 400 / 146097).
  assert (Hg : y - 1 <= g <= y + 1).
  { subst g. unfold DayFromYear in Hy. Z.div_mod_to_equations; lia. }
  assert (Hstep : forall a, DayFromYear a < DayFromYear (a + 1)).
  { intros a. rewrite DayFromYear_next. unfold leap_days. destruct (InLeapYear a); lia. }
  clearbody g.
  assert (Hcases : g = y - 1 \/ g = y \/ g = y + 1) by lia.
  destruct Hcases as [-> | [-> | ->]].
  - replace (y - 1 + 1) with y by lia.
    destruct (Z.leb_spec (DayFromYear y) day); lia.
  - destruct (Z.leb_spec (DayFromYear (y + 1)) day); [lia|].
    destruct (Z.leb_spec (DayFromYear y) day); lia.
  - pose proof (Hstep (y + 1)).
    destruct (Z.leb_spec (DayFromYear (y + 1 + 1)) day); [lia|].
    destruct (Z.leb_spec (DayFromYear (y + 1)) day); lia.
Qed.

Lemma MakeDay_in_year (y mo d : Z) :
  1 <= mo <= 12 ->
  MakeDay y (mo - 1) d
  = DayFromYear y + nth (Z.to_nat (mo - 1)) (month_starts (leap_days y)) 0 + d - 1.
Proof.
  intros Hmo. unfold MakeDay.
  rewrite Z.div_small, Z.mod_small, Z.add_0_r by lia. reflexivity.
Qed.

Lemma month_cases (mo : Z) :
  1 <= mo <= 12 ->
  mo = 1 \/ mo = 2 \/ mo = 3 \/ mo = 4 \/ mo = 5 \/ mo = 6
  \/ mo = 7 \/ mo = 8 \/ mo = 9 \/ mo = 10 \/ mo = 11 \/ mo = 12.
Proof.
  lia.
Qed.

Ltac each_month H :=
  destruct H as [-> | [-> | [-> | [-> | [-> | [-> | [-> | [-> | [-> | [-> | [-> | ->]]]]]]]]]]].

(** Where a date falls in its year. *)
Lemma day_within_year (y mo d : Z) :
  1 <= mo <= 12 ->
  1 <= d <= DaysInMonth y mo ->
  0 <= nth (Z.to_nat (mo - 1)) (month_starts (leap_days y)) 0 + d - 1 < 365 + leap_days y
  /\ month_of (nth (Z.to_nat (mo - 1)) (month_starts (leap_days y)) 0 + d - 1)
       (month_starts (leap_days y)) 0 = (mo - 1, d).
Proof.
  intros Hmo. unfold DaysInMonth.
  assert (HL : leap_days y = 0 \/ leap_days y = 1)
    by (unfold leap_days; destruct (InLeapYear y); auto).
  revert HL. generalize (leap_days y). intros L HL Hd.
  apply month_cases in Hmo.
  destruct HL as [-> | ->]; each_month Hmo;
    match type of Hd with
    | _ <= _ <= ?e => let v := eval vm_compute in e in change e with v in Hd
    end;
    match goal with
    | |- context [nth (Z.to_nat ?k) (month_starts ?l) 0] =>
        let v := eval vm_compute in (nth (Z.to_nat k) (month_starts l) 0) in
        change (nth (Z.to_nat k) (month_starts l) 0) with v;
        let w := eval vm_compute in (month_starts l) in
        change (month_starts l) with w;
        let u := eval vm_compute in k in
        change k with u
    end;
    cbn [month_of];
    (split; [lia|]);
    repeat match goal with
           | |- context [Z.ltb ?a ?b] => destruct (Z.ltb_spec a b); try lia
           end;
    f_equal; lia.
Qed.

(** The fields of a time value on the day of a date of the calendar. *)
Lemma fields_of_day (y mo d t : Z) :
  1 <= mo <= 12 ->
  1 <= d <= DaysInMonth y mo ->
  Day t = MakeDay y (mo - 1) d ->
  YearFromTime t = y /\ MonthFromTime t = mo - 1 /\ DateFromTime t = d.
Proof.
  intros Hmo Hd Hday.
  destruct (day_within_year y mo d Hmo Hd) as (Hrange & Hmonth).
  rewrite (MakeDay_in_year y mo d Hmo) in Hday.
  assert (Hyear : YearFromTime t = y).
  { unfold YearFromTime. apply YearFromDay_unique. rewrite Hday, DayFromYear_next. lia. }
  unfold MonthFromTime, DateFromTime, DayWithinYear. rewrite Hyear, Hday.
  replace (DayFromYear y + nth (Z.to_nat (mo - 1)) (month_starts (leap_days y)) 0 + d - 1
           - DayFromYear y)
    with (nth (Z.to_nat (mo - 1)) (month_starts (leap_days y)) 0 + d - 1) by lia.
  rewrite Hmonth. auto.
Qed.

End Calendar.

Section FormatDateFacts.

Import Js History JSDate.

Lemma en_US_date_same_day (t1 t2 : Z) :
  Day t1 = Day t2 -> en_US_date t1 = en_US_date t2.
Proof.
  intros Hday.
  unfold en_US_date, WeekDay, MonthFromTime, DateFromTime, DayWithinYear, YearFromTime.
  now rewrite Hday.
Qed.

(** X10.  [formatDate] on a date alone, [YYYY-MM-DD] and the like, of year 1 or
    later: a host whose local time is at or ahead of UTC at that midnight
    shows the weekday, month, day and year of the date; a host behind UTC
    shows the day before. *)
Lemma formatDate_of_date (h : host) (s : string) (y mo d : Z) :
  read_date s = Some (y, mo, d, "") ->
  1 <= mo <= 12 ->
  1 <= d <= DaysInMonth y mo ->
  1 <= y ->
  let day := MakeDay y (mo - 1) d in
  let offset := LocalTZA h (day * msPerDay) true in
  Z.abs (day * msPerDay) <= 8640000000000000 ->
  (0 <= offset < msPerDay ->
   formatDate h (VStr s)
   = Ok (weekday_short ((day + 4) mod 7) ++ ", " ++ month_short (mo - 1) ++ " "
           ++ Text.digits_of_Z d ++ ", " ++ Text.digits_of_Z y))
  /\ (- msPerDay <= offset < 0 ->
      formatDate h (VStr s) = Ok (en_US_date ((day - 1) * msPerDay))).
Proof.
  intros Hread Hmo Hd Hy day offset Hclip.
  assert (Hparse : Date_parse h s = Some (day * msPerDay)).
  { unfold Date_parse, parse_format. rewrite Hread.
    replace ((1 <=? mo) && (mo <=? 12) && (1 <=? d) && (d <=? DaysInMonth y mo)) with true.
    - fold day. unfold TimeClip.
      destruct (Z.leb_spec (Z.abs (day * msPerDay)) 8640000000000000); [reflexivity | lia].
    - symmetry. rewrite !andb_true_iff, !Z.leb_le. lia. }
  assert (Hfmt : formatDate h (VStr s) = Ok (en_US_date (day * msPerDay + offset))).
  { change (formatDate h (VStr s))
      with (Ok (toLocaleDateString_en_US h (Date_parse h s))).
    rewrite Hparse. reflexivity. }
  rewrite Hfmt. split; intros Hoffset; f_equal.
  - destruct (fields_of_day y mo d (day * msPerDay + offset) Hmo Hd (Day_ahead _ _ Hoffset))
      as (Hyear & Hmonth & Hdate).
    unfold en_US_date, WeekDay. rewrite Hyear, Hmonth, Hdate, (Day_ahead _ _ Hoffset).
    destruct (Z.leb_spec y 0); [lia | reflexivity].
  - apply en_US_date_same_day.
    rewrite (Day_behind _ _ Hoffset), Day_of_midnight. reflexivity.
Qed.

(** [formatDate] on the sample host on UTC: the forms of the date-time
    format, a leap day, a day that does not exist, and strings outside the
    format, of which this host reads none. *)
Example formatDate_samples :
  map (fun s => formatDate Sample.utc_host (VStr s))
    ["2024-01-10"; "2024-03-15"; "2024"; "2024-02"; "2024-02-29"; "2023-02-29";
     "2024-03-15T23:30:00Z"; "2024-03-15T23:30:00-05:00"; "1970-01-01T00:00:00.000Z";
     "2024-3-15"; "March 15, 2024"; ""]
  = map Ok
      ["Wed, Jan 10, 2024"; "Fri, Mar 15, 2024"; "Mon, Jan 1, 2024"; "Thu, Feb 1, 2024";
       "Thu, Feb 29, 2024"; "Invalid Date";
       "Fri, Mar 15, 2024"; "Sat, Mar 16, 2024"; "Thu, Jan 1, 1970";
       "Invalid Date"; "Invalid Date"; "Invalid Date"].
Proof.
  vm_compute. reflexivity.
Qed.

End FormatDateFacts.

(** ** The text of tags and cards *)

Section CardText.

Import Js Page History Schema Run.

Variable h : host.


(** The tags of well-formed exercises, spelled out. *)
Lemma exercise_tags_of_summaries (exs : list value) (tags : list string) :
  forallb is_ExerciseSummary exs = true ->
  map_result exercise_tag exs = Ok tags ->
  Forall2
    (fun ex tag =>
       exists name sets weight reps,
         get ex "name" = Ok (VStr name)
         /\ get ex "num_sets" = Ok (VNum sets)
         /\ get ex "max_weight" = Ok (VNum weight)
         /\ get ex "total_reps" = Ok (VNum reps)
         /\ tag = tag_open ++ name ++ tag_details
                   ++ Num.Number_toString sets ++ " sets • " ++ Num.Number_toString weight
                   ++ " lbs max • " ++ Num.Number_toString reps ++ tag_close)
    exs tags.
Proof.
  intros Hall Hmap. apply map_result_Forall2 in Hmap.
  rewrite forallb_forall in Hall.
  induction Hmap as [|ex tag exs tags Hex _ IH]; constructor.
  - destruct (exercise_tag_of_summary ex (Hall ex (or_introl eq_refl)))
      as (name & sets & weight & reps & Hn & Hs & Hw & Hr & Htag).
    exists name, sets, weight, reps. repeat split; try assumption. congruence.
  - apply IH. intros x Hx. apply Hall. now right.
Qed.

(** The cards of well-formed workouts, spelled out: the formatted date,
    the count, the rounded volume, and the tags one after the other. *)
Lemma workout_cards_of_workouts (workouts : list value) (cards : list string) :
  forallb is_Workout workouts = true ->
  map_result (workout_card h) workouts = Ok cards ->
  Forall2
    (fun workout card =>
       exists date count volume exs tags,
         get workout "workout_date" = Ok (VStr date)
         /\ get workout "num_exercises" = Ok (VNum count)
         /\ get workout "total_volume" = Ok (VNum volume)
         /\ get workout "exercises" = Ok (VArr exs)
         /\ Forall2
              (fun ex tag =>
                 exists name sets weight reps,
                   get ex "name" = Ok (VStr name)
                   /\ get ex "num_sets" = Ok (VNum sets)
                   /\ get ex "max_weight" = Ok (VNum weight)
                   /\ get ex "total_reps" = Ok (VNum reps)
                   /\ tag = tag_open ++ name ++ tag_details
                             ++ Num.Number_toString sets ++ " sets • "
                             ++ Num.Number_toString weight ++ " lbs max • "
                             ++ Num.Number_toString reps ++ tag_close)
              exs tags
         /\ card = card_open
                    ++ JSDate.toLocaleDateString_en_US h (JSDate.Date_parse h date)
                    ++ card_stats ++ Num.Number_toString count ++ " exercise(s) • "
                    ++ Num.Number_toString (Num.Math_round volume)
                    ++ card_exercises ++ fold_right append "" tags ++ card_close)
    workouts cards.
Proof.
  intros Hall Hmap. apply map_result_Forall2 in Hmap.
  rewrite forallb_forall in Hall.
  induction Hmap as [|workout card workouts cards Hcard _ IH]; constructor.
  - destruct (workout_card_of_workout h workout (Hall workout (or_introl eq_refl)))
      as (date & count & volume & exs & tags & Hd & Hc & Hv & He & Hexs & Htags & Hshown).
    exists date, count, volume, exs, tags.
    repeat split; try assumption.
    + exact (exercise_tags_of_summaries exs tags Hexs Htags).
    + rewrite <- join_empty_fold. congruence.
  - apply IH. intros x Hx. apply Hall. now right.
Qed.

End CardText.

(** ** The claims *)

Section Claims.

Import Js Page History Schema Run.

(** C1.  For every non-empty array of Workout records the endpoint returns,
    [loadWorkouts] replaces the display region with exactly one rendered
    card per element of the array, in the order of the array: what the
    display region holds in the end is the cards put one after the other,
    nothing before, between or after them, and the card of an element is the
    markup of the template filled with that element's formatted date, its
    count, its rounded volume and one tag for each of its exercises, in
    their order. *)
Theorem loadWorkouts_one_card_per_workout
    (h : host) (net : network) (w : world) (filter old : string)
    (r : response) (workouts : list value) :
  userFilter (doc w) = Some filter ->
  workoutList (doc w) = Some old ->
  net (request_url filter) = FetchResolved r ->
  json r = BodyParsed (VArr workouts) ->
  workouts <> [] ->
  forallb is_Workout workouts = true ->
  exists cards,
    Forall2 (fun workout card => workout_card h workout = Ok card) workouts cards
    /\ List.length cards = List.length workouts
    /\ fst (loadWorkouts h net w) = Returned tt
    /\ workoutList (doc (snd (loadWorkouts h net w))) = Some (Text.join_empty cards)
    /\ workoutList (doc (snd (loadWorkouts h net w))) = Some (fold_right append "" cards)
    /\ Forall2
         (fun workout card =>
            exists date count volume exs tags,
              get workout "workout_date" = Ok (VStr date)
              /\ get workout "num_exercises" = Ok (VNum count)
              /\ get workout "total_volume" = Ok (VNum volume)
              /\ get workout "exercises" = Ok (VArr exs)
              /\ Forall2
                   (fun ex tag =>
                      exists name sets weight reps,
                        get ex "name" = Ok (VStr name)
                        /\ get ex "num_sets" = Ok (VNum sets)
                        /\ get ex "max_weight" = Ok (VNum weight)
                        /\ get ex "total_reps" = Ok (VNum reps)
                        /\ tag = tag_open ++ name ++ tag_details
                                  ++ Num.Number_toString sets ++ " sets • "
                                  ++ Num.Number_toString weight ++ " lbs max • "
                                  ++ Num.Number_toString reps ++ tag_close)
                   exs tags
              /\ card = card_open
                         ++ JSDate.toLocaleDateString_en_US h (JSDate.Date_parse h date)
                         ++ card_stats ++ Num.Number_toString count ++ " exercise(s) • "
                         ++ Num.Number_toString (Num.Math_round volume)
                         ++ card_exercises ++ fold_right append "" tags ++ card_close)
         workouts cards.
Proof.
  intros Hfilter Hlist Hnet Hjson Hne Hall.
  destruct (cards_of_workouts h workouts Hall) as (cards & Hcards).
  exists cards.
  pose proof (map_result_Forall2 _ _ _ Hcards) as Hall2.
  pose proof (workout_cards_of_workouts h workouts cards Hall Hcards) as Htext.
  split; [exact Hall2|].
  split; [symmetry; exact (Forall2_length Hall2)|].
  rewrite <- join_empty_fold.
  rewrite (loadWorkouts_run h net w filter old Hfilter Hlist).
  unfold outcome_of. rewrite Hnet, Hjson, outcome_of_array.
  destruct workouts as [|x rest]; [congruence|].
  unfold render, array_map. rewrite Hcards. simpl. auto.
Qed.

(** C2, as the script has it.  With both elements on the page a call never
    throws: every fault of the [try] block (the request failing, a body that
    is not JSON, a fault while the parsed value is read or rendered) is
    caught, logged, and answered with the error message, which holds no card
    and is not the empty-state message.  A missing element is looked up
    before the [try] block: that TypeError reaches the caller, and nothing
    is displayed or logged. *)
Theorem loadWorkouts_catches_faults_of_try_block (h : host) (net : network) :
  (forall w filter old,
     userFilter (doc w) = Some filter ->
     workoutList (doc w) = Some old ->
     (forall e, fst (loadWorkouts h net w) <> Threw e)
     /\ forall e,
          (net (request_url filter) = FetchRejected e
           \/ (exists r, net (request_url filter) = FetchResolved r
                         /\ json r = BodyRejected e)
           \/ (exists r v, net (request_url filter) = FetchResolved r
                           /\ json r = BodyParsed v
                           /\ (get v "length" = Err e
                               \/ exists len, get v "length" = Ok len
                                              /\ strict_equals_zero len = false
                                              /\ render h v = Err e))) ->
          loadWorkouts h net w =
            (Returned tt,
             {| doc := {| userFilter := Some filter; workoutList := Some error_html |};
                trace := trace w ++ [SetInnerHTML loading_html;
                                     Fetch (request_url filter);
                                     ConsoleError "Error loading workouts:" e;
                                     SetInnerHTML error_html] |}))
  /\ (forall w,
        userFilter (doc w) = None \/ workoutList (doc w) = None ->
        loadWorkouts h net w = (Threw TypeError, w))
  /\ ~ Text.contains "workout-card" error_html
  /\ error_html <> empty_html.
Proof.
  split; [|split; [|split]].
  - intros w filter old Hfilter Hlist.
    rewrite (loadWorkouts_run h net w filter old Hfilter Hlist).
    split.
    + intros e. cbn [fst]. destruct (outcome_of h (net (request_url filter))); discriminate.
    + intros e Hfault.
      apply (outcome_of_Failed h) in Hfault. rewrite Hfault. reflexivity.
  - intros w Hmissing.
    destruct (userFilter (doc w)) as [filter|] eqn:Hfilter.
    + destruct Hmissing as [Hmissing | Hmissing]; [discriminate|].
      exact (loadWorkouts_without_workoutList h net w filter Hfilter Hmissing).
    + exact (loadWorkouts_without_userFilter h net w Hfilter).
  - apply index_None_not_contains; [discriminate | reflexivity].
  - discriminate.
Qed.

(** C3.  For a non-empty filter value [v] the request goes to the base
    endpoint with the query parameter [user_id] equal to [v], inserted as it
    is; for the empty filter value it goes to the base endpoint with no
    query parameter.  It is the only request of the call. *)
Theorem loadWorkouts_request_url
    (h : host) (net : network) (w : world) (v old : string) :
  userFilter (doc w) = Some v ->
  workoutList (doc w) = Some old ->
  (v <> "" ->
   requests (trace (snd (loadWorkouts h net w)))
   = (requests (trace w) ++ [("http://localhost:8000/workouts?user_id=" ++ v)%string])%list)
  /\ (v = "" ->
      requests (trace (snd (loadWorkouts h net w)))
      = (requests (trace w) ++ ["http://localhost:8000/workouts"])%list).
Proof.
  intros Hfilter Hlist.
  rewrite (loadWorkouts_run h net w v old Hfilter Hlist).
  cbn [snd trace]. rewrite requests_app. cbn [requests]. rewrite requests_events_of.
  unfold request_url, ToBoolean.
  split; intros Hv.
  - apply String.eqb_neq in Hv. rewrite Hv. reflexivity.
  - subst v. reflexivity.
Qed.

(** C4.  When the endpoint returns an empty JSON array, [loadWorkouts]
    replaces the display region with the "no workouts found" message, which
    holds no card markup, and returns: nothing is rendered and nothing is
    logged. *)
Theorem loadWorkouts_empty_array
    (h : host) (net : network) (w : world) (filter old : string) (r : response) :
  userFilter (doc w) = Some filter ->
  workoutList (doc w) = Some old ->
  net (request_url filter) = FetchResolved r ->
  json r = BodyParsed (VArr []) ->
  loadWorkouts h net w =
    (Returned tt,
     {| doc := {| userFilter := Some filter;
                  workoutList := Some "<p>No workouts found. Start logging!</p>" |};
        trace := trace w ++ [SetInnerHTML loading_html; Fetch (request_url filter);
                             SetInnerHTML "<p>No workouts found. Start logging!</p>"] |})
  /\ ~ Text.contains "workout-card" "<p>No workouts found. Start logging!</p>"
  /\ ~ Text.contains "<div" "<p>No workouts found. Start logging!</p>".
Proof.
  intros Hfilter Hlist Hnet Hjson.
  split.
  - rewrite (loadWorkouts_run h net w filter old Hfilter Hlist).
    unfold outcome_of. rewrite Hnet, Hjson. reflexivity.
  - split; apply index_None_not_contains; (discriminate || reflexivity).
Qed.

(** C5.  The card of a workout shows [total_volume] rounded to the nearest
    integer (the double nearest to 245.6 is shown as 246), and shows each
    exercise's [max_weight] as it is, not rounded (the double 72.5 is shown
    as 72.5). *)
Theorem workout_card_rounds_volume_only
    (h : host) (workout : value) (volume : Num.number) :
  is_Workout workout = true ->
  get workout "total_volume" = Ok (VNum volume) ->
  exists card,
    workout_card h workout = Ok card
    /\ Text.contains
         (" exercise(s) • " ++ Num.Number_toString (Num.Math_round volume) ++ " lbs") card
    /\ (forall q, Num.number_value volume = Some q ->
        exists (z : Z) (r : Q),
          Num.number_value (Num.Math_round volume) = Some r
          /\ (r == inject_Z z)%Q
          /\ (inject_Z z - (1 # 2) <= q)%Q /\ (q < inject_Z z + (1 # 2))%Q)
    /\ (forall exercises ex weight,
        get workout "exercises" = Ok (VArr exercises) ->
        In ex exercises ->
        get ex "max_weight" = Ok (VNum weight) ->
        Text.contains (" sets • " ++ Num.Number_toString weight ++ " lbs max") card)
    /\ Num.StringToNumber "245.6" = Sample.n245_6
    /\ Num.Number_toString (Num.Math_round Sample.n245_6) = "246"
    /\ Num.StringToNumber "72.5" = Sample.n72_5
    /\ Num.Number_toString Sample.n72_5 = "72.5".
Proof.
  intros Hw Hvolume.
  destruct (workout_card_of_workout h workout Hw)
    as (date & count & volume' & exs & tags & _ & _ & Hvolume' & Hexs & Hall & Htags & Hcard).
  rewrite Hvolume in Hvolume'. injection Hvolume' as <-.
  eexists. split; [exact Hcard|].
  split.
  { exists (card_open ++ JSDate.toLocaleDateString_en_US h (JSDate.Date_parse h date)
              ++ card_stats ++ Num.Number_toString count),
           (substring 4 200 card_exercises ++ Text.join_empty tags ++ card_close).
    rewrite !append_assoc. reflexivity. }
  split; [intros q Hq; exact (Math_round_nearest volume q Hq)|].
  split; [|split; [|split; [|split]]; vm_compute; reflexivity].
  intros exercises ex weight Hexs' Hin Hweight.
  rewrite Hexs in Hexs'. injection Hexs' as <-.
  destruct (Forall2_In_l _ _ _ _ (map_result_Forall2 _ _ _ Htags) Hin) as (tag & Htag & Hex).
  rewrite forallb_forall in Hall.
  destruct (exercise_tag_of_summary ex (Hall ex Hin))
    as (name & sets & weight' & reps & _ & _ & Hweight' & _ & Hex').
  rewrite Hweight in Hweight'. injection Hweight' as <-.
  rewrite Hex in Hex'. injection Hex' as ->.
  apply contains_trans with (b := Text.join_empty tags).
  - apply contains_trans with (2 := contains_join_empty _ _ Htag).
    exists (tag_open ++ name ++ tag_details ++ Num.Number_toString sets),
           (" • " ++ Num.Number_toString reps ++ tag_close).
    rewrite !append_assoc. reflexivity.
  - exists (card_open ++ JSDate.toLocaleDateString_en_US h (JSDate.Date_parse h date)
              ++ card_stats ++ Num.Number_toString count ++ " exercise(s) • "
              ++ Num.Number_toString (Num.Math_round volume) ++ card_exercises),
           card_close.
    rewrite !append_assoc. reflexivity.
Qed.


(** C7.  For every string, [formatDate] returns a string and does not
    throw; a string [Date.parse] does not read gives the text
    [Invalid Date]. *)
Theorem formatDate_total (h : host) (dateString : string) :
  exists text,
    formatDate h (VStr dateString) = Ok text
    /\ (JSDate.Date_parse h dateString = None -> text = "Invalid Date").
Proof.
  exists (JSDate.toLocaleDateString_en_US h (JSDate.Date_parse h dateString)).
  split; [reflexivity|].
  intros ->. reflexivity.
Qed.

(** The property is one of strings: on an object that has a [toString] of
    its own, [new Date] throws. *)
Example formatDate_can_throw (h : host) :
  formatDate h (VObj [("toString", VNull)]) = Err TypeError.
Proof.
  reflexivity.
Qed.

Example formatDate_unreadable :
  formatDate Sample.utc_host (VStr "next tuesday") = Ok "Invalid Date".
Proof.
  reflexivity.
Qed.

(** C8.  The date string [2024-03-15] names a Friday.  A host on UTC shows
    it as such.  A host behind UTC (here by seven hours) shows the day
    before: the string is read as midnight UTC and shown in local time. *)
Theorem formatDate_behind_UTC_shows_previous_day :
  formatDate Sample.utc_host (VStr "2024-03-15") = Ok "Fri, Mar 15, 2024"
  /\ formatDate Sample.phoenix_host (VStr "2024-03-15") = Ok "Thu, Mar 14, 2024".
Proof.
  split; vm_compute; reflexivity.
Qed.

(** The same on every host: what is shown for [2024-03-15] is the Friday
    when local time is at or ahead of UTC at that instant, and the Thursday
    before when it is behind. *)
Lemma formatDate_2024_03_15 (h : host) :
  let offset := LocalTZA h 1710460800000 true in
  (0 <= offset < JSDate.msPerDay ->
   formatDate h (VStr "2024-03-15") = Ok "Fri, Mar 15, 2024")
  /\ (- JSDate.msPerDay <= offset < 0 ->
      formatDate h (VStr "2024-03-15") = Ok "Thu, Mar 14, 2024").
Proof.
  intros offset.
  assert (Hfmt : formatDate h (VStr "2024-03-15")
                 = Ok (JSDate.en_US_date (1710460800000 + offset))) by reflexivity.
  rewrite Hfmt. unfold JSDate.msPerDay. split; intros Hoff; f_equal.
  - rewrite (en_US_date_same_day _ (19797 * JSDate.msPerDay)); [reflexivity|].
    unfold JSDate.Day, JSDate.msPerDay.
    rewrite Z.div_mul by lia. symmetry. apply Z.div_unique with (r := offset); lia.
  - rewrite (en_US_date_same_day _ (19796 * JSDate.msPerDay)); [reflexivity|].
    unfold JSDate.Day, JSDate.msPerDay.
    rewrite Z.div_mul by lia. symmetry. apply Z.div_unique with (r := offset + 86400000); lia.
Qed.

(** C9, as the script has it.  The status of the response is never looked
    at: two responses with the same body end the call the same way.  A body
    that parses to an array of Workout records is shown as a success (cards,
    or the empty state for an empty array) whatever the status.  The error
    branch is reached by a rejected request, by a body that is not JSON, and
    also by a parsed body the script faults on while it reads its length or
    renders it. *)
Theorem loadWorkouts_ignores_status
    (h : host) (w : world) (filter old : string) :
  userFilter (doc w) = Some filter ->
  workoutList (doc w) = Some old ->
  (forall net1 net2 status1 status2 b,
     net1 (request_url filter) = FetchResolved {| status := status1; json := b |} ->
     net2 (request_url filter) = FetchResolved {| status := status2; json := b |} ->
     loadWorkouts h net1 w = loadWorkouts h net2 w)
  /\ (forall net r workouts,
        net (request_url filter) = FetchResolved r ->
        json r = BodyParsed (VArr workouts) ->
        forallb is_Workout workouts = true ->
        logged_errors (trace (snd (loadWorkouts h net w))) = logged_errors (trace w)
        /\ exists html,
             workoutList (doc (snd (loadWorkouts h net w))) = Some html
             /\ (workouts = [] -> html = empty_html)
             /\ (workouts <> [] -> render h (VArr workouts) = Ok html))
  /\ (forall net e,
        logged_errors (trace (snd (loadWorkouts h net w)))
        = (logged_errors (trace w) ++ [e])%list
        <->
        (net (request_url filter) = FetchRejected e
         \/ (exists r, net (request_url filter) = FetchResolved r
                       /\ json r = BodyRejected e)
         \/ (exists r v, net (request_url filter) = FetchResolved r
                         /\ json r = BodyParsed v
                         /\ (get v "length" = Err e
                             \/ exists len, get v "length" = Ok len
                                            /\ strict_equals_zero len = false
                                            /\ render h v = Err e)))).
Proof.
  intros Hfilter Hlist.
  split; [|split].
  - intros net1 net2 status1 status2 b Hnet1 Hnet2.
    rewrite (loadWorkouts_run h net1 w filter old Hfilter Hlist).
    rewrite (loadWorkouts_run h net2 w filter old Hfilter Hlist).
    unfold outcome_of. rewrite Hnet1, Hnet2. reflexivity.
  - intros net r workouts Hnet Hjson Hall.
    rewrite (loadWorkouts_run h net w filter old Hfilter Hlist).
    cbn [fst snd doc trace workoutList].
    unfold outcome_of. rewrite Hnet, Hjson, outcome_of_array.
    destruct workouts as [|x rest].
    + rewrite logged_errors_app. cbn [logged_errors events_of display_of].
      rewrite app_nil_r. split; [reflexivity|].
      exists empty_html. repeat split; congruence.
    + destruct (cards_of_workouts h (x :: rest) Hall) as (cards & Hcards).
      assert (Hrender : render h (VArr (x :: rest)) = Ok (Text.join_empty cards)).
      { unfold render, array_map. rewrite Hcards. reflexivity. }
      rewrite Hrender.
      rewrite logged_errors_app. cbn [logged_errors events_of display_of].
      rewrite app_nil_r. split; [reflexivity|].
      exists (Text.join_empty cards). repeat split; congruence.
  - intros net e.
    rewrite (loadWorkouts_run h net w filter old Hfilter Hlist).
    cbn [snd trace]. rewrite logged_errors_app. cbn [logged_errors].
    assert (Hlogged : forall o,
               logged_errors (events_of o) = match o with Failed e' => [e'] | _ => [] end)
      by (intros []; reflexivity).
    rewrite Hlogged.
    rewrite <- (outcome_of_Failed h).
    destruct (outcome_of h (net (request_url filter))) as [|html count| |e'].
    + split; [|discriminate]. rewrite app_nil_r. intros Heq.
      apply (f_equal (@List.length exn)) in Heq. rewrite length_app in Heq. simpl in Heq. lia.
    + split; [|discriminate]. rewrite app_nil_r. intros Heq.
      apply (f_equal (@List.length exn)) in Heq. rewrite length_app in Heq. simpl in Heq. lia.
    + split; [|discriminate]. rewrite app_nil_r. intros Heq.
      apply (f_equal (@List.length exn)) in Heq. rewrite length_app in Heq. simpl in Heq. lia.
    + split.
      * intros Heq. apply app_inv_head in Heq. congruence.
      * intros [= ->]. reflexivity.
Qed.

(** C10.  The values of the fields [num_exercises], [name], [num_sets],
    [max_weight] and [total_reps] go into the markup as their text, with no
    escaping: whenever a list of workouts is rendered, the string assigned
    to the display region contains the text of each such value, and that of
    a string value is the string itself, markup characters included. *)
Theorem loadWorkouts_inserts_fields_verbatim
    (h : host) (net : network) (w : world) (filter old : string)
    (r : response) (workouts : list value) (html : string) :
  userFilter (doc w) = Some filter ->
  workoutList (doc w) = Some old ->
  net (request_url filter) = FetchResolved r ->
  json r = BodyParsed (VArr workouts) ->
  workouts <> [] ->
  render h (VArr workouts) = Ok html ->
  workoutList (doc (snd (loadWorkouts h net w))) = Some html
  /\ forall workout, In workout workouts ->
       (exists text,
          substitute (get workout "num_exercises") = Ok text /\ Text.contains text html)
       /\ exists exercises,
            get workout "exercises" = Ok (VArr exercises)
            /\ forall ex key,
                 In ex exercises ->
                 In key ["name"; "num_sets"; "max_weight"; "total_reps"] ->
                 exists text,
                   substitute (get ex key) = Ok text
                   /\ Text.contains text html
                   /\ (forall s, get ex key = Ok (VStr s) -> text = s)
                   /\ (forall n, get ex key = Ok (VNum n) -> text = Num.Number_toString n).
Proof.
  intros Hfilter Hlist Hnet Hjson Hne Hrender.
  split.
  { rewrite (loadWorkouts_run h net w filter old Hfilter Hlist).
    unfold outcome_of. rewrite Hnet, Hjson, outcome_of_array, Hrender.
    destruct workouts; [congruence|reflexivity]. }
  apply render_Ok in Hrender as (cards & Hcards & ->).
  intros workout Hin.
  destruct (Forall2_In_l _ _ _ _ (map_result_Forall2 _ _ _ Hcards) Hin)
    as (card & Hcard_in & Hcard).
  pose proof (contains_join_empty _ _ Hcard_in) as Hcard_html.
  apply workout_card_Ok in Hcard
    as (date & count & volume & exs & tags & Hcount & Hexs & Htags & ->).
  split.
  { exists count. split; [exact Hcount|].
    apply contains_trans with (2 := Hcard_html).
    exists (card_open ++ date ++ card_stats),
           (" exercise(s) • " ++ volume ++ card_exercises
              ++ Text.join_empty tags ++ card_close).
    rewrite !append_assoc. reflexivity. }
  exists exs. split; [exact Hexs|].
  intros ex key Hex Hkey.
  destruct (Forall2_In_l _ _ _ _ (map_result_Forall2 _ _ _ Htags) Hex)
    as (tag & Htag_in & Htag).
  assert (Htag_html : Text.contains tag (Text.join_empty cards)).
  { apply contains_trans with (2 := Hcard_html).
    apply contains_trans with (1 := contains_join_empty _ _ Htag_in).
    exists (card_open ++ date ++ card_stats ++ count ++ " exercise(s) • " ++ volume
              ++ card_exercises),
           card_close.
    rewrite !append_assoc. reflexivity. }
  apply exercise_tag_Ok in Htag
    as (name & sets & weight & reps & Hname & Hsets & Hweight & Hreps & ->).
  assert (Hverbatim : forall k text,
             substitute (get ex k) = Ok text ->
             (forall s, get ex k = Ok (VStr s) -> text = s)
             /\ (forall n, get ex k = Ok (VNum n) -> text = Num.Number_toString n)).
  { intros k text Hk. split; intros x Hx; rewrite Hx in Hk; now injection Hk. }
  simpl in Hkey.
  destruct Hkey as [<- | [<- | [<- | [<- | []]]]].
  - exists name. split; [exact Hname|]. split; [|exact (Hverbatim _ _ Hname)].
    apply contains_trans with (2 := Htag_html).
    exists tag_open,
           (tag_details ++ sets ++ " sets • " ++ weight ++ " lbs max • " ++ reps ++ tag_close).
    reflexivity.
  - exists sets. split; [exact Hsets|]. split; [|exact (Hverbatim _ _ Hsets)].
    apply contains_trans with (2 := Htag_html).
    exists (tag_open ++ name ++ tag_details),
           (" sets • " ++ weight ++ " lbs max • " ++ reps ++ tag_close).
    rewrite !append_assoc. reflexivity.
  - exists weight. split; [exact Hweight|]. split; [|exact (Hverbatim _ _ Hweight)].
    apply contains_trans with (2 := Htag_html).
    exists (tag_open ++ name ++ tag_details ++ sets ++ " sets • "),
           (" lbs max • " ++ reps ++ tag_close).
    rewrite !append_assoc. reflexivity.
  - exists reps. split; [exact Hreps|]. split; [|exact (Hverbatim _ _ Hreps)].
    apply contains_trans with (2 := Htag_html).
    exists (tag_open ++ name ++ tag_details ++ sets ++ " sets • " ++ weight ++ " lbs max • "),
           tag_close.
    rewrite !append_assoc. reflexivity.
Qed.

End Claims.

(** ** The claims at sample inputs *)

Section Witnesses.

Import Js Page History Schema Run Sample.

Lemma loadWorkouts_one_card_per_workout_witness :
  exists cards,
    Forall2 (fun workout card => workout_card utc_host workout = Ok card)
      [january; march] cards
    /\ List.length cards = 2%nat
    /\ fst (loadWorkouts utc_host (answering 200 (VArr [january; march])) (page ""))
       = Returned tt
    /\ workoutList
         (doc (snd (loadWorkouts utc_host (answering 200 (VArr [january; march])) (page ""))))
       = Some (Text.join_empty cards)
    /\ workoutList
         (doc (snd (loadWorkouts utc_host (answering 200 (VArr [january; march])) (page ""))))
       = Some (fold_right append "" cards)
    /\ Forall2
         (fun workout card =>
            exists date count volume exs tags,
              get workout "workout_date" = Ok (VStr date)
              /\ get workout "num_exercises" = Ok (VNum count)
              /\ get workout "total_volume" = Ok (VNum volume)
              /\ get workout "exercises" = Ok (VArr exs)
              /\ Forall2
                   (fun ex tag =>
                      exists name sets weight reps,
                        get ex "name" = Ok (VStr name)
                        /\ get ex "num_sets" = Ok (VNum sets)
                        /\ get ex "max_weight" = Ok (VNum weight)
                        /\ get ex "total_reps" = Ok (VNum reps)
                        /\ tag = tag_open ++ name ++ tag_details
                                  ++ Num.Number_toString sets ++ " sets • "
                                  ++ Num.Number_toString weight ++ " lbs max • "
                                  ++ Num.Number_toString reps ++ tag_close)
                   exs tags
              /\ card = card_open
                         ++ JSDate.toLocaleDateString_en_US utc_host
                              (JSDate.Date_parse utc_host date)
                         ++ card_stats ++ Num.Number_toString count ++ " exercise(s) • "
                         ++ Num.Number_toString (Num.Math_round volume)
                         ++ card_exercises ++ fold_right append "" tags ++ card_close)
         [january; march] cards.
Proof.
  apply (loadWorkouts_one_card_per_workout utc_host
           (answering 200 (VArr [january; march])) (page "") "" ""
           {| status := 200; json := BodyParsed (VArr [january; march]) |}
           [january; march]); try reflexivity.
  discriminate.
Defined.

Lemma loadWorkouts_request_url_witness :
  requests (trace (snd (loadWorkouts utc_host unreachable (page "a b&c=d#e"))))
  = ["http://localhost:8000/workouts?user_id=a b&c=d#e"]
  /\ requests (trace (snd (loadWorkouts utc_host unreachable (page ""))))
     = ["http://localhost:8000/workouts"].
Proof.
  split.
  - apply (loadWorkouts_request_url utc_host unreachable (page "a b&c=d#e")
             "a b&c=d#e" "" eq_refl eq_refl).
    discriminate.
  - apply (loadWorkouts_request_url utc_host unreachable (page "") "" "" eq_refl eq_refl).
    reflexivity.
Defined.

Lemma loadWorkouts_empty_array_witness :
  loadWorkouts utc_host (answering 200 (VArr [])) (page "7") =
    (Returned tt,
     {| doc := {| userFilter := Some "7";
                  workoutList := Some "<p>No workouts found. Start logging!</p>" |};
        trace := [SetInnerHTML "<p>Loading workouts...</p>";
                  Fetch "http://localhost:8000/workouts?user_id=7";
                  SetInnerHTML "<p>No workouts found. Start logging!</p>"] |}).
Proof.
  apply (loadWorkouts_empty_array utc_host (answering 200 (VArr [])) (page "7") "7" ""
           {| status := 200; json := BodyParsed (VArr []) |}); reflexivity.
Defined.

Lemma workout_card_rounds_volume_only_witness :
  exists card,
    workout_card utc_host march = Ok card
    /\ Text.contains " exercise(s) • 246 lbs" card
    /\ Text.contains " sets • 72.5 lbs max" card.
Proof.
  destruct (workout_card_rounds_volume_only utc_host march n245_6 eq_refl eq_refl)
    as (card & Hcard & Hvolume & _ & Hweight & _).
  exists card. split; [exact Hcard|]. split; [exact Hvolume|].
  exact (Hweight [press] press n72_5 eq_refl (or_introl eq_refl) eq_refl).
Defined.

Lemma loadWorkouts_catches_faults_of_try_block_witness :
  loadWorkouts utc_host not_json (page "") =
    (Returned tt,
     {| doc := {| userFilter := Some ""; workoutList := Some error_html |};
        trace := [SetInnerHTML loading_html; Fetch "http://localhost:8000/workouts";
                  ConsoleError "Error loading workouts:" SyntaxError;
                  SetInnerHTML error_html] |})
  /\ loadWorkouts utc_host not_json page_without_list = (Threw TypeError, page_without_list).
Proof.
  split.
  - apply (proj1 (loadWorkouts_catches_faults_of_try_block utc_host not_json)
             (page "") "" "" eq_refl eq_refl).
    right; left. exists {| status := 502; json := BodyRejected SyntaxError |}.
    split; reflexivity.
  - apply (proj1 (proj2 (loadWorkouts_catches_faults_of_try_block utc_host not_json))).
    right. reflexivity.
Defined.


Lemma loadWorkouts_ignores_status_witness :
  loadWorkouts utc_host (answering 200 (VArr [january])) (page "")
  = loadWorkouts utc_host (answering 500 (VArr [january])) (page "")
  /\ logged_errors
       (trace (snd (loadWorkouts utc_host (answering 500 (VArr [january])) (page "")))) = []
  /\ logged_errors
       (trace (snd (loadWorkouts utc_host (answering 200 (VArr [VNull])) (page ""))))
     = [TypeError].
Proof.
  pose proof (loadWorkouts_ignores_status utc_host (page "") "" "" eq_refl eq_refl)
    as (Hstatus & Hworkouts & Herror).
  split; [|split].
  - exact (Hstatus (answering 200 (VArr [january])) (answering 500 (VArr [january]))
             200 500 (BodyParsed (VArr [january])) eq_refl eq_refl).
  - exact (proj1 (Hworkouts (answering 500 (VArr [january]))
                    {| status := 500; json := BodyParsed (VArr [january]) |}
                    [january] eq_refl eq_refl eq_refl)).
  - apply (Herror (answering 200 (VArr [VNull])) TypeError).
    right; right.
    exists {| status := 200; json := BodyParsed (VArr [VNull]) |}, (VArr [VNull]).
    split; [reflexivity|]. split; [reflexivity|].
    right. exists (VNum (Num.number_of_Z 1 false)). repeat split.
Defined.

Lemma loadWorkouts_inserts_fields_verbatim_witness :
  exists html,
    workoutList (doc (snd (loadWorkouts utc_host (answering 200 (VArr [march])) (page ""))))
    = Some html
    /\ Text.contains "<b>Press</b>" html
    /\ Text.contains "72.5" html.
Proof.
  destruct (cards_of_workouts utc_host [march] eq_refl) as (cards & Hcards).
  assert (Hrender : render utc_host (VArr [march]) = Ok (Text.join_empty cards)).
  { unfold render, array_map. rewrite Hcards. reflexivity. }
  destruct (loadWorkouts_inserts_fields_verbatim utc_host (answering 200 (VArr [march]))
              (page "") "" "" {| status := 200; json := BodyParsed (VArr [march]) |}
              [march] (Text.join_empty cards) eq_refl eq_refl eq_refl eq_refl
              ltac:(discriminate) Hrender)
    as (Hshown & Hfields).
  destruct (Hfields march (or_introl eq_refl)) as (_ & exercises & Hexercises & Heach).
  injection Hexercises as <-.
  exists (Text.join_empty cards). split; [exact Hshown|]. split.
  - destruct (Heach press "name" (or_introl eq_refl) (or_introl eq_refl))
      as (text & _ & Hin & Hstr & _).
    rewrite (Hstr "<b>Press</b>" eq_refl) in Hin. exact Hin.
  - destruct (Heach press "max_weight" (or_introl eq_refl)
                (or_intror (or_intror (or_introl eq_refl))))
      as (text & _ & Hin & _ & Hnum).
    rewrite (Hnum n72_5 eq_refl) in Hin. exact Hin.
Defined.

(** The scenario of the specification: the endpoint returns one workout of
    2024-01-10 with two exercises, and the display shows one card headed by
    that date, the line of totals, and the two exercises as they came. *)
Example loadWorkouts_scenario :
  exists html,
    loadWorkouts utc_host (answering 200 (VArr [january])) (page "") =
      (Returned tt,
       {| doc := {| userFilter := Some ""; workoutList := Some html |};
          trace := [SetInnerHTML "<p>Loading workouts...</p>";
                    Fetch "http://localhost:8000/workouts";
                    SetInnerHTML html;
                    ConsoleLog "Loaded 1 workouts"] |})
    /\ Text.contains "<h3>Wed, Jan 10, 2024</h3>" html
    /\ Text.contains "2 exercise(s) • 1000 lbs" html
    /\ Text.contains "<strong>Squat</strong>" html
    /\ Text.contains "3 sets • 200 lbs max • 15 total reps" html
    /\ Text.contains "<strong>Bench</strong>" html
    /\ Text.contains "3 sets • 150 lbs max • 18 total reps" html.
Proof.
  eexists. split; [vm_compute; reflexivity|].
  repeat split; eapply index_Some_contains; vm_compute; reflexivity.
Qed.

(** ** Where the claims as first stated fail *)

(** C2 as stated: a missing element is not caught.  With no filter control
    the call throws, the display keeps what it had and nothing is logged;
    with no display region it throws as well. *)
Lemma missing_element_fault_propagates :
  loadWorkouts utc_host unreachable page_without_filter
  = (Threw TypeError, page_without_filter)
  /\ workoutList (doc page_without_filter) = Some "<p>earlier</p>"
  /\ trace page_without_filter = []
  /\ loadWorkouts utc_host unreachable page_without_list
     = (Threw TypeError, page_without_list).
Proof.
  repeat split.
Qed.


(** C9 as stated: a body that parses to a JSON array, [[null]], reaches the
    error branch, with no rejected request and no unparsable body; so does
    the JSON object of an error response. *)
Lemma array_body_reaches_error_branch :
  loadWorkouts utc_host (answering 200 (VArr [VNull])) (page "") =
    (Returned tt,
     {| doc := {| userFilter := Some ""; workoutList := Some error_html |};
        trace := [SetInnerHTML loading_html; Fetch "http://localhost:8000/workouts";
                  ConsoleError "Error loading workouts:" TypeError;
                  SetInnerHTML error_html] |})
  /\ loadWorkouts utc_host (answering 404 (VObj [("detail", VStr "Not Found")])) (page "") =
       (Returned tt,
        {| doc := {| userFilter := Some ""; workoutList := Some error_html |};
           trace := [SetInnerHTML loading_html; Fetch "http://localhost:8000/workouts";
                     ConsoleError "Error loading workouts:" TypeError;
                     SetInnerHTML error_html] |}).
Proof.
  split; reflexivity.
Qed.

End Witnesses.

(** * Further properties *)

(** ** Faults of the rendering *)

Section RenderFaults.

Import Js Page History Run.

Variable h : host.

(** Induction on a value, the elements of an array included. *)
Lemma value_induction (P : value -> Prop) :
  P VUndefined -> P VNull -> (forall b, P (VBool b)) -> (forall n, P (VNum n)) ->
  (forall s, P (VStr s)) ->
  (forall items, Forall P items -> P (VArr items)) ->
  (forall props, P (VObj props)) ->
  forall v, P v.
Proof.
  intros Hu Hn Hb Hnum Hs Harr Hobj.
  refine (fix IH (v : value) : P v :=
            match v with
            | VUndefined => Hu
            | VNull => Hn
            | VBool b => Hb b
            | VNum n => Hnum n
            | VStr s => Hs s
            | VArr items =>
                Harr items
                  ((fix all (l : list value) : Forall P l :=
                      match l with
                      | [] => Forall_nil P
                      | x :: rest => Forall_cons x (IH x) (all rest)
                      end) items)
            | VObj props => Hobj props
            end).
Qed.

(** The conversion to a string faults with a TypeError only. *)
Lemma ToString_fault (v : value) (e : exn) : ToString v = Err e -> e = TypeError.
Proof.
  revert e. induction v as [| |b|n|s|items IH|props] using value_induction;
    intros e; simpl; try discriminate.
  - revert e. induction IH as [|x rest Hx _ IHrest]; intros e; [discriminate|].
    destruct (match x with VUndefined | VNull => Ok "" | _ => ToString x end)
      as [a|e'] eqn:Ha; simpl.
    + destruct rest as [|y rest']; [discriminate|].
      match goal with
      | |- context [bind ?r _] => destruct r as [b|e'] eqn:Hrest
      end; simpl; [discriminate|].
      intros [= <-]. exact (IHrest e' eq_refl).
    + intros [= <-].
      destruct x; try discriminate; exact (Hx _ Ha).
  - destruct (own_property props "toString"); [|discriminate].
    now intros [= <-].
Qed.

Lemma get_fault (v : value) (key : string) (e : exn) : get v key = Err e -> e = TypeError.
Proof.
  destruct v; simpl; try discriminate; try (now intros [= <-]).
  - destruct (String.eqb key "length"); discriminate.
  - destruct (String.eqb key "length"); discriminate.
  - destruct (own_property props key); discriminate.
Qed.

Lemma substitute_fault (r : result value) (e : exn) :
  (forall e', r = Err e' -> e' = TypeError) -> substitute r = Err e -> e = TypeError.
Proof.
  intros Hr. unfold substitute. destruct r as [v|e']; simpl.
  - apply ToString_fault.
  - intros [= <-]. now apply Hr.
Qed.

Lemma ToPrimitive_fault (v : value) (e : exn) : ToPrimitive v = Err e -> e = TypeError.
Proof.
  destruct v; try discriminate; unfold ToPrimitive;
    match goal with |- context [bind ?r _] => destruct r eqn:Hs end;
    cbn [bind]; try discriminate;
    intros [= <-]; exact (ToString_fault _ _ Hs).
Qed.

Lemma ToNumber_fault (v : value) (e : exn) : ToNumber v = Err e -> e = TypeError.
Proof.
  unfold ToNumber. destruct (ToPrimitive v) as [p|e'] eqn:Hp; simpl.
  - destruct p; try discriminate; now intros [= <-].
  - intros [= <-]. exact (ToPrimitive_fault _ _ Hp).
Qed.

Lemma Math_round_value_fault (v : value) (e : exn) :
  Math_round_value v = Err e -> e = TypeError.
Proof.
  unfold Math_round_value. destruct (ToNumber v) eqn:Hn; cbn [bind]; [discriminate|].
  intros [= <-]. exact (ToNumber_fault _ _ Hn).
Qed.

Lemma formatDate_fault (v : value) (e : exn) : formatDate h v = Err e -> e = TypeError.
Proof.
  unfold formatDate, new_Date. destruct (ToPrimitive v) as [p|e'] eqn:Hp; cbn [bind].
  - destruct p; cbn [bind]; try discriminate;
      match goal with |- context [ToNumber ?p] => destruct (ToNumber p) eqn:Hn end;
      cbn [bind]; try discriminate;
      intros [= <-]; exact (ToNumber_fault _ _ Hn).
  - intros [= <-]. exact (ToPrimitive_fault _ _ Hp).
Qed.

Lemma map_result_fault {A B : Type} (f : A -> result B) (l : list A) (e : exn) :
  (forall x e', f x = Err e' -> e' = TypeError) ->
  map_result f l = Err e -> e = TypeError.
Proof.
  intros Hf. induction l as [|x l IH]; simpl; [discriminate|].
  destruct (f x) as [y|e'] eqn:Hx; simpl.
  - destruct (map_result f l) as [ys|e'] eqn:Hl; simpl; [discriminate|].
    intros [= <-]. now apply IH.
  - intros [= <-]. exact (Hf _ _ Hx).
Qed.

Lemma array_map_fault {B : Type} (v : value) (f : value -> result B) (e : exn) :
  (forall x e', f x = Err e' -> e' = TypeError) ->
  array_map v f = Err e -> e = TypeError.
Proof.
  intros Hf. destruct v; simpl; try (now intros [= <-]).
  now apply map_result_fault.
Qed.

Ltac fault_step H lemma :=
  match type of H with
  | bind ?r _ = Err _ =>
      let x := fresh "x" in
      let e' := fresh "e" in
      let Hr := fresh "Hr" in
      destruct r as [x|e'] eqn:Hr;
      [cbn [bind] in H | cbn [bind] in H; injection H as <-; lemma Hr]
  end.

Lemma exercise_tag_fault (ex : value) (e : exn) : exercise_tag ex = Err e -> e = TypeError.
Proof.
  unfold exercise_tag. intros H.
  assert (Hsub : forall key e', substitute (get ex key) = Err e' -> e' = TypeError).
  { intros key e'. apply substitute_fault. apply get_fault. }
  fault_step H ltac:(fun Hr => exact (Hsub _ _ Hr)).
  fault_step H ltac:(fun Hr => exact (Hsub _ _ Hr)).
  fault_step H ltac:(fun Hr => exact (Hsub _ _ Hr)).
  fault_step H ltac:(fun Hr => exact (Hsub _ _ Hr)).
  discriminate.
Qed.

(** A fault of the rendering of a card is a TypeError. *)
Lemma workout_card_fault (workout : value) (e : exn) :
  workout_card h workout = Err e -> e = TypeError.
Proof.
  unfold workout_card. intros H.
  fault_step H ltac:(fun Hr => exact (get_fault _ _ _ Hr)).
  fault_step H ltac:(fun Hr => exact (formatDate_fault _ _ Hr)).
  fault_step H ltac:(fun Hr => exact (substitute_fault _ _ (get_fault _ _) Hr)).
  fault_step H ltac:(fun Hr => exact (get_fault _ _ _ Hr)).
  fault_step H ltac:(fun Hr => exact (Math_round_value_fault _ _ Hr)).
  fault_step H ltac:(fun Hr => exact (get_fault _ _ _ Hr)).
  fault_step H ltac:(fun Hr => exact (array_map_fault _ _ _ exercise_tag_fault Hr)).
  discriminate.
Qed.

(** One element that does not render makes the whole list fail. *)
Lemma map_result_In_fault {A B : Type} (f : A -> result B) (l : list A) (x : A) (e : exn) :
  In x l -> f x = Err e -> exists e', map_result f l = Err e'.
Proof.
  intros Hin Hx. induction l as [|y l IH]; [contradiction|].
  simpl. destruct (f y) as [b|e1] eqn:Hy; simpl; [|now eexists].
  destruct Hin as [-> | Hin]; [congruence|].
  destruct (IH Hin) as (e' & ->). simpl. now eexists.
Qed.

Lemma render_In_fault (workouts : list value) (bad : value) (e : exn) :
  In bad workouts -> workout_card h bad = Err e ->
  render h (VArr workouts) = Err TypeError.
Proof.
  intros Hin Hbad.
  destruct (map_result_In_fault _ _ _ _ Hin Hbad) as (e' & He').
  assert (e' = TypeError) as ->
    by exact (map_result_fault _ _ _ workout_card_fault He').
  unfold render, array_map. rewrite He'. reflexivity.
Qed.

End RenderFaults.

(** ** What is rendered, and what is not *)

Section Rendering.

Import Js Page History Run Lenient.

Variable h : host.

Lemma ToString_primitive (v : value) :
  is_primitive v = true -> exists s, ToString v = Ok s.
Proof.
  destruct v; try discriminate; intros _; eexists; reflexivity.
Qed.

Lemma substitute_loose (props : list (string * value)) (key : string) :
  primitive_or_absent props key = true ->
  exists s, substitute (get (VObj props) key) = Ok s.
Proof.
  unfold primitive_or_absent, substitute, get.
  destruct (own_property props key) as [v|]; [|intros _; eexists; reflexivity].
  apply ToString_primitive.
Qed.

Lemma substitute_undefined (v : value) (key : string) :
  get v key = Ok VUndefined -> substitute (get v key) = Ok "undefined".
Proof.
  intros ->. reflexivity.
Qed.

Lemma formatDate_primitive (v : value) :
  is_primitive v = true -> exists s, formatDate h v = Ok s.
Proof.
  destruct v; try discriminate; intros _; eexists; reflexivity.
Qed.

Lemma Math_round_value_primitive (v : value) :
  is_primitive v = true -> exists n, Math_round_value v = Ok n.
Proof.
  destruct v as [| |[]| | | |]; try discriminate; intros _; eexists; reflexivity.
Qed.

Lemma exercise_tag_loose (ex : value) :
  is_loose_exercise ex = true -> exists tag, exercise_tag ex = Ok tag.
Proof.
  destruct ex as [| |b|n|s|items|props]; try discriminate;
    try (intros _; eexists; reflexivity).
  simpl. rewrite !andb_true_iff. intros [[[Hname Hsets] Hweight] Hreps].
  destruct (substitute_loose _ _ Hname) as (name & Hn).
  destruct (substitute_loose _ _ Hsets) as (sets & Hs).
  destruct (substitute_loose _ _ Hweight) as (weight & Hw).
  destruct (substitute_loose _ _ Hreps) as (reps & Hr).
  unfold exercise_tag. rewrite Hn, Hs, Hw, Hr. eexists; reflexivity.
Qed.

Lemma workout_card_loose (workout : value) :
  is_loose_workout workout = true -> exists card, workout_card h workout = Ok card.
Proof.
  destruct workout as [| | | | | |props]; try discriminate.
  simpl. rewrite !andb_true_iff. intros [[[Hdate Hcount] Hvolume] Hexs].
  destruct (own_property props "exercises") as [[| | | | |exs|]|] eqn:Hown;
    try discriminate.
  destruct (substitute_loose _ _ Hcount) as (count & Hc).
  assert (Hd : exists d date, get (VObj props) "workout_date" = Ok d
                              /\ formatDate h d = Ok date).
  { unfold primitive_or_absent in Hdate. simpl.
    destruct (own_property props "workout_date") as [d|].
    - destruct (formatDate_primitive d Hdate) as (date & ?). now exists d, date.
    - exists VUndefined. eexists. split; reflexivity. }
  assert (Hv : exists v n, get (VObj props) "total_volume" = Ok v
                           /\ Math_round_value v = Ok n).
  { unfold primitive_or_absent in Hvolume. simpl.
    destruct (own_property props "total_volume") as [v|].
    - destruct (Math_round_value_primitive v Hvolume) as (n & ?). now exists v, n.
    - exists VUndefined. eexists. split; reflexivity. }
  destruct Hd as (d & date & Hd & Hdate').
  destruct Hv as (v & n & Hv & Hn).
  assert (Htags : exists tags, map_result exercise_tag exs = Ok tags).
  { apply map_result_total. intros x Hin. apply exercise_tag_loose.
    rewrite forallb_forall in Hexs. now apply Hexs. }
  destruct Htags as (tags & Htags).
  assert (He : get (VObj props) "exercises" = Ok (VArr exs)) by (simpl; now rewrite Hown).
  unfold workout_card. rewrite Hd. cbn [bind]. rewrite Hdate'. cbn [bind].
  rewrite Hc. cbn [bind]. rewrite Hv. cbn [bind]. rewrite Hn. cbn [bind].
  rewrite He. cbn [bind array_map]. rewrite Htags. eexists; reflexivity.
Qed.

Lemma Forall2_map_result {A B : Type} (f : A -> result B) (l : list A) (ys : list B) :
  Forall2 (fun x y => f x = Ok y) l ys -> map_result f l = Ok ys.
Proof.
  induction 1 as [|x y l ys Hx _ IH]; [reflexivity|].
  simpl. rewrite Hx, IH. reflexivity.
Qed.


(** X2.  When the body is an array and one of its elements, wherever it
    stands, does not render, no card is shown at all: the call logs a
    TypeError, leaves the error message in the display region and returns;
    the display region was written twice only, placeholder and message. *)
Theorem loadWorkouts_renders_all_or_nothing
    (net : network) (w : world) (filter old : string) (r : response)
    (workouts : list value) (bad : value) (e : exn) :
  userFilter (doc w) = Some filter ->
  workoutList (doc w) = Some old ->
  net (request_url filter) = FetchResolved r ->
  json r = BodyParsed (VArr workouts) ->
  In bad workouts ->
  workout_card h bad = Err e ->
  loadWorkouts h net w =
    (Returned tt,
     {| doc := {| userFilter := Some filter; workoutList := Some error_html |};
        trace := (trace w ++ [SetInnerHTML loading_html; Fetch (request_url filter);
                              ConsoleError "Error loading workouts:" TypeError;
                              SetInnerHTML error_html])%list |}).
Proof.
  intros Hfilter Hlist Hnet Hjson Hin Hbad.
  rewrite (loadWorkouts_run h net w filter old Hfilter Hlist).
  unfold outcome_of. rewrite Hnet, Hjson, outcome_of_array.
  rewrite (render_In_fault h workouts bad e Hin Hbad).
  destruct workouts as [|x rest]; [contradiction|]. reflexivity.
Qed.

(** X3.  Records looser than the expected ones are rendered all the same:
    when the body is a non-empty array of objects whose [exercises] is an
    array of values other than [null] and [undefined], every other field
    (of the workout, and of an exercise that is an object) being of any
    primitive type or missing, the call shows one card per element and
    logs the count. *)
Theorem loadWorkouts_tolerates_loose_records
    (net : network) (w : world) (filter old : string) (r : response)
    (workouts : list value) :
  userFilter (doc w) = Some filter ->
  workoutList (doc w) = Some old ->
  net (request_url filter) = FetchResolved r ->
  json r = BodyParsed (VArr workouts) ->
  workouts <> [] ->
  forallb is_loose_workout workouts = true ->
  exists cards,
    Forall2 (fun workout card => workout_card h workout = Ok card) workouts cards
    /\ loadWorkouts h net w =
         (Returned tt,
          {| doc := {| userFilter := Some filter;
                       workoutList := Some (Text.join_empty cards) |};
             trace := (trace w ++ [SetInnerHTML loading_html; Fetch (request_url filter);
                                   SetInnerHTML (Text.join_empty cards);
                                   ConsoleLog ("Loaded "
                                     ++ Num.Number_toString
                                          (Num.number_of_Z (Z.of_nat (List.length workouts)) false)
                                     ++ " workouts")])%list |}).
Proof.
  intros Hfilter Hlist Hnet Hjson Hne Hloose.
  assert (Hcards : exists cards, map_result (workout_card h) workouts = Ok cards).
  { apply map_result_total. intros x Hin. apply workout_card_loose.
    rewrite forallb_forall in Hloose. now apply Hloose. }
  destruct Hcards as (cards & Hcards). exists cards.
  split; [now apply map_result_Forall2|].
  rewrite (loadWorkouts_run h net w filter old Hfilter Hlist).
  unfold outcome_of. rewrite Hnet, Hjson, outcome_of_array.
  destruct workouts as [|x rest]; [congruence|].
  unfold render, array_map. rewrite Hcards. reflexivity.
Qed.

(** X4.  What missing fields of a workout show as: an object without
    [workout_date], [num_exercises] and [total_volume], whose [exercises]
    is an array that renders, has a card headed [Invalid Date] with the
    stats [undefined exercise(s) • NaN lbs]; it is not a fault. *)
Theorem workout_card_missing_fields
    (props : list (string * value)) (exs : list value) (tags : list string) :
  own_property props "workout_date" = None ->
  own_property props "num_exercises" = None ->
  own_property props "total_volume" = None ->
  own_property props "exercises" = Some (VArr exs) ->
  Forall2 (fun ex tag => exercise_tag ex = Ok tag) exs tags ->
  workout_card h (VObj props)
  = Ok (card_open ++ "Invalid Date" ++ card_stats
          ++ "undefined" ++ " exercise(s) • " ++ "NaN"
          ++ card_exercises ++ Text.join_empty tags ++ card_close).
Proof.
  intros Hdate Hcount Hvolume Hexs Htags.
  apply Forall2_map_result in Htags.
  unfold workout_card, substitute, get.
  rewrite Hdate, Hcount, Hvolume, Hexs. cbn [bind array_map].
  rewrite Htags. reflexivity.
Qed.

(** X5.  A workout whose [exercises] is not an array (the field is
    missing, [null], a string, an object; or the workout itself is [null]
    or not an object) has no card: rendering it is a TypeError, whatever
    its other fields. *)
Theorem workout_card_needs_exercises_array (workout : value) :
  has_exercises_array workout = false ->
  workout_card h workout = Err TypeError.
Proof.
  unfold has_exercises_array. intros Hnone.
  destruct (workout_card h workout) as [card|e] eqn:Hcard.
  - apply workout_card_Ok in Hcard as (_ & _ & _ & exs & _ & _ & Hexs & _).
    rewrite Hexs in Hnone. discriminate.
  - f_equal. exact (workout_card_fault h workout e Hcard).
Qed.

Lemma join_empty_app (a b : list string) :
  Text.join_empty (a ++ b) = Text.join_empty a ++ Text.join_empty b.
Proof.
  induction a as [|x a IH]; [reflexivity|].
  cbn [app]. rewrite !join_empty_cons, IH, append_assoc. reflexivity.
Qed.

Lemma map_result_app {A B : Type} (f : A -> result B) (a b : list A) (ys : list B) :
  map_result f (a ++ b) = Ok ys
  <-> exists ya yb, map_result f a = Ok ya /\ map_result f b = Ok yb /\ ys = (ya ++ yb)%list.
Proof.
  revert ys. induction a as [|x a IH]; intros ys; cbn [app map_result].
  - split.
    + intros Hb. now exists [], ys.
    + intros (ya & yb & [= <-] & Hb & ->). exact Hb.
  - split.
    + intros H. apply bind_Ok in H as (y & Hy & H).
      apply bind_Ok in H as (rest & Hrest & [= <-]).
      apply IH in Hrest as (ya & yb & Ha & Hb & ->).
      exists (y :: ya), yb. rewrite Hy, Ha. auto.
    + intros (ya & yb & Ha & Hb & ->).
      apply bind_Ok in Ha as (y & Hy & Ha).
      apply bind_Ok in Ha as (ya' & Ha & [= <-]).
      assert (Hab : map_result f (a ++ b) = Ok (ya' ++ yb)%list)
        by (apply IH; now exists ya', yb).
      rewrite Hy, Hab. reflexivity.
Qed.

(** X6.  Cards do not depend on their neighbours: the markup of a list
    of workouts put together from two lists is the markup of the first
    followed by that of the second, and it is rendered exactly when both
    are. *)
Theorem render_app (first second : list value) (html : string) :
  render h (VArr (first ++ second)) = Ok html
  <-> exists a b,
        render h (VArr first) = Ok a /\ render h (VArr second) = Ok b /\ html = a ++ b.
Proof.
  unfold render, array_map. split.
  - intros H. apply bind_Ok in H as (cards & Hcards & [= <-]).
    apply map_result_app in Hcards as (ya & yb & Ha & Hb & ->).
    exists (Text.join_empty ya), (Text.join_empty yb).
    rewrite Ha, Hb. cbn [bind]. rewrite join_empty_app. auto.
  - intros (a & b & Ha & Hb & ->).
    apply bind_Ok in Ha as (ya & Ha & [= <-]).
    apply bind_Ok in Hb as (yb & Hb & [= <-]).
    assert (Hab : map_result (workout_card h) (first ++ second) = Ok (ya ++ yb)%list)
      by (apply map_result_app; now exists ya, yb).
    rewrite Hab. cbn [bind]. now rewrite join_empty_app.
Qed.

End Rendering.

(** ** What the display region ends up holding *)

Section Display.

Import Js Page History Run.

Variable h : host.
Variable net : network.

Lemma outcome_of_Populated (f : fetched) (html count : string) :
  outcome_of h f = Populated html count ->
  exists r workouts,
    f = FetchResolved r /\ json r = BodyParsed (VArr workouts)
    /\ workouts <> [] /\ render h (VArr workouts) = Ok html.
Proof.
  destruct f as [|e|r]; simpl; try discriminate.
  destruct (json r) as [|e|v] eqn:Hjson; try discriminate.
  unfold outcome_of_value.
  destruct (get v "length") as [len|] eqn:Hlen; [|discriminate].
  destruct (strict_equals_zero len) eqn:Hzero; [discriminate|].
  destruct (render h v) as [html'|] eqn:Hrender; [|discriminate].
  destruct (substitute (Ok len)); [|discriminate].
  intros [= <- _].
  destruct (render_array_only h v html' Hrender) as (items & ->).
  exists r, items. repeat split; auto.
  intros ->. simpl in Hlen. injection Hlen as <-. discriminate.
Qed.

Lemma outcome_of_Empty (f : fetched) :
  outcome_of h f = Empty
  <-> exists r v len,
        f = FetchResolved r /\ json r = BodyParsed v
        /\ get v "length" = Ok len /\ strict_equals_zero len = true.
Proof.
  split.
  - destruct f as [|e|r]; simpl; try discriminate.
    destruct (json r) as [|e|v] eqn:Hjson; try discriminate.
    unfold outcome_of_value.
    destruct (get v "length") as [len|] eqn:Hlen; [|discriminate].
    destruct (strict_equals_zero len) eqn:Hzero.
    + intros _. now exists r, v, len.
    + destruct (render h v); [|discriminate].
      destruct (substitute (Ok len)); discriminate.
  - intros (r & v & len & -> & Hjson & Hlen & Hzero).
    simpl. rewrite Hjson. unfold outcome_of_value. now rewrite Hlen, Hzero.
Qed.

Lemma display_of_Empty (o : outcome) :
  (forall html count, o = Populated html count -> is_cards html) ->
  display_of o = empty_html -> o = Empty.
Proof.
  intros Hcards. destruct o as [|html count| |e]; simpl; try discriminate; auto.
  intros ->. destruct (is_cards_not_fixed _ (Hcards _ _ eq_refl)) as (_ & Hne & _).
  congruence.
Qed.

Lemma outcome_of_Populated_is_cards (f : fetched) (html count : string) :
  outcome_of h f = Populated html count -> is_cards html.
Proof.
  intros Ho. apply outcome_of_Populated in Ho as (r & workouts & _ & _ & Hne & Hrender).
  exact (render_is_cards h workouts html Hne Hrender).
Qed.

(** X7.  Cards come from a non-empty array only: if a call leaves card
    markup in the display region, the request was answered, the body
    parsed to a non-empty array, every element of it rendered, the markup
    is the cards of the elements joined in order, and the call returned. *)
Theorem loadWorkouts_cards_only_from_array (w : world) (filter old html : string) :
  userFilter (doc w) = Some filter ->
  workoutList (doc w) = Some old ->
  workoutList (doc (snd (loadWorkouts h net w))) = Some html ->
  is_cards html ->
  exists r workouts cards,
    net (request_url filter) = FetchResolved r
    /\ json r = BodyParsed (VArr workouts)
    /\ workouts <> []
    /\ Forall2 (fun workout card => workout_card h workout = Ok card) workouts cards
    /\ html = Text.join_empty cards
    /\ fst (loadWorkouts h net w) = Returned tt.
Proof.
  intros Hfilter Hlist.
  rewrite (loadWorkouts_run h net w filter old Hfilter Hlist).
  cbn [fst snd doc workoutList]. intros [= Hshown] Hcards.
  destruct (is_cards_not_fixed _ Hcards) as (Hload & Hempty & Herror).
  destruct (outcome_of h (net (request_url filter))) as [|html' count| |e] eqn:Ho;
    simpl in Hshown; try congruence.
  subst html'.
  apply outcome_of_Populated in Ho as (r & workouts & Hnet & Hjson & Hne & Hrender).
  apply render_Ok in Hrender as (cards & Hmap & ->).
  exists r, workouts, cards.
  repeat split; auto. now apply map_result_Forall2.
Qed.

(** X8.  The message that no workouts were found is what a call leaves in
    the display region exactly when the request was answered and the
    parsed body has a [length] that is the number zero: an empty array, but
    an empty string or an object with such a field as well. *)
Theorem loadWorkouts_empty_message_iff (w : world) (filter old : string) :
  userFilter (doc w) = Some filter ->
  workoutList (doc w) = Some old ->
  workoutList (doc (snd (loadWorkouts h net w))) = Some empty_html
  <-> exists r v len,
        net (request_url filter) = FetchResolved r
        /\ json r = BodyParsed v
        /\ get v "length" = Ok len
        /\ strict_equals_zero len = true.
Proof.
  intros Hfilter Hlist.
  rewrite (loadWorkouts_run h net w filter old Hfilter Hlist).
  cbn [snd doc workoutList]. rewrite <- outcome_of_Empty. split.
  - intros [= Hshown]. apply display_of_Empty; [|exact Hshown].
    intros html count Ho. exact (outcome_of_Populated_is_cards _ _ _ Ho).
  - intros ->. reflexivity.
Qed.

Lemma request_url_inj (a b : string) : request_url a = request_url b -> a = b.
Proof.
  unfold request_url, ToBoolean.
  destruct (String.eqb_spec a ""), (String.eqb_spec b ""); simpl; subst; auto;
    try discriminate.
  now intros [= H].
Qed.

(** X9.  The request tells the filter: two calls, each on a page with
    both elements, that send the same URL were made with the same value in
    the filter control. *)
Theorem loadWorkouts_request_tells_filter
    (net' : network) (w w' : world) (filter old filter' old' : string) :
  userFilter (doc w) = Some filter ->
  workoutList (doc w) = Some old ->
  userFilter (doc w') = Some filter' ->
  workoutList (doc w') = Some old' ->
  trace w = [] ->
  trace w' = [] ->
  requests (trace (snd (loadWorkouts h net w)))
  = requests (trace (snd (loadWorkouts h net' w'))) ->
  filter = filter'.
Proof.
  intros Hfilter Hlist Hfilter' Hlist' Htrace Htrace'.
  rewrite (loadWorkouts_run h net w filter old Hfilter Hlist).
  rewrite (loadWorkouts_run h net' w' filter' old' Hfilter' Hlist').
  cbn [snd trace]. rewrite Htrace, Htrace'. cbn [app requests].
  rewrite !requests_events_of. intros [= H]. now apply request_url_inj.
Qed.

End Display.

(** ** Dates with a time of day *)

Section LocalDateTime.

Import Js History JSDate.

Lemma digit_in_range (c : ascii) (d : Z) : Num.digit_in 10 c = Some d -> 0 <= d <= 9.
Proof.
  unfold Num.digit_in.
  set (b := Num.byte c).
  destruct ((48 <=? b) && (b <=? 57)) eqn:Hdec.
  - apply andb_true_iff in Hdec as [H1%Z.leb_le H2%Z.leb_le].
    destruct (Z.ltb_spec (b - 48) 10); [|discriminate]. intros [= <-]. lia.
  - destruct ((97 <=? b) && (b <=? 102)) eqn:Hlow.
    + apply andb_true_iff in Hlow as [H1%Z.leb_le H2%Z.leb_le].
      destruct (Z.ltb_spec (b - 87) 10); [|discriminate]. lia.
    + destruct ((65 <=? b) && (b <=? 70)) eqn:Hup.
      * apply andb_true_iff in Hup as [H1%Z.leb_le H2%Z.leb_le].
        destruct (Z.ltb_spec (b - 55) 10); [|discriminate]. lia.
      * discriminate.
Qed.

Lemma read_fixed_nonneg (n : nat) (s : string) (acc v : Z) (r : string) :
  0 <= acc -> read_fixed n s acc = Some (v, r) -> 0 <= v.
Proof.
  revert s acc. induction n as [|n IH]; intros s acc Hacc; simpl.
  - now intros [= <- _].
  - destruct s as [|c s]; [discriminate|].
    destruct (Num.digit_in 10 c) as [d|] eqn:Hd; [|discriminate].
    apply digit_in_range in Hd. apply IH. lia.
Qed.

Ltac other_char c Hne :=
  destruct c as [[] [] [] [] [] [] [] []];
  try discriminate; try (exfalso; apply Hne; reflexivity).

Lemma read_seconds_range (s : string) (ss ms : Z) (r : string) :
  read_seconds s = Some (ss, ms, r) -> 0 <= ss /\ 0 <= ms <= 999.
Proof.
  unfold read_seconds.
  destruct s as [|c s']; [intros [= <- <- _]; lia|].
  destruct (Ascii.eqb_spec c ":") as [->|Hne].
  - destruct (read_fixed 2 s' 0) as [[ss' r4]|] eqn:Hss; [|discriminate].
    pose proof (read_fixed_nonneg _ _ _ _ _ (Z.le_refl 0) Hss) as Hss'.
    destruct r4 as [|c4 r4']; [intros [= <- <- _]; lia|].
    destruct (Ascii.eqb_spec c4 ".") as [->|Hne].
    + destruct (read_fixed 3 r4' 0) as [[ms' r5]|] eqn:Hms; [|discriminate].
      intros [= <- <- _].
      split; [lia|]. split; [exact (read_fixed_nonneg _ _ _ _ _ (Z.le_refl 0) Hms)|].
      clear - Hms. simpl in Hms.
      destruct r4' as [|a1 [|a2 [|a3 rest]]]; try discriminate;
        destruct (Num.digit_in 10 a1) as [d1|] eqn:H1; try discriminate;
        try (destruct (Num.digit_in 10 a2) as [d2|] eqn:H2; try discriminate);
        try (destruct (Num.digit_in 10 a3) as [d3|] eqn:H3; try discriminate).
      injection Hms as <- _.
      apply digit_in_range in H1, H2, H3. lia.
    + other_char c4 Hne; intros [= <- <- _]; lia.
  - other_char c Hne; intros [= <- <- _]; lia.
Qed.

(** A time of day that was read is within a day, the end of the day
    ([24:00]) included. *)
Lemma read_time_range (s : string) (tod : Z) (r : string) :
  read_time s = Some (tod, r) -> 0 <= tod <= msPerDay.
Proof.
  unfold read_time.
  destruct (read_fixed 2 s 0) as [[hh [|c r1]]|] eqn:Hhh; try discriminate.
  destruct (Ascii.eqb_spec c ":") as [->|Hne]; [|other_char c Hne].
  destruct (read_fixed 2 r1 0) as [[mm r2]|] eqn:Hmm; [|discriminate].
  destruct (read_seconds r2) as [[[ss ms] r3]|] eqn:Hsec; [|discriminate].
  apply read_fixed_nonneg in Hhh; [|lia]. apply read_fixed_nonneg in Hmm; [|lia].
  apply read_seconds_range in Hsec.
  destruct ((hh <=? 23) && (mm <=? 59) && (ss <=? 59)) eqn:Hin; cbn [orb].
  - apply andb_true_iff in Hin as [[H1%Z.leb_le H2%Z.leb_le]%andb_true_iff H3%Z.leb_le].
    intros [= <- _]. unfold MakeTime, msPerDay. lia.
  - destruct ((hh =? 24) && (mm =? 0) && (ss =? 0) && (ms =? 0)) eqn:Hend; [|discriminate].
    apply andb_true_iff in Hend as [[[H1%Z.eqb_eq H2%Z.eqb_eq]%andb_true_iff
                                       H3%Z.eqb_eq]%andb_true_iff H4%Z.eqb_eq].
    intros [= <- _]. subst. unfold MakeTime, msPerDay. lia.
Qed.

(** X11.  A date followed by a time of day and no offset ([YYYY-MM-DDTHH:mm]
    and the like, of year 1 or later, the time before [24:00]) is read as
    local time, and so shown as the date that was written, whatever the
    host's offset from UTC, as long as the host gives the instant it
    reads the offset it read it with.  (A date alone is read as UTC, and
    shown as the day before on a host behind UTC.) *)
Theorem formatDate_of_local_date_time
    (h : host) (s r : string) (y mo d tod : Z) :
  read_date s = Some (y, mo, d, String "T" r) ->
  read_time r = Some (tod, "") ->
  1 <= mo <= 12 ->
  1 <= d <= DaysInMonth y mo ->
  1 <= y ->
  tod < msPerDay ->
  let day := MakeDay y (mo - 1) d in
  let t := day * msPerDay + tod in
  LocalTZA h (UTC_of h t) true = LocalTZA h t false ->
  Z.abs (UTC_of h t) <= 8640000000000000 ->
  formatDate h (VStr s)
  = Ok (weekday_short ((day + 4) mod 7) ++ ", " ++ month_short (mo - 1) ++ " "
          ++ Text.digits_of_Z d ++ ", " ++ Text.digits_of_Z y).
Proof.
  intros Hdate Htime Hmo Hd Hy Hend day t Hzone Hclip.
  pose proof (read_time_range _ _ _ Htime) as Htod.
  assert (Hparse : Date_parse h s = Some (UTC_of h t)).
  { unfold Date_parse, parse_format. rewrite Hdate.
    replace ((1 <=? mo) && (mo <=? 12) && (1 <=? d) && (d <=? DaysInMonth y mo)) with true.
    - rewrite Htime. cbn [read_zone]. fold day. fold t. unfold TimeClip.
      destruct (Z.leb_spec (Z.abs (UTC_of h t)) 8640000000000000); [reflexivity | lia].
    - symmetry. rewrite !andb_true_iff, !Z.leb_le. lia. }
  assert (Hlocal : LocalTime_of h (UTC_of h t) = day * msPerDay + tod).
  { unfold LocalTime_of. rewrite Hzone. unfold UTC_of. fold t. lia. }
  assert (Hfmt : formatDate h (VStr s) = Ok (en_US_date (day * msPerDay + tod))).
  { change (formatDate h (VStr s))
      with (Ok (toLocaleDateString_en_US h (Date_parse h s))).
    rewrite Hparse. unfold toLocaleDateString_en_US. now rewrite Hlocal. }
  rewrite Hfmt. f_equal.
  assert (Hin : 0 <= tod < msPerDay) by lia.
  destruct (fields_of_day y mo d (day * msPerDay + tod) Hmo Hd (Day_ahead _ _ Hin))
    as (Hyear & Hmonth & Hdate').
  unfold en_US_date, WeekDay. rewrite Hyear, Hmonth, Hdate', (Day_ahead _ _ Hin).
  destruct (Z.leb_spec y 0); [lia | reflexivity].
Qed.

End LocalDateTime.

(** ** Integers as text *)

Section Numerals.

Import Num Numeral.

(** *** Decimal digits *)

Lemma string_of_uint_revapp (l acc : Decimal.uint) :
  NilEmpty.string_of_uint (Decimal.revapp l acc)
  = NilEmpty.string_of_uint (Decimal.rev l) ++ NilEmpty.string_of_uint acc.
Proof.
  revert acc. unfold Decimal.rev.
  induction l as [|l IH|l IH|l IH|l IH|l IH|l IH|l IH|l IH|l IH|l IH]; intros acc;
    [reflexivity|..];
    cbn [Decimal.revapp]; rewrite IH; symmetry; rewrite IH;
    rewrite append_assoc; reflexivity.
Qed.

Lemma to_little_uint_snoc (a : positive) (r : Z) :
  0 <= r <= 9 ->
  exists hd,
    Pos.to_little_uint (Z.to_pos (10 * Z.pos a + r)) = hd (Pos.to_little_uint a)
    /\ forall l, NilEmpty.string_of_uint (Decimal.revapp (hd l) Decimal.Nil)
                 = NilEmpty.string_of_uint (Decimal.revapp l Decimal.Nil) ++ digit_char r.
Proof.
  intros Hr.
  pose proof (Unsigned.to_ldec_tenfold a) as H0. cbn [Unsigned.to_lu] in H0.
  assert (Hsucc : forall p, Pos.to_little_uint (Pos.succ p)
                            = Decimal.Little.succ (Pos.to_little_uint p)).
  { intros p. exact (Unsigned.to_lu_succ (N.pos p)). }
  change (10 * N.pos a)%N with (N.pos (10 * a)) in H0. cbn [Unsigned.to_lu] in H0.
  assert (Hcase : r = 0 \/ r = 1 \/ r = 2 \/ r = 3 \/ r = 4 \/ r = 5 \/ r = 6 \/ r = 7
                  \/ r = 8 \/ r = 9) by lia.
  assert (Hstr : forall hd c,
             (forall l, Decimal.revapp (hd l) Decimal.Nil = Decimal.revapp l (hd Decimal.Nil)) ->
             NilEmpty.string_of_uint (hd Decimal.Nil) = c ->
             forall l, NilEmpty.string_of_uint (Decimal.revapp (hd l) Decimal.Nil)
                       = NilEmpty.string_of_uint (Decimal.revapp l Decimal.Nil) ++ c).
  { intros hd c Hhd Hc l. rewrite Hhd, string_of_uint_revapp, Hc. reflexivity. }
  destruct Hcase as [->|[->|[->|[->|[->|[->|[->|[->|[->| ->]]]]]]]]].
  - exists Decimal.D0. split; [|apply Hstr; reflexivity].
    replace (Z.to_pos (10 * Z.pos a + 0)) with (10 * a)%positive by lia. exact H0.
  - exists Decimal.D1. split; [|apply Hstr; reflexivity].
    replace (Z.to_pos (10 * Z.pos a + 1)) with (Pos.succ (10 * a)) by lia.
    rewrite Hsucc, H0. reflexivity.
  - exists Decimal.D2. split; [|apply Hstr; reflexivity].
    replace (Z.to_pos (10 * Z.pos a + 2)) with (Pos.succ (Pos.succ (10 * a))) by lia.
    rewrite !Hsucc, H0. reflexivity.
  - exists Decimal.D3. split; [|apply Hstr; reflexivity].
    replace (Z.to_pos (10 * Z.pos a + 3))
      with (Pos.succ (Pos.succ (Pos.succ (10 * a)))) by lia.
    rewrite !Hsucc, H0. reflexivity.
  - exists Decimal.D4. split; [|apply Hstr; reflexivity].
    replace (Z.to_pos (10 * Z.pos a + 4))
      with (Pos.succ (Pos.succ (Pos.succ (Pos.succ (10 * a))))) by lia.
    rewrite !Hsucc, H0. reflexivity.
  - exists Decimal.D5. split; [|apply Hstr; reflexivity].
    replace (Z.to_pos (10 * Z.pos a + 5))
      with (Pos.succ (Pos.succ (Pos.succ (Pos.succ (Pos.succ (10 * a)))))) by lia.
    rewrite !Hsucc, H0. reflexivity.
  - exists Decimal.D6. split; [|apply Hstr; reflexivity].
    replace (Z.to_pos (10 * Z.pos a + 6))
      with (Pos.succ (Pos.succ (Pos.succ (Pos.succ (Pos.succ (Pos.succ (10 * a)))))))
      by lia.
    rewrite !Hsucc, H0. reflexivity.
  - exists Decimal.D7. split; [|apply Hstr; reflexivity].
    replace (Z.to_pos (10 * Z.pos a + 7))
      with (Pos.succ (Pos.succ (Pos.succ (Pos.succ (Pos.succ (Pos.succ
              (Pos.succ (10 * a)))))))) by lia.
    rewrite !Hsucc, H0. reflexivity.
  - exists Decimal.D8. split; [|apply Hstr; reflexivity].
    replace (Z.to_pos (10 * Z.pos a + 8))
      with (Pos.succ (Pos.succ (Pos.succ (Pos.succ (Pos.succ (Pos.succ
              (Pos.succ (Pos.succ (10 * a))))))))) by lia.
    rewrite !Hsucc, H0. reflexivity.
  - exists Decimal.D9. split; [|apply Hstr; reflexivity].
    replace (Z.to_pos (10 * Z.pos a + 9))
      with (Pos.succ (Pos.succ (Pos.succ (Pos.succ (Pos.succ (Pos.succ
              (Pos.succ (Pos.succ (Pos.succ (10 * a)))))))))) by lia.
    rewrite !Hsucc, H0. reflexivity.
Qed.

Lemma digits_of_pos (p : positive) :
  Text.digits_of_Z (Z.pos p)
  = NilEmpty.string_of_uint (Decimal.rev (Pos.to_little_uint p)).
Proof.
  unfold Text.digits_of_Z. cbn [Z.to_N N.to_uint]. unfold Pos.to_uint.
  destruct (Decimal.rev (Pos.to_little_uint p)) eqn:Hrev; try reflexivity.
  exfalso. apply (Unsigned.to_uint_nonnil p). exact Hrev.
Qed.

(** The digits of [10 a + r] are those of [a] and then the digit [r]. *)
Lemma digits_snoc (a r : Z) :
  0 < a -> 0 <= r <= 9 ->
  Text.digits_of_Z (10 * a + r) = Text.digits_of_Z a ++ digit_char r.
Proof.
  intros Ha Hr. destruct a as [|a|a]; try lia.
  destruct (to_little_uint_snoc a r Hr) as (hd & Hhd & Hstr).
  replace (10 * Z.pos a + r) with (Z.pos (Z.to_pos (10 * Z.pos a + r))) by lia.
  rewrite !digits_of_pos, Hhd. unfold Decimal.rev. apply Hstr.
Qed.

Lemma zeros_snoc (n : nat) : Text.zeros n ++ "0" = Text.zeros (S n).
Proof.
  induction n as [|n IH]; [reflexivity|]. cbn [Text.zeros append]. now rewrite IH.
Qed.

Lemma length_append (a b : string) :
  String.length (a ++ b) = (String.length a + String.length b)%nat.
Proof.
  induction a as [|c a IH]; simpl; [reflexivity | now rewrite IH].
Qed.

Lemma length_zeros (n : nat) : String.length (Text.zeros n) = n.
Proof.
  induction n as [|n IH]; simpl; [reflexivity | now rewrite IH].
Qed.

(** Trailing zeros: the digits of [s * 10^p] are those of [s] and [p] zeros. *)
Lemma digits_pow10 (s : Z) (p : nat) :
  0 < s ->
  Text.digits_of_Z (s * 10 ^ Z.of_nat p) = Text.digits_of_Z s ++ Text.zeros p.
Proof.
  intros Hs. induction p as [|p IH].
  - rewrite Z.mul_1_r. cbn [Text.zeros]. now rewrite append_nil_r.
  - replace (s * 10 ^ Z.of_nat (S p)) with (10 * (s * 10 ^ Z.of_nat p) + 0)
      by (rewrite Nat2Z.inj_succ, Z.pow_succ_r; lia).
    rewrite digits_snoc; [|nia|lia].
    rewrite IH, append_assoc. change (digit_char 0) with "0".
    now rewrite zeros_snoc.
Qed.

(** A positive integer below [10^j] has at most [j] digits. *)
Lemma digits_length (j : nat) (q : Z) :
  0 < q < 10 ^ Z.of_nat j -> (String.length (Text.digits_of_Z q) <= j)%nat.
Proof.
  revert q. induction j as [|j IH]; intros q Hq; [simpl in Hq; lia|].
  rewrite Nat2Z.inj_succ, Z.pow_succ_r in Hq by lia.
  destruct (Z.eq_dec (q / 10) 0) as [Hz|Hnz].
  - assert (Hsmall : q = 1 \/ q = 2 \/ q = 3 \/ q = 4 \/ q = 5 \/ q = 6 \/ q = 7
                     \/ q = 8 \/ q = 9).
    { pose proof (Z.div_mod q 10 ltac:(lia)). pose proof (Z.mod_pos_bound q 10 ltac:(lia)).
      lia. }
    destruct Hsmall as [->|[->|[->|[->|[->|[->|[->|[->| ->]]]]]]]]; simpl; lia.
  - pose proof (Z.div_mod q 10 ltac:(lia)) as Hdm.
    pose proof (Z.mod_pos_bound q 10 ltac:(lia)) as Hmod.
    assert (Ha : 0 < q / 10 < 10 ^ Z.of_nat j).
    { split; [pose proof (Z.div_pos q 10); lia|].
      apply Z.div_lt_upper_bound; lia. }
    rewrite Hdm, digits_snoc by lia.
    rewrite length_append. specialize (IH _ Ha). simpl. lia.
Qed.

(** *** The double of an integer below [2^53] *)

Lemma digits2_pos_bounds (p : positive) :
  2 ^ (Z.pos (digits2_pos p) - 1) <= Z.pos p < 2 ^ Z.pos (digits2_pos p).
Proof.
  induction p as [p IH|p IH|]; cbn [digits2_pos]; [| |simpl; lia];
    rewrite Pos2Z.inj_succ;
    replace (Z.succ (Z.pos (digits2_pos p)) - 1) with (Z.succ (Z.pos (digits2_pos p) - 1))
      by lia;
    rewrite !Z.pow_succ_r by lia; lia.
Qed.

Lemma digits2_pos_unique (p : positive) (d : Z) :
  2 ^ (d - 1) <= Z.pos p < 2 ^ d -> Z.pos (digits2_pos p) = d.
Proof.
  intros [Hlo Hhi]. pose proof (digits2_pos_bounds p) as [Hlo' Hhi'].
  assert (0 < d).
  { destruct (Z.lt_trichotomy d 0) as [Hd|[Hd|Hd]]; [|subst; simpl in Hhi; lia|exact Hd].
    rewrite Z.pow_neg_r in Hhi by lia. lia. }
  destruct (Z.lt_trichotomy (Z.pos (digits2_pos p)) d) as [Hlt|[Heq|Hgt]]; [|exact Heq|].
  - assert (2 ^ Z.pos (digits2_pos p) <= 2 ^ (d - 1)) by (apply Z.pow_le_mono_r; lia). lia.
  - assert (2 ^ d <= 2 ^ (Z.pos (digits2_pos p) - 1)) by (apply Z.pow_le_mono_r; lia). lia.
Qed.

Lemma iter_xO_value (n d : positive) :
  Z.pos (Pos.iter xO n d) = Z.pos n * 2 ^ Z.pos d.
Proof.
  induction d as [|d IH] using Pos.peano_ind.
  - simpl. lia.
  - rewrite Pos.iter_succ, Pos2Z.inj_succ, Z.pow_succ_r by lia.
    rewrite Pos2Z.inj_xO, IH. lia.
Qed.

(** An integer below [2^53] is a double: its mantissa is shifted to 53
    bits, and nothing is rounded. *)
Lemma binary_normalize_integer (n : positive) :
  Z.pos n < 2 ^ 53 ->
  exists m s,
    binary_normalize 53 1024 (Z.pos n) 0 false = S754_finite false m (- s)
    /\ 0 <= s <= 52
    /\ Z.pos m = Z.pos n * 2 ^ s
    /\ Z.pos (digits2_pos m) = 53.
Proof.
  intros Hn. pose proof (digits2_pos_bounds n) as Hb.
  set (b := Z.pos (digits2_pos n)) in *.
  assert (Hb53 : 1 <= b <= 53).
  { split; [subst b; lia|].
    destruct (Z_le_gt_dec b 53) as [|Hgt]; [assumption|].
    assert (2 ^ 53 <= 2 ^ (b - 1)) by (apply Z.pow_le_mono_r; lia). lia. }
  assert (Hround : forall m e,
             Z.pos (digits2_pos m) = 53 -> -52 <= e <= 0 ->
             binary_round_aux 53 1024 false (Z.pos m) e loc_Exact = S754_finite false m e).
  { intros m e Hm He. unfold binary_round_aux, shr_fexp.
    cbn [Zdigits2 shr_record_of_loc]. rewrite Hm.
    assert (Hf : fexp 53 1024 (53 + e) - e = 0) by (unfold fexp, emin; lia).
    rewrite Hf. cbn [shr shr_m loc_of_shr_record round_nearest_even Zdigits2
                     shr_record_of_loc].
    rewrite Hm, Hf. cbn [shr shr_m].
    destruct (Z.leb_spec e (1024 - 53)); [reflexivity | lia]. }
  unfold binary_normalize, binary_round, shl_align. fold b.
  assert (Hf : fexp 53 1024 (b + 0) = b - 53) by (unfold fexp, emin; lia).
  rewrite Hf, Z.sub_0_r.
  destruct (b - 53) as [|d|d] eqn:Hd; [|lia|].
  - exists n, 0. rewrite (Hround n 0) by lia. repeat split; try lia.
  - exists (Pos.iter xO n d), (Z.pos d).
    assert (Hval : Z.pos (Pos.iter xO n d) = Z.pos n * 2 ^ Z.pos d) by apply iter_xO_value.
    assert (Hdig : Z.pos (digits2_pos (Pos.iter xO n d)) = 53).
    { apply digits2_pos_unique. rewrite Hval.
      replace 53 with (b + Z.pos d) by lia.
      replace (b + Z.pos d - 1) with ((b - 1) + Z.pos d) by lia.
      rewrite !Z.pow_add_r by lia.
      assert (0 < 2 ^ Z.pos d) by (apply Z.pow_pos_nonneg; lia). nia. }
    rewrite (Hround _ (Z.neg d)) by lia.
    repeat split; try lia.
Qed.

(** *** The shortest digits of an integer *)

Lemma Qleb_true (a b : Q) : Qleb a b = true <-> (a <= b)%Q.
Proof.
  unfold Qleb. rewrite Qle_alt. destruct (a ?= b)%Q; intuition congruence.
Qed.

Lemma Qltb_true (a b : Q) : Qltb a b = true <-> (a < b)%Q.
Proof.
  unfold Qltb. rewrite Qlt_alt. destruct (a ?= b)%Q; intuition congruence.
Qed.

Lemma pow2_small (e : Z) : e <= -1 -> (0 < pow2 e /\ pow2 e <= 1 # 2)%Q.
Proof.
  intros He. unfold pow2. destruct (Z.leb_spec 0 e); [lia|].
  assert (2 ^ 1 <= 2 ^ (- e)) by (apply Z.pow_le_mono_r; lia).
  unfold Qlt, Qle. cbn [Qnum Qden]. rewrite Z2Pos.id by lia. lia.
Qed.

Lemma pow10_nonneg (p : Z) : 0 <= p -> pow10 p = inject_Z (10 ^ p).
Proof.
  intros Hp. unfold pow10. destruct (Z.leb_spec 0 p); [reflexivity | lia].
Qed.

Lemma integer_value (n m : positive) (s : Z) :
  0 <= s -> Z.pos m = Z.pos n * 2 ^ s ->
  (inject_Z (Z.pos m) * pow2 (- s) == inject_Z (Z.pos n))%Q.
Proof.
  intros Hs Hm. unfold pow2. destruct (Z.leb_spec 0 (- s)).
  - assert (s = 0) as -> by lia. simpl in *. rewrite Hm.
    unfold Qeq. simpl. lia.
  - assert (0 < 2 ^ s) by (apply Z.pow_pos_nonneg; lia).
    unfold Qeq. cbn [Qnum Qden Qmult inject_Z].
    rewrite Z.opp_involutive, Pos2Z.inj_mul, Z2Pos.id by lia. lia.
Qed.

(** Which integers lie in the rounding interval of an integer: itself. *)
Lemma inside_integer (ev : bool) (v hd hu uq : Q) (N u : Z) :
  (v == inject_Z N)%Q -> (uq == inject_Z u)%Q ->
  (0 < hd)%Q -> (hd <= 1 # 2)%Q -> (0 < hu)%Q -> (hu <= 1 # 2)%Q ->
  (if ev then Qleb (v - hd) uq && Qleb uq (v + hu)
   else Qltb (v - hd) uq && Qltb uq (v + hu)) = (u =? N).
Proof.
  intros Hv Hu Hd0 Hd Hu0 Hu1.
  destruct (Z.eqb_spec u N) as [->|Hne].
  - destruct ev; apply andb_true_iff; split;
      first [apply Qleb_true | apply Qltb_true]; lra.
  - assert (Hcase : (u <= N - 1 \/ N + 1 <= u)%Z) by lia.
    assert (Hq : (inject_Z u <= inject_Z N - 1 \/ inject_Z N + 1 <= inject_Z u)%Q).
    { destruct Hcase as [H|H]; [left | right].
      - rewrite Zle_Qle in H. unfold Z.sub in H. rewrite inject_Z_plus in H.
        change (inject_Z (- (1))) with (- (1))%Q in H. lra.
      - rewrite Zle_Qle in H. rewrite inject_Z_plus in H.
        change (inject_Z 1) with 1%Q in H. lra. }
    destruct ev; apply andb_false_iff.
    + destruct Hq as [H|H]; [left | right].
      * destruct (Qleb (v - hd) uq) eqn:Hb; [|reflexivity]. apply Qleb_true in Hb. lra.
      * destruct (Qleb uq (v + hu)) eqn:Hb; [|reflexivity]. apply Qleb_true in Hb. lra.
    + destruct Hq as [H|H]; [left | right].
      * destruct (Qltb (v - hd) uq) eqn:Hb; [|reflexivity]. apply Qltb_true in Hb. lra.
      * destruct (Qltb uq (v + hu)) eqn:Hb; [|reflexivity]. apply Qltb_true in Hb. lra.
Qed.

Lemma Qfloor_Z_integer (v : Q) (N T : Z) :
  (v == inject_Z N)%Q -> 0 < T -> Qfloor_Z (v / inject_Z T) = N / T.
Proof.
  intros Hv HT.
  assert (Hfloor : forall q, Qfloor_Z q = Qfloor q) by (intros [a b]; reflexivity).
  rewrite Hfloor, Hv. symmetry. apply Zdiv_Qdiv.
Qed.

Section Shortest.

Variables n m : positive.
Variable s : Z.
Hypothesis Hs : 0 <= s <= 52.
Hypothesis Hm : Z.pos m = Z.pos n * 2 ^ s.

(** With [k] digits, the candidate is the integer itself or nothing. *)
Lemma shortest_at_integer (E k : Z) :
  0 <= E -> 10 ^ E <= Z.pos n -> 1 <= k <= E + 1 ->
  shortest_at m (- s) E k
  = if Z.pos n / 10 ^ (E + 1 - k) * 10 ^ (E + 1 - k) =? Z.pos n
    then Some {| dec_s := Z.pos n / 10 ^ (E + 1 - k); dec_p := E + 1 - k |}
    else None.
Proof.
  intros HE HE10 Hk.
  unfold shortest_at. cbv zeta.
  set (v := (inject_Z (Z.pos m) * pow2 (- s))%Q).
  set (hd := if (Z.pos m =? 2 ^ 52) && (-1074 <? - s) then pow2 (- s - 2) else pow2 (- s - 1)).
  set (hu := pow2 (- s - 1)).
  set (p := E + 1 - k).
  assert (Hp : 0 <= p) by (subst p; lia).
  assert (HT : 0 < 10 ^ p) by (apply Z.pow_pos_nonneg; lia).
  assert (Hv : (v == inject_Z (Z.pos n))%Q) by (apply integer_value; lia).
  assert (Hhu : (0 < hu /\ hu <= 1 # 2)%Q) by (apply pow2_small; lia).
  assert (Hhd : (0 < hd /\ hd <= 1 # 2)%Q).
  { subst hd. destruct ((Z.pos m =? 2 ^ 52) && (-1074 <? - s)); apply pow2_small; lia. }
  rewrite (pow10_nonneg p Hp).
  rewrite (Qfloor_Z_integer v (Z.pos n) (10 ^ p) Hv HT).
  set (q := Z.pos n / 10 ^ p).
  assert (Hq : 0 < q).
  { subst q. apply Z.div_str_pos. split; [lia|].
    apply Z.le_trans with (10 ^ E); [|exact HE10].
    apply Z.pow_le_mono_r; lia. }
  assert (Hlo : (inject_Z q * inject_Z (10 ^ p) == inject_Z (q * 10 ^ p))%Q)
    by (now rewrite inject_Z_mult).
  assert (Hhi : (inject_Z (q + 1) * inject_Z (10 ^ p) == inject_Z ((q + 1) * 10 ^ p))%Q)
    by (now rewrite inject_Z_mult).
  rewrite (inside_integer (Z.even (Z.pos m)) v hd hu _ (Z.pos n) (q * 10 ^ p) Hv Hlo
             (proj1 Hhd) (proj2 Hhd) (proj1 Hhu) (proj2 Hhu)).
  rewrite (inside_integer (Z.even (Z.pos m)) v hd hu _ (Z.pos n) ((q + 1) * 10 ^ p) Hv Hhi
             (proj1 Hhd) (proj2 Hhd) (proj1 Hhu) (proj2 Hhu)).
  assert (Hgt : ((q + 1) * 10 ^ p =? Z.pos n) = false).
  { apply Z.eqb_neq. subst q.
    pose proof (Z.div_mod (Z.pos n) (10 ^ p) ltac:(lia)).
    pose proof (Z.mod_pos_bound (Z.pos n) (10 ^ p) HT). nia. }
  rewrite Hgt.
  destruct (Z.ltb_spec 0 q); [|lia]. cbn [andb].
  destruct (q * 10 ^ p =? Z.pos n); reflexivity.
Qed.

End Shortest.

Lemma estimate_table (b : Z) : 1 <= b <= 53 -> estimate_ok b = true.
Proof.
  intros Hb.
  assert (Hall : forallb estimate_ok (map Z.of_nat (seq 1 53)) = true)
    by (vm_compute; reflexivity).
  rewrite forallb_forall in Hall. apply Hall.
  apply in_map_iff. exists (Z.to_nat b). split; [lia|].
  apply in_seq. lia.
Qed.

Lemma log10_adjust_spec (fuel : nat) (v : Q) (E0 : Z) :
  (pow10 E0 <= v)%Q -> (v < pow10 (E0 + Z.of_nat fuel + 1))%Q ->
  (pow10 (log10_adjust fuel v E0) <= v /\ v < pow10 (log10_adjust fuel v E0 + 1))%Q
  /\ E0 <= log10_adjust fuel v E0.
Proof.
  revert E0. induction fuel as [|fuel IH]; intros E0 Hlo Hhi.
  - cbn [log10_adjust]. replace (E0 + Z.of_nat 0 + 1) with (E0 + 1) in Hhi by lia.
    split; [split; assumption | lia].
  - cbn [log10_adjust]. destruct (Qleb (pow10 (E0 + 1)) v) eqn:Hnext.
    + apply Qleb_true in Hnext.
      destruct (IH (E0 + 1) Hnext) as (Hspec & Hle).
      * replace (E0 + 1 + Z.of_nat fuel + 1) with (E0 + Z.of_nat (S fuel) + 1) by lia.
        exact Hhi.
      * split; [exact Hspec | lia].
    + split; [|lia]. split; [exact Hlo|].
      destruct (Qlt_le_dec v (pow10 (E0 + 1))) as [Hlt|Hge]; [exact Hlt|].
      apply Qleb_true in Hge. congruence.
Qed.

Section Exponent.

Variables n m : positive.
Variable s : Z.
Hypothesis Hs : 0 <= s <= 52.
Hypothesis Hm : Z.pos m = Z.pos n * 2 ^ s.
Hypothesis Hdig : Z.pos (digits2_pos m) = 53.

(** The decimal exponent of an integer below [2^53]. *)
Lemma log10_floor_integer :
  let E := log10_floor m (- s) in
  0 <= E <= 15 /\ 10 ^ E <= Z.pos n < 10 ^ (E + 1).
Proof.
  unfold log10_floor. rewrite Hdig.
  set (b := 53 + - s).
  set (E0 := (b - 1) * 30103 / 100000 - 1).
  set (v := (inject_Z (Z.pos m) * pow2 (- s))%Q).
  assert (Hv : (v == inject_Z (Z.pos n))%Q) by (apply integer_value; lia).
  assert (Hb : 1 <= b <= 53) by (subst b; lia).
  pose proof (digits2_pos_bounds m) as Hbits. rewrite Hdig in Hbits.
  assert (H2 : 0 < 2 ^ s) by (apply Z.pow_pos_nonneg; lia).
  assert (Hn : 2 ^ (b - 1) <= Z.pos n < 2 ^ b).
  { assert (Hlow : 2 ^ (53 - 1) = 2 ^ (b - 1) * 2 ^ s)
      by (rewrite <- Z.pow_add_r by lia; f_equal; subst b; lia).
    assert (Hhigh : 2 ^ 53 = 2 ^ b * 2 ^ s)
      by (rewrite <- Z.pow_add_r by lia; f_equal; subst b; lia).
    rewrite Hlow, Hhigh, Hm in Hbits. nia. }
  pose proof (estimate_table b Hb) as Htable. unfold estimate_ok in Htable. fold E0 in Htable.
  apply andb_true_iff in Htable as [Htable HE0%Z.leb_le].
  apply andb_true_iff in Htable as [Hlo%Qleb_true Hhi%Qltb_true].
  assert (Hlo' : (pow10 E0 <= v)%Q).
  { rewrite Hv. apply Qle_trans with (inject_Z (2 ^ (b - 1))); [exact Hlo|].
    rewrite <- Zle_Qle. lia. }
  assert (Hhi' : (v < pow10 (E0 + Z.of_nat 4 + 1))%Q).
  { rewrite Hv. apply Qle_lt_trans with (inject_Z (2 ^ b)).
    - rewrite <- Zle_Qle. lia.
    - replace (E0 + Z.of_nat 4 + 1) with (E0 + 5) by lia. exact Hhi. }
  destruct (log10_adjust_spec 4 v E0 Hlo' Hhi') as ((HElo & HEhi) & HEge).
  set (E := log10_adjust 4 v E0) in *.
  assert (HE : 0 <= E).
  { destruct (Z_le_gt_dec 0 E) as [|Hneg]; [assumption|]. exfalso.
    assert (E = -1) as HEm by lia. rewrite HEm in HEhi.
    change (pow10 (-1 + 1)) with 1%Q in HEhi. rewrite Hv in HEhi.
    assert (H1 : (inject_Z 1 <= inject_Z (Z.pos n))%Q) by (rewrite <- Zle_Qle; lia).
    change (inject_Z 1) with 1%Q in H1. lra. }
  rewrite !pow10_nonneg in HElo, HEhi by lia. rewrite Hv in HElo, HEhi.
  rewrite <- Zle_Qle in HElo. rewrite <- Zlt_Qlt in HEhi.
  split; [|split; assumption]. split; [exact HE|].
  destruct (Z_le_gt_dec E 15) as [|Hbig]; [assumption|]. exfalso.
  assert (10 ^ 16 <= 10 ^ E) by (apply Z.pow_le_mono_r; lia).
  assert (2 ^ b <= 2 ^ 53) by (apply Z.pow_le_mono_r; lia).
  assert (2 ^ 53 < 10 ^ 16) by (vm_compute; reflexivity).
  lia.
Qed.

(** The digits found: some [s * 10^p] that is the integer. *)
Lemma shortest_from_integer (E : Z) (fuel : nat) (k : Z) :
  0 <= E -> 10 ^ E <= Z.pos n ->
  1 <= k <= E + 1 -> E + 2 - k <= Z.of_nat fuel ->
  let d := shortest_from fuel m (- s) E k in
  dec_s d * 10 ^ dec_p d = Z.pos n /\ 0 < dec_s d /\ 0 <= dec_p d.
Proof.
  intros HE HE10. revert k. induction fuel as [|fuel IH]; intros k Hk Hfuel; [lia|].
  cbn [shortest_from]. rewrite (shortest_at_integer n m s Hs Hm E k HE HE10 Hk).
  set (p := E + 1 - k).
  destruct (Z.eqb_spec (Z.pos n / 10 ^ p * 10 ^ p) (Z.pos n)) as [Heq|Hne].
  - cbn [dec_s dec_p]. split; [exact Heq|]. split; [|subst p; lia].
    destruct (Z.pos n / 10 ^ p) as [|q|q]; lia.
  - assert (k <> E + 1).
    { intros ->. apply Hne. subst p. replace (E + 1 - (E + 1)) with 0 by lia.
      rewrite Z.pow_0_r, Z.div_1_r. lia. }
    apply IH; lia.
Qed.

End Exponent.

Lemma strip_zeros_integer (fuel : nat) (d : decimal) (N : Z) :
  dec_s d * 10 ^ dec_p d = N -> 0 < dec_s d -> 0 <= dec_p d ->
  let d' := strip_zeros fuel d in
  dec_s d' * 10 ^ dec_p d' = N /\ 0 < dec_s d' /\ 0 <= dec_p d'.
Proof.
  revert d. induction fuel as [|fuel IH]; intros d Hval Hpos Hp; [cbn; auto|].
  cbn [strip_zeros].
  destruct (negb (dec_s d =? 0) && (dec_s d mod 10 =? 0)) eqn:Hten; [|auto].
  apply andb_true_iff in Hten as [_ Hmod%Z.eqb_eq].
  pose proof (Z.div_mod (dec_s d) 10 ltac:(lia)) as Hdm. rewrite Hmod in Hdm.
  apply IH; cbn [dec_s dec_p]; [|lia|lia].
  rewrite Z.pow_add_r by lia. rewrite <- Hval. lia.
Qed.

Lemma format_decimal_integer (d : decimal) (N : Z) :
  dec_s d * 10 ^ dec_p d = N -> 0 < dec_s d -> 0 <= dec_p d -> N < 10 ^ 21 ->
  format_decimal d = Text.digits_of_Z N.
Proof.
  intros Hval Hpos Hp HN.
  pose proof (digits_pow10 (dec_s d) (Z.to_nat (dec_p d)) Hpos) as Hdigits.
  rewrite Z2Nat.id, Hval in Hdigits by lia.
  assert (Hlen : (String.length (Text.digits_of_Z N) <= 21)%nat).
  { apply digits_length. split; [|exact HN].
    rewrite <- Hval. apply Z.mul_pos_pos; [exact Hpos|]. apply Z.pow_pos_nonneg; lia. }
  rewrite Hdigits, length_append, length_zeros in Hlen.
  unfold format_decimal.
  set (D := Text.digits_of_Z (dec_s d)) in *.
  set (k := Z.of_nat (String.length D)).
  destruct (Z.leb_spec k (dec_p d + k)); [|lia].
  destruct (Z.leb_spec (dec_p d + k) 21); [|lia].
  cbn [andb]. rewrite Hdigits. f_equal. f_equal. lia.
Qed.

(** A positive integer below [2^53] converts to its decimal digits. *)
Lemma Number_toString_pos_integer (n : positive) :
  Z.pos n < 2 ^ 53 -> Number_toString_pos n 0 = Text.digits_of_Z (Z.pos n).
Proof.
  intros Hn.
  destruct (binary_normalize_integer n Hn) as (m & s & Hnorm & Hs & Hm & Hdig).
  unfold Number_toString_pos. rewrite Hnorm.
  destruct (log10_floor_integer n m s Hs Hm Hdig) as (HE & HE10).
  set (E := log10_floor m (- s)) in *.
  destruct (shortest_from_integer n m s Hs Hm E 20 1 (proj1 HE) (proj1 HE10))
    as (Hval & Hpos & Hp); [lia | lia |].
  destruct (strip_zeros_integer 400 _ _ Hval Hpos Hp) as (Hval' & Hpos' & Hp').
  apply format_decimal_integer; try assumption.
  assert (2 ^ 53 < 10 ^ 21) by (vm_compute; reflexivity). lia.
Qed.

(** An integer of magnitude below [2^53] converts to its decimal numeral,
    after a minus sign when it is negative. *)
Lemma Number_toString_integer (z : Z) (szero : bool) :
  Z.abs z < 2 ^ 53 ->
  Number_toString (number_of_Z z szero)
  = (if z <? 0 then "-" else "") ++ Text.digits_of_Z (Z.abs z).
Proof.
  intros Hz. destruct z as [|p|p]; cbn [number_of_Z Number_toString Z.abs Z.ltb Z.compare].
  - reflexivity.
  - now rewrite Number_toString_pos_integer.
  - now rewrite Number_toString_pos_integer.
Qed.

End Numerals.

(** ** Integers on the page *)

Section IntegerFields.

Import Js Page History Run.

Variable h : host.

Lemma substitute_integer (props : list (string * value)) (key : string) (z : Z) :
  own_property props key = Some (VNum (Num.number_of_Z z false)) ->
  0 <= z < 2 ^ 53 ->
  substitute (get (VObj props) key) = Ok (Text.digits_of_Z z).
Proof.
  intros Hown Hz. unfold substitute, get. rewrite Hown. cbn [bind ToString].
  rewrite Number_toString_integer by lia.
  destruct (Z.ltb_spec z 0); [lia|]. rewrite Z.abs_eq by lia. reflexivity.
Qed.

(** X15.  An exercise whose name is a string and whose sets, maximum
    weight and repetitions are non-negative integers below 2^53 has the tag
    that spells the name as it is and each number as its decimal numeral. *)
Theorem exercise_tag_of_integers
    (props : list (string * value)) (name : string) (sets weight reps : Z) :
  own_property props "name" = Some (VStr name) ->
  own_property props "num_sets" = Some (VNum (Num.number_of_Z sets false)) ->
  own_property props "max_weight" = Some (VNum (Num.number_of_Z weight false)) ->
  own_property props "total_reps" = Some (VNum (Num.number_of_Z reps false)) ->
  0 <= sets < 2 ^ 53 ->
  0 <= weight < 2 ^ 53 ->
  0 <= reps < 2 ^ 53 ->
  exercise_tag (VObj props)
  = Ok (tag_open ++ name ++ tag_details
          ++ Text.digits_of_Z sets ++ " sets • " ++ Text.digits_of_Z weight
          ++ " lbs max • " ++ Text.digits_of_Z reps ++ tag_close).
Proof.
  intros Hname Hsets Hweight Hreps Hs Hw Hr.
  unfold exercise_tag.
  rewrite (substitute_integer props "num_sets" sets Hsets Hs).
  rewrite (substitute_integer props "max_weight" weight Hweight Hw).
  rewrite (substitute_integer props "total_reps" reps Hreps Hr).
  unfold substitute, get. rewrite Hname. reflexivity.
Qed.

(** X16.  A workout whose count of exercises and total volume are
    non-negative integers below 2^53 has the card that shows the formatted
    date, the count and the volume as their decimal numerals (rounding
    leaves an integer as it is), and the tags of its exercises. *)
Theorem workout_card_of_integers
    (props : list (string * value)) (d : value) (date : string) (count volume : Z)
    (exs : list value) (tags : list string) :
  own_property props "workout_date" = Some d ->
  formatDate h d = Ok date ->
  own_property props "num_exercises" = Some (VNum (Num.number_of_Z count false)) ->
  own_property props "total_volume" = Some (VNum (Num.number_of_Z volume false)) ->
  own_property props "exercises" = Some (VArr exs) ->
  Forall2 (fun ex tag => exercise_tag ex = Ok tag) exs tags ->
  0 <= count < 2 ^ 53 ->
  0 <= volume < 2 ^ 53 ->
  workout_card h (VObj props)
  = Ok (card_open ++ date ++ card_stats
          ++ Text.digits_of_Z count ++ " exercise(s) • " ++ Text.digits_of_Z volume
          ++ card_exercises ++ Text.join_empty tags ++ card_close).
Proof.
  intros Hdate Hfmt Hcount Hvolume Hexs Htags Hc Hv.
  unfold workout_card.
  rewrite (substitute_integer props "num_exercises" count Hcount Hc).
  unfold get. rewrite Hdate, Hvolume, Hexs. cbn [bind]. rewrite Hfmt. cbn [bind].
  assert (Hround : Math_round_value (VNum (Num.number_of_Z volume false))
                   = Ok (Num.number_of_Z volume false)).
  { destruct volume; reflexivity. }
  rewrite Hround. cbn [bind array_map].
  assert (Hmap : map_result exercise_tag exs = Ok tags).
  { clear - Htags. induction Htags as [|x y l ys Hx _ IH]; [reflexivity|].
    simpl. rewrite Hx, IH. reflexivity. }
  rewrite Hmap. cbn [bind].
  rewrite Number_toString_integer by lia.
  destruct (Z.ltb_spec volume 0); [lia|]. rewrite Z.abs_eq by lia. reflexivity.
Qed.

(** X17.  The line on the console counts the workouts: when the body is a
    non-empty array of fewer than 2^53 elements that all render, the call
    shows the cards and then logs [Loaded N workouts], [N] being the
    decimal numeral of the number of elements. *)
Theorem loadWorkouts_logs_count
    (net : network) (w : world) (filter old : string) (r : response)
    (workouts : list value) (html : string) :
  userFilter (doc w) = Some filter ->
  workoutList (doc w) = Some old ->
  net (request_url filter) = FetchResolved r ->
  json r = BodyParsed (VArr workouts) ->
  workouts <> [] ->
  render h (VArr workouts) = Ok html ->
  Z.of_nat (List.length workouts) < 2 ^ 53 ->
  loadWorkouts h net w =
    (Returned tt,
     {| doc := {| userFilter := Some filter; workoutList := Some html |};
        trace := (trace w ++ [SetInnerHTML loading_html; Fetch (request_url filter);
                              SetInnerHTML html;
                              ConsoleLog ("Loaded "
                                ++ Text.digits_of_Z (Z.of_nat (List.length workouts))
                                ++ " workouts")])%list |}).
Proof.
  intros Hfilter Hlist Hnet Hjson Hne Hrender Hlen.
  rewrite (loadWorkouts_run h net w filter old Hfilter Hlist).
  unfold outcome_of. rewrite Hnet, Hjson, outcome_of_array, Hrender.
  destruct workouts as [|x rest]; [congruence|].
  cbn [completion_of display_of events_of].
  rewrite Number_toString_integer by lia.
  destruct (Z.ltb_spec (Z.of_nat (List.length (x :: rest))) 0); [lia|].
  rewrite Z.abs_eq by lia. reflexivity.
Qed.

End IntegerFields.

(** ** Calls that overlap *)

Section Overlap.

Import Js Page History Run Loop.

Variable h : host.

(** The first part of a call on a page with both elements. *)
Lemma loadWorkouts_begin_run (w : world) (filter shown : string) :
  userFilter (doc w) = Some filter ->
  workoutList (doc w) = Some shown ->
  loadWorkouts_begin w =
    (Returned (Some WorkoutListElement, request_url filter),
     {| doc := {| userFilter := Some filter; workoutList := Some loading_html |};
        trace := (trace w ++ [SetInnerHTML loading_html; Fetch (request_url filter)])%list |}).
Proof.
  destruct w as [[uf wl] tr]; simpl; intros -> ->.
  unfold loadWorkouts_begin.
  cbv [seq read_userFilter_value getElementById_workoutList set_innerHTML emit ret
       doc trace userFilter workoutList].
  fold (request_url filter). rewrite <- app_assoc. reflexivity.
Qed.

(** The rest of a call that holds the display region, its request settled. *)
Lemma loadWorkouts_resume_run (w : world) (f : fetched) :
  settled f = true ->
  let o := outcome_of h f in
  loadWorkouts_resume h (Some WorkoutListElement) f w =
    (Returned tt,
     {| doc := {| userFilter := userFilter (doc w); workoutList := Some (display_of o) |};
        trace := (trace w ++ events_of o)%list |}).
Proof.
  destruct w as [[uf wl] tr]. intros Hsettled. simpl.
  unfold loadWorkouts_resume.
  cbv [seq resume_fetch set_innerHTML try_catch await_json emit ret throw lift
       console_log console_error doc trace userFilter workoutList].
  unfold outcome_of, outcome_of_value.
  destruct f as [|e|r]; [discriminate | simpl; rewrite <- app_assoc; reflexivity |].
  simpl in Hsettled.
  destruct (json r) as [|e|v]; [discriminate | simpl; rewrite <- app_assoc; reflexivity |].
  destruct (get v "length") as [len|e] eqn:Hlen;
    [|simpl; rewrite <- app_assoc; reflexivity].
  destruct (strict_equals_zero len); [reflexivity|].
  destruct (render h v) as [html|e] eqn:Hrender;
    [|simpl; rewrite <- app_assoc; reflexivity].
  destruct (substitute (Ok len)) as [count|e] eqn:Hcount;
    [simpl; rewrite <- app_assoc; reflexivity|].
  exfalso.
  destruct (render_array_only h _ _ Hrender) as [items ->].
  simpl in Hlen. injection Hlen as <-. discriminate Hcount.
Qed.

(** A call is its first part followed by the rest: on every page,
    with or without the two elements, and for every network,
    [loadWorkouts] does what the part up to the call of [fetch] and then
    the part after it do, the second being given the element the first
    looked up and the way the request of the first settles. *)
Theorem loadWorkouts_begin_then_resume (net : network) (w : world) :
  loadWorkouts h net w
  = seq loadWorkouts_begin
      (fun held => loadWorkouts_resume h (fst held) (net (snd held))) w.
Proof.
  destruct w as [[[filter|] [shown|]] tr]; reflexivity.
Qed.

Lemma nth_error_finish_same (k : nat) (cs : list call) (c : call) :
  nth_error cs k = Some c -> nth_error (finish k cs) k = Some Finished.
Proof.
  revert cs. induction k as [|k IH]; intros [|c' cs]; simpl; try discriminate; auto.
Qed.

Lemma Forall_finish (P : call -> Prop) (k : nat) (cs : list call) :
  P Finished -> Forall P cs -> Forall P (finish k cs).
Proof.
  intros HF. revert k. induction cs as [|c cs IH]; intros k Hall; [destruct k; constructor|].
  inversion Hall; subst. destruct k; simpl; constructor; auto.
Qed.

(** One input on a page that is ready. *)
Lemma deliver_ready (p : page) (filter : string) (i : input) :
  ready p filter ->
  ready (deliver h p i) (filter_after filter [i])
  /\ requests (trace (now (deliver h p i)))
     = (requests (trace (now p)) ++ requests_of filter [i])%list.
Proof.
  intros (Hfilter & (shown & Hshown) & Hcalls).
  destruct i as [|v|k f]; cbn [deliver filter_after requests_of].
  - unfold start. rewrite (loadWorkouts_begin_run _ _ _ Hfilter Hshown).
    cbn [now calls doc trace]. split.
    + split; [reflexivity|]. split; [now eexists|].
      apply Forall_app. split; [exact Hcalls|]. constructor; [now right | constructor].
    + rewrite requests_app. reflexivity.
  - rewrite Hfilter. unfold start. cbn [now calls].
    rewrite (loadWorkouts_begin_run (select v (now p)) v shown eq_refl Hshown).
    cbn [now calls doc trace select]. split.
    + split; [reflexivity|]. split; [now eexists|].
      apply Forall_app. split; [exact Hcalls|]. constructor; [now right | constructor].
    + rewrite requests_app. reflexivity.
  - assert (Hsame : ready p filter) by (split; [|split]; eauto).
    destruct (nth_error (calls p) k) as [[el|]|] eqn:Hk;
      [|split; [exact Hsame | now rewrite app_nil_r]
       |split; [exact Hsame | now rewrite app_nil_r]].
    destruct (settled f) eqn:Hsettled;
      [|split; [exact Hsame | now rewrite app_nil_r]].
    assert (el = Some WorkoutListElement) as ->.
    { rewrite Forall_forall in Hcalls.
      destruct (Hcalls _ (nth_error_In _ _ Hk)) as [|[= ->]]; [discriminate | reflexivity]. }
    rewrite (loadWorkouts_resume_run _ _ Hsettled).
    cbn [now calls doc trace snd userFilter workoutList]. split.
    + split; [exact Hfilter|]. split; [now eexists|].
      apply Forall_finish; [now left | exact Hcalls].
    + rewrite requests_app, requests_events_of. reflexivity.
Qed.

Lemma requests_of_app (filter : string) (a b : list input) :
  requests_of filter (a ++ b)
  = (requests_of filter a ++ requests_of (filter_after filter a) b)%list.
Proof.
  revert filter. induction a as [|[|v|k f] a IH]; intros filter; simpl;
    rewrite ?IH; reflexivity.
Qed.

Lemma filter_after_app (filter : string) (a b : list input) :
  filter_after filter (a ++ b) = filter_after (filter_after filter a) b.
Proof.
  revert filter. induction a as [|[|v|k f] a IH]; intros filter; simpl;
    rewrite ?IH; reflexivity.
Qed.

(** Any inputs on a page that is ready. *)
Lemma run_ready (p : page) (filter : string) (inputs : list input) :
  ready p filter ->
  ready (run h p inputs) (filter_after filter inputs)
  /\ requests (trace (now (run h p inputs)))
     = (requests (trace (now p)) ++ requests_of filter inputs)%list.
Proof.
  revert p filter. induction inputs as [|i inputs IH]; intros p filter Hready.
  - simpl. split; [exact Hready | now rewrite app_nil_r].
  - destruct (deliver_ready p filter i Hready) as (Hnext & Hrequests).
    destruct (IH _ _ Hnext) as (Hend & Hall).
    change (run h p (i :: inputs)) with (run h (deliver h p i) inputs).
    change (i :: inputs) with ([i] ++ inputs)%list.
    rewrite filter_after_app, requests_of_app. split; [exact Hend|].
    rewrite Hall, Hrequests, <- app_assoc. reflexivity.
Qed.

Lemma ready_fresh (p : page) (filter shown : string) :
  userFilter (doc (now p)) = Some filter ->
  workoutList (doc (now p)) = Some shown ->
  calls p = [] ->
  ready p filter.
Proof.
  intros Hfilter Hshown Hcalls. split; [exact Hfilter|].
  split; [exists shown; exact Hshown|].
  rewrite Hcalls. constructor.
Qed.

(** X12.  One request for each time a listener runs: on a page with both
    elements and no call in progress, whatever inputs follow (the document
    becoming ready, the user picking filter values, requests settling in
    any order), the requests sent are, in order, one per run of a listener,
    each with the value the filter control held at that time; a request
    that settles sends none, and none is sent again. *)
Theorem run_one_request_per_trigger
    (p : page) (filter shown : string) (inputs : list input) :
  userFilter (doc (now p)) = Some filter ->
  workoutList (doc (now p)) = Some shown ->
  calls p = [] ->
  requests (trace (now (run h p inputs)))
  = (requests (trace (now p)) ++ requests_of filter inputs)%list.
Proof.
  intros Hfilter Hshown Hcalls.
  exact (proj2 (run_ready p filter inputs (ready_fresh p filter shown Hfilter Hshown Hcalls))).
Qed.

(** X13.  The response that arrives last is the one shown.  On a page with
    both elements and no call in progress, after any inputs, when the
    request of a call that still waits settles, the display region holds
    what that response gives (cards, the empty message or the error
    message), whichever calls were started after it and whatever they
    showed; the filter control keeps the value it has, so the display can
    be that of an older filter value. *)
Theorem run_last_response_wins
    (p : page) (filter shown : string) (inputs : list input)
    (k : nat) (el : option element) (f : fetched) :
  userFilter (doc (now p)) = Some filter ->
  workoutList (doc (now p)) = Some shown ->
  calls p = [] ->
  nth_error (calls (run h p inputs)) k = Some (Suspended el) ->
  settled f = true ->
  let q := run h p (inputs ++ [RequestSettles k f]) in
  workoutList (doc (now q)) = Some (display_of (outcome_of h f))
  /\ userFilter (doc (now q)) = Some (filter_after filter inputs)
  /\ trace (now q) = (trace (now (run h p inputs)) ++ events_of (outcome_of h f))%list.
Proof.
  intros Hfilter Hshown Hcalls Hk Hsettled q.
  destruct (run_ready p filter inputs (ready_fresh p filter shown Hfilter Hshown Hcalls))
    as ((Hf & _ & Hheld) & _).
  assert (el = Some WorkoutListElement) as ->.
  { rewrite Forall_forall in Hheld.
    destruct (Hheld _ (nth_error_In _ _ Hk)) as [|[= ->]]; [discriminate | reflexivity]. }
  subst q. unfold run. rewrite fold_left_app. fold (run h p inputs).
  cbn [fold_left deliver]. rewrite Hk, Hsettled.
  rewrite (loadWorkouts_resume_run _ _ Hsettled).
  cbn [now doc trace snd userFilter workoutList]. auto.
Qed.

Lemma display_of_settled (f : fetched) :
  settled f = true ->
  display_of (outcome_of h f) = empty_html
  \/ display_of (outcome_of h f) = error_html
  \/ is_cards (display_of (outcome_of h f)).
Proof.
  intros Hsettled. apply (settled_outcome h) in Hsettled.
  destruct (outcome_of h f) as [|html count| |e] eqn:Ho; cbn [display_of]; auto.
  - congruence.
  - right; right.
    destruct f as [|e|r]; simpl in Ho; try discriminate.
    destruct (json r) as [|e|v]; try discriminate.
    exact (populated_is_cards h v html count Ho).
Qed.

Lemma deliver_display (p : page) (filter first : string) (i : input) :
  ready p filter ->
  (exists html, workoutList (doc (now p)) = Some html
                /\ (html = first \/ html = loading_html \/ html = empty_html
                    \/ html = error_html \/ is_cards html)) ->
  exists html, workoutList (doc (now (deliver h p i))) = Some html
               /\ (html = first \/ html = loading_html \/ html = empty_html
                   \/ html = error_html \/ is_cards html).
Proof.
  intros (Hfilter & (shown & Hshown) & Hcalls) Hstate.
  destruct i as [|v|k f]; cbn [deliver].
  - unfold start. rewrite (loadWorkouts_begin_run _ _ _ Hfilter Hshown).
    cbn [now doc workoutList]. exists loading_html. auto.
  - rewrite Hfilter. unfold start. cbn [now calls].
    rewrite (loadWorkouts_begin_run (select v (now p)) v shown eq_refl Hshown).
    cbn [now doc workoutList]. exists loading_html. auto.
  - destruct (nth_error (calls p) k) as [[el|]|] eqn:Hk; try exact Hstate.
    destruct (settled f) eqn:Hsettled; [|exact Hstate].
    assert (el = Some WorkoutListElement) as ->.
    { rewrite Forall_forall in Hcalls.
      destruct (Hcalls _ (nth_error_In _ _ Hk)) as [|[= ->]]; [discriminate | reflexivity]. }
    rewrite (loadWorkouts_resume_run _ _ Hsettled).
    cbn [now doc snd workoutList]. eexists. split; [reflexivity|].
    destruct (display_of_settled f Hsettled) as [->|[->|Hcards]]; auto 6.
Qed.

(** X14.  The display region is always in one of its states: on a page
    with both elements and no call in progress, whatever inputs follow and
    however the calls overlap, the display region holds what it held at
    first, the loading placeholder, the message that no workouts were
    found, the error message, or card markup; never a mixture or a part of
    them. *)
Theorem run_display_states
    (p : page) (filter first : string) (inputs : list input) :
  userFilter (doc (now p)) = Some filter ->
  workoutList (doc (now p)) = Some first ->
  calls p = [] ->
  exists html,
    workoutList (doc (now (run h p inputs))) = Some html
    /\ (html = first \/ html = loading_html \/ html = empty_html
        \/ html = error_html \/ is_cards html).
Proof.
  intros Hfilter Hfirst Hcalls.
  pose proof (ready_fresh p filter first Hfilter Hfirst Hcalls) as Hready.
  assert (Hstate : exists html, workoutList (doc (now p)) = Some html
                                /\ (html = first \/ html = loading_html \/ html = empty_html
                                    \/ html = error_html \/ is_cards html))
    by (exists first; auto).
  clear Hfilter Hfirst Hcalls. revert p filter Hready Hstate.
  induction inputs as [|i inputs IH]; intros p filter Hready Hstate; [exact Hstate|].
  change (run h p (i :: inputs)) with (run h (deliver h p i) inputs).
  apply (IH _ (filter_after filter [i])).
  - exact (proj1 (deliver_ready p filter i Hready)).
  - exact (deliver_display p filter first i Hready Hstate).
Qed.

End Overlap.

(** ** The further properties at sample inputs *)

Section MoreWitnesses.

Import Js Page History Schema Run Lenient Loop Sample.


Lemma loadWorkouts_renders_all_or_nothing_witness :
  loadWorkouts utc_host (answering 200 (VArr [january; VNull; march])) (page "") =
    (Returned tt,
     {| doc := {| userFilter := Some ""; workoutList := Some error_html |};
        trace := [SetInnerHTML loading_html; Fetch "http://localhost:8000/workouts";
                  ConsoleError "Error loading workouts:" TypeError;
                  SetInnerHTML error_html] |}).
Proof.
  apply (loadWorkouts_renders_all_or_nothing utc_host
           (answering 200 (VArr [january; VNull; march])) (page "") "" ""
           {| status := 200; json := BodyParsed (VArr [january; VNull; march]) |}
           [january; VNull; march] VNull TypeError); try reflexivity.
  right; left. reflexivity.
Defined.

Lemma loadWorkouts_tolerates_loose_records_witness :
  exists cards,
    Forall2 (fun workout card => workout_card utc_host workout = Ok card)
      [VObj [("workout_date", VNull); ("total_volume", VStr "245.6");
             ("exercises", VArr [VObj [("name", int 7)]; VStr "rest"])]] cards
    /\ loadWorkouts utc_host
         (answering 200
            (VArr [VObj [("workout_date", VNull); ("total_volume", VStr "245.6");
                         ("exercises", VArr [VObj [("name", int 7)]; VStr "rest"])]]))
         (page "") =
         (Returned tt,
          {| doc := {| userFilter := Some ""; workoutList := Some (Text.join_empty cards) |};
             trace := [SetInnerHTML loading_html; Fetch "http://localhost:8000/workouts";
                       SetInnerHTML (Text.join_empty cards);
                       ConsoleLog "Loaded 1 workouts"] |}).
Proof.
  apply (loadWorkouts_tolerates_loose_records utc_host
           (answering 200
              (VArr [VObj [("workout_date", VNull); ("total_volume", VStr "245.6");
                           ("exercises", VArr [VObj [("name", int 7)]; VStr "rest"])]]))
           (page "") "" ""
           {| status := 200;
              json := BodyParsed
                        (VArr [VObj [("workout_date", VNull); ("total_volume", VStr "245.6");
                                     ("exercises",
                                      VArr [VObj [("name", int 7)]; VStr "rest"])]]) |});
    try reflexivity.
  discriminate.
Defined.

Lemma workout_card_missing_fields_witness :
  workout_card utc_host (VObj [("exercises", VArr [VObj []])])
  = Ok (card_open ++ "Invalid Date" ++ card_stats
          ++ "undefined" ++ " exercise(s) • " ++ "NaN" ++ card_exercises
          ++ Text.join_empty
               [tag_open ++ "undefined" ++ tag_details ++ "undefined" ++ " sets • "
                  ++ "undefined" ++ " lbs max • " ++ "undefined" ++ tag_close]
          ++ card_close).
Proof.
  apply (workout_card_missing_fields utc_host [("exercises", VArr [VObj []])] [VObj []]);
    try reflexivity.
  constructor; [reflexivity | constructor].
Defined.

Lemma workout_card_needs_exercises_array_witness :
  workout_card utc_host
    (VObj [("workout_date", VStr "2024-01-10"); ("num_exercises", int 2);
           ("total_volume", int 1000)])
  = Err TypeError
  /\ workout_card utc_host
       (VObj [("workout_date", VStr "2024-01-10"); ("num_exercises", int 0);
              ("total_volume", int 0); ("exercises", VNull)])
     = Err TypeError.
Proof.
  split; apply workout_card_needs_exercises_array; reflexivity.
Defined.

Lemma loadWorkouts_cards_only_from_array_witness :
  exists r workouts cards,
    answering 200 (VArr [january]) (request_url "") = FetchResolved r
    /\ json r = BodyParsed (VArr workouts)
    /\ workouts <> []
    /\ Forall2 (fun workout card => workout_card utc_host workout = Ok card) workouts cards
    /\ workoutList (doc (snd (loadWorkouts utc_host (answering 200 (VArr [january])) (page ""))))
       = Some (Text.join_empty cards)
    /\ fst (loadWorkouts utc_host (answering 200 (VArr [january])) (page "")) = Returned tt.
Proof.
  destruct (cards_of_workouts utc_host [january] eq_refl) as (shown & Hshown).
  assert (Hrender : render utc_host (VArr [january]) = Ok (Text.join_empty shown)).
  { unfold render, array_map. rewrite Hshown. reflexivity. }
  assert (Hlist : workoutList
                    (doc (snd (loadWorkouts utc_host (answering 200 (VArr [january]))
                                 (page ""))))
                  = Some (Text.join_empty shown)).
  { rewrite (loadWorkouts_run utc_host (answering 200 (VArr [january])) (page "") "" ""
               eq_refl eq_refl).
    unfold outcome_of, answering. cbn [json]. rewrite outcome_of_array, Hrender.
    reflexivity. }
  destruct (loadWorkouts_cards_only_from_array utc_host (answering 200 (VArr [january]))
              (page "") "" "" (Text.join_empty shown) eq_refl eq_refl Hlist
              (render_is_cards utc_host [january] _ ltac:(discriminate) Hrender))
    as (r & workouts & cards & Hnet & Hjson & Hne & Hcards & Hhtml & Hret).
  exists r, workouts, cards. rewrite <- Hhtml. auto 10.
Defined.

Lemma loadWorkouts_empty_message_iff_witness :
  workoutList
    (doc (snd (loadWorkouts utc_host (answering 200 (VObj [("length", int 0)])) (page ""))))
  = Some empty_html
  /\ workoutList (doc (snd (loadWorkouts utc_host (answering 200 (VStr "")) (page ""))))
     = Some empty_html.
Proof.
  split.
  - apply (proj2 (loadWorkouts_empty_message_iff utc_host
                    (answering 200 (VObj [("length", int 0)])) (page "") "" ""
                    eq_refl eq_refl)).
    exists {| status := 200; json := BodyParsed (VObj [("length", int 0)]) |},
      (VObj [("length", int 0)]), (int 0).
    repeat split.
  - apply (proj2 (loadWorkouts_empty_message_iff utc_host
                    (answering 200 (VStr "")) (page "") "" "" eq_refl eq_refl)).
    exists {| status := 200; json := BodyParsed (VStr "") |}, (VStr ""), (int 0).
    repeat split.
Defined.

Lemma loadWorkouts_request_tells_filter_witness :
  requests (trace (snd (loadWorkouts utc_host unreachable (page "7"))))
  = requests (trace (snd (loadWorkouts utc_host silent
                            {| doc := {| userFilter := Some "7"; workoutList := Some "x" |};
                               trace := [] |})))
  /\ "7" = "7".
Proof.
  split; [reflexivity|].
  apply (loadWorkouts_request_tells_filter utc_host unreachable silent (page "7")
           {| doc := {| userFilter := Some "7"; workoutList := Some "x" |}; trace := [] |}
           "7" "" "7" "x"); reflexivity.
Defined.

Lemma formatDate_of_date_witness :
  formatDate utc_host (VStr "2024-03-15") = Ok "Fri, Mar 15, 2024"
  /\ formatDate phoenix_host (VStr "2024-03-15") = Ok "Thu, Mar 14, 2024".
Proof.
  split.
  - apply (proj1 (formatDate_of_date utc_host "2024-03-15" 2024 3 15 eq_refl
                    ltac:(lia) ltac:(vm_compute; split; discriminate) ltac:(lia)
                    ltac:(vm_compute; discriminate))).
    vm_compute. split; [discriminate | reflexivity].
  - apply (proj2 (formatDate_of_date phoenix_host "2024-03-15" 2024 3 15 eq_refl
                    ltac:(lia) ltac:(vm_compute; split; discriminate) ltac:(lia)
                    ltac:(vm_compute; discriminate))).
    vm_compute. split; [discriminate | reflexivity].
Defined.

Lemma formatDate_of_local_date_time_witness :
  formatDate phoenix_host (VStr "2024-03-15T23:30:00") = Ok "Fri, Mar 15, 2024"
  /\ formatDate utc_host (VStr "2024-03-15T00:00") = Ok "Fri, Mar 15, 2024".
Proof.
  split.
  - apply (formatDate_of_local_date_time phoenix_host "2024-03-15T23:30:00" "23:30:00"
             2024 3 15 84600000 eq_refl eq_refl
             ltac:(lia) ltac:(vm_compute; split; discriminate) ltac:(lia)
             ltac:(reflexivity) eq_refl ltac:(vm_compute; discriminate)).
  - apply (formatDate_of_local_date_time utc_host "2024-03-15T00:00" "00:00"
             2024 3 15 0 eq_refl eq_refl
             ltac:(lia) ltac:(vm_compute; split; discriminate) ltac:(lia)
             ltac:(reflexivity) eq_refl ltac:(vm_compute; discriminate)).
Defined.

Lemma run_one_request_per_trigger_witness :
  requests
    (trace (now (run utc_host {| now := page ""; calls := [] |}
                   [DocumentReady; UserSelects "2";
                    RequestSettles 1 (FetchResolved {| status := 200; json := BodyParsed (VArr []) |});
                    UserSelects ""; RequestSettles 0 (FetchRejected TypeError)])))
  = ["http://localhost:8000/workouts"; "http://localhost:8000/workouts?user_id=2";
     "http://localhost:8000/workouts"].
Proof.
  apply (run_one_request_per_trigger utc_host {| now := page ""; calls := [] |} "" "");
    reflexivity.
Defined.

(** The first call, with no filter, is answered after the second, made
    for user 2, who has no workouts: the display goes from the message that
    no workouts were found to the cards of every user, the filter control
    still holding 2. *)
Lemma run_last_response_wins_witness :
  workoutList
    (doc (now (run utc_host {| now := page ""; calls := [] |}
                 [DocumentReady; UserSelects "2";
                  RequestSettles 1
                    (FetchResolved {| status := 200; json := BodyParsed (VArr []) |})])))
  = Some empty_html
  /\ workoutList
       (doc (now (run utc_host {| now := page ""; calls := [] |}
                    ([DocumentReady; UserSelects "2";
                      RequestSettles 1
                        (FetchResolved {| status := 200; json := BodyParsed (VArr []) |})]
                     ++ [RequestSettles 0
                           (FetchResolved
                              {| status := 200;
                                 json := BodyParsed (VArr [january; march]) |})]))))
     = Some (display_of
               (outcome_of utc_host
                  (FetchResolved
                     {| status := 200; json := BodyParsed (VArr [january; march]) |})))
  /\ userFilter
       (doc (now (run utc_host {| now := page ""; calls := [] |}
                    ([DocumentReady; UserSelects "2";
                      RequestSettles 1
                        (FetchResolved {| status := 200; json := BodyParsed (VArr []) |})]
                     ++ [RequestSettles 0
                           (FetchResolved
                              {| status := 200;
                                 json := BodyParsed (VArr [january; march]) |})]))))
     = Some "2".
Proof.
  split; [reflexivity|].
  destruct (run_last_response_wins utc_host {| now := page ""; calls := [] |} "" ""
              [DocumentReady; UserSelects "2";
               RequestSettles 1
                 (FetchResolved {| status := 200; json := BodyParsed (VArr []) |})]
              0 (Some WorkoutListElement)
              (FetchResolved {| status := 200; json := BodyParsed (VArr [january; march]) |})
              eq_refl eq_refl eq_refl eq_refl eq_refl)
    as (Hshown & Hfilter & _).
  split; [exact Hshown | exact Hfilter].
Defined.

Lemma run_display_states_witness :
  exists html,
    workoutList
      (doc (now (run utc_host {| now := page ""; calls := [] |}
                   [DocumentReady; UserSelects "2";
                    RequestSettles 0 (FetchRejected TypeError);
                    RequestSettles 1
                      (FetchResolved
                         {| status := 200; json := BodyParsed (VArr [january]) |})])))
    = Some html
    /\ (html = "" \/ html = loading_html \/ html = empty_html
        \/ html = error_html \/ is_cards html).
Proof.
  apply (run_display_states utc_host {| now := page ""; calls := [] |} "" ""); reflexivity.
Defined.

Lemma exercise_tag_of_integers_witness :
  exercise_tag squat
  = Ok (tag_open ++ "Squat" ++ tag_details
          ++ "3" ++ " sets • " ++ "200" ++ " lbs max • " ++ "15" ++ tag_close).
Proof.
  apply (exercise_tag_of_integers
           [("name", VStr "Squat"); ("num_sets", int 3);
            ("max_weight", int 200); ("total_reps", int 15)]
           "Squat" 3 200 15); try reflexivity; lia.
Defined.

Lemma workout_card_of_integers_witness :
  workout_card utc_host january
  = Ok (card_open ++ "Wed, Jan 10, 2024" ++ card_stats
          ++ "2" ++ " exercise(s) • " ++ "1000" ++ card_exercises
          ++ Text.join_empty
               [tag_open ++ "Squat" ++ tag_details
                  ++ "3" ++ " sets • " ++ "200" ++ " lbs max • " ++ "15" ++ tag_close;
                tag_open ++ "Bench" ++ tag_details
                  ++ "3" ++ " sets • " ++ "150" ++ " lbs max • " ++ "18" ++ tag_close]
          ++ card_close).
Proof.
  apply (workout_card_of_integers utc_host
           [("workout_date", VStr "2024-01-10"); ("num_exercises", int 2);
            ("total_volume", int 1000); ("exercises", VArr [squat; bench])]
           (VStr "2024-01-10") "Wed, Jan 10, 2024" 2 1000 [squat; bench]);
    try reflexivity; try lia.
  constructor; [reflexivity|]. constructor; [reflexivity | constructor].
Defined.

Lemma loadWorkouts_logs_count_witness :
  exists html,
    loadWorkouts utc_host (answering 200 (VArr [january; march])) (page "") =
      (Returned tt,
       {| doc := {| userFilter := Some ""; workoutList := Some html |};
          trace := [SetInnerHTML loading_html; Fetch "http://localhost:8000/workouts";
                    SetInnerHTML html; ConsoleLog "Loaded 2 workouts"] |}).
Proof.
  destruct (cards_of_workouts utc_host [january; march] eq_refl) as (cards & Hcards).
  exists (Text.join_empty cards).
  apply (loadWorkouts_logs_count utc_host (answering 200 (VArr [january; march])) (page "")
           "" "" {| status := 200; json := BodyParsed (VArr [january; march]) |}
           [january; march] (Text.join_empty cards)); try reflexivity.
  - discriminate.
  - unfold render, array_map. rewrite Hcards. reflexivity.
Defined.

End MoreWitnesses.
